(* ===== verification/_CoqProject ===== *)
-Q . S2P
Prelude.v
Stream.v
Pixel.v
Heap.v
LinePool.v
Producer.v
DMAChain.v
Controller.v
Api.v
ReadBack.v
Pipeline.v
KbdLayouts.v
