(* ===== verification/Prelude.v ===== *)
(** * A verification library for the VGA direct (scanline-callback) controller

    This library models [src/src/dispdrivers/vgadirectcontroller.cpp] and
    [vgadirectcontroller.h]: the class [fabgl::VGADirectController], which
    streams a video frame to the I2S peripheral through a cyclic chain of DMA
    descriptors and computes every visible scanline "live" by calling a user
    rendering callback from the I2S end-of-frame interrupt.

    ** The program and how its parts interact

    - The line-buffer pool ([allocateViewPort], [freeViewPort],
      [getDefaultScanlineBuffer]) owns [m_linesCount] scanline buffers carved
      out of ONE DMA-capable block, plus a pointer table [m_lines].
    - The chain builder ([onSetupDMABuffer]) is called by the base class
      [VGABaseController] once per descriptor of the frame; it binds visible
      row [r] to [m_lines[r % m_linesCount]], records the descriptor of row
      [r] in [s_DMALines], marks every [m_linesCount/2]-th row as
      interrupt-raising ([eof]) and remembers the descriptor of row 0 as the
      frame-reset marker [s_frameResetDesc].  [setScanlineBuffer] and
      [getScanlineBuffer] rebind or read a row's descriptor later.
    - The configurator ([setResolution], [run]) refuses to do anything when no
      callback is registered, delegates to the base class (free the old
      viewport, allocate the new one, build the chain) and starts the output
      when [m_autoRun] is set; [run] installs the interrupt handler only when
      [m_isr_handle] is still null.
    - The producer ([ISRHandler]) runs on each [out_eof] interrupt: it resets
      [s_scanLine]/[s_VSync] on the frame-reset descriptor, renders the row
      [(s_scanLine + m_linesCount/2) % H] into [m_lines[row & (m_linesCount-1)]],
      advances [s_scanLine] by [m_linesCount/2] and raises [s_VSync] once it
      passes the viewport height; it then clears the interrupt status.
    - [readScreen] calls the callback synchronously into [m_lines[0]] for
      each row of a rectangle and decodes SBGR2222 pixels into [RGB888].

    ** Files

    - [Prelude] (this file): the fault type and the [res] error monad with its
      notation (scope [vdp_scope]), C integer division/remainder, 32-bit
      [int] bounds, [+], [-], [*] and [++] on [int]s ([c_add], [c_sub],
      [c_mul], [c_incr], faulting with [SignedOverflow] outside the
      range), the [outcome] monad of loops run
      with fuel ([Finished] or [OutOfFuel]), C array indexing, the
      power-of-two test, the mask/mod lemmas, the [vdp] hint databases and
      the tactics [res_inv], [decide_guard], [c_arith].
    - [Stream]: the [Stream] interface of userspace-platform/Stream.h as a
      type class over an implementation's state.
    - [Pixel]: [RGB888] and the SBGR2222 decoding of [readScreen]
      (vgadirectcontroller.cpp line 285); the 2-bit packing it inverts.
    - [Heap]: the heaps the code allocates from ([heap_caps_malloc],
      [heap_caps_free], [new[]], [delete]: library code, modelled from its
      documented contract) as blocks tagged with their allocation kind,
      byte memory addressed by block and offset, with out-of-bounds, null
      and mismatched-free faults; the heap's typing invariant
      [heap_typed] and its preservation by every operation ([HeapOp],
      [heap_step]).
    - [LinePool]: [allocateViewPort], [freeViewPort],
      [getDefaultScanlineBuffer] (lines 93-115, 198-201).
    - [Producer]: the production state [s_scanLine]/[s_VSync],
      [ISRHandler] (lines 311-351) translated statement by statement, and
      its pure production step [prod_step] with the iteration [prod_run],
      the getter [VSync()], and [isr_run], the handler fed a sequence of
      interrupts.
    - [DMAChain]: descriptors, [onSetupDMABuffer] (lines 162-178),
      [setScanlineBuffer], [getScanlineBuffer], and the walk of the frame's
      descriptors by the base class (spec-modelled: [build_chain]).
    - [Controller]: the controller object as a record of its members and
      the statics it shares, its constructor, [init],
      [setDrawScanlineCallback], [setScanlinesPerCallBack],
      [setResolution], [run], the base-class [setResolution]/[end]
      (spec-modelled) and the drawing primitives (empty bodies: no-ops).
    - [Api]: the controller driven by any interleaving, from its
      constructor, of API calls whose arguments have their C types and of
      I2S interrupts while the handler is installed ([reachable]; an
      interrupt is [isr_event] of [Controller], [ISRHandler] on the
      controller), with the heap-ownership invariant of the [USERSPACE]
      build and the typing invariant [vga_typed] of both builds.
    - [ReadBack]: [readScreen] (lines 279-288), as a reference over the
      ranges of rows and columns ([readScreen]) and as the two [for] loops
      written with [int] counters ([readScreen_loop], [readScreen_yloop],
      [readScreen_xloop]).
    - [Pipeline]: the DMA consumer (transmission of the frame's rows, each
      from slot [row % linesCount]) interleaved with the handler runs,
      each completing anywhere within the [half] rows after its
      descriptor; the pool's contents per slot.
    - [KbdLayouts]: the records of [kbdlayouts.h] and the
      [SupportedLayouts] tables.

    Both builds are modelled: the [#ifdef USERSPACE] switch is a section
    variable [userspace : bool] of every operation it affects.

    ** What the theorems show

    - The handler refines the abstract step (render [(s + half) mod H],
      advance, VSync, reset on the frame-reset descriptor); over a frame
      the rendered rows are [half, 2 half, ...]; with a power-of-two pool
      and [H] a multiple of it, the slots the handler fills are never those
      of the block in transmission; [s_scanLine] stays within [H + half]
      in a frame and overflows without the reset descriptor; the
      handler's write stays inside a power-of-two pool when the callback
      fills at most [half] lines ([ISRHandler_in_bounds]), and overflows
      the pool for three scanlines per callback
      ([ISRHandler_overflow_non_pow2]).
    - Over whole frames, with a power-of-two pool dividing [H], every row
      is transmitted from a slot holding exactly that scanline, whatever
      the handler's latency within its block ([pipeline_frames]); when
      [H] is an odd multiple of [half] the picture depends on that
      latency ([pipeline_race_odd_height]).
    - The chain binds each visible row to [m_lines[row % linesCount]],
      marks the interrupt rows and the frame-reset descriptor, one slot at
      a time ([onSetupDMABuffer_visible]) and over a whole frame
      ([build_chain_frame]); [setScanlineBuffer]/[getScanlineBuffer]
      round-trip.
    - Allocating then freeing the pool returns exactly the blocks taken in
      the [USERSPACE] build; outside it [freeViewPort] pairs [new[]] with
      [delete]; a second [freeViewPort] dereferences null; a failed pool
      allocation goes unreported.
    - [setResolution] without a callback changes nothing; [run] is
      idempotent and allocates the interrupt once; reconfiguration frees
      the previous pool exactly once, and over any sequence of calls the
      only blocks the controller holds are its current table and pool
      ([userspace_no_leak]); outside [USERSPACE] a second
      [setResolution] faults on the mismatched [delete]
      ([reconfigure_hardware_bad_free]).
    - Over one frame of interrupts the handler never faults and [VSync()]
      is true when the frame ends ([frame_raises_vsync], liveness); end to
      end, the hardware build configured from its constructor by
      [setDrawScanlineCallback] and [setResolution] runs its first frame
      of interrupts, through reachable states, to [VSync()]
      ([configured_display_raises_vsync]), composing the pool allocation,
      the chain builder's frame-reset marker, [run]'s installation of the
      handler and the producer.
    - In both builds, along any interleaving of calls and interrupts,
      every state is typed: the heap (ids, sizes, [uint8_t] cells, budget
      conserved) and the [int] members and statics ([reachable_typed]).
      Calling [setScanlinesPerCallBack] while the display runs makes the
      next interrupt index past the pointer table
      ([setScanlinesPerCallBack_while_running]).
    - [readScreen] returns the decoded callback bytes row by row, writing
      into the live pool slot [m_lines[0]]; decoded channels are levels
      [0, 85, 170, 255].  Its loops as written terminate
      ([readScreen_loop_terminates]), compute the reference when no
      counter reaches [INT_MAX] ([readScreen_loop_equiv]), and overflow
      [y] when [rect.Y2 = INT_MAX] ([readScreen_loop_overflow]).
    - Configurations outside the spec's hypotheses are exhibited: a
      non-power-of-two pool, a height that is an odd multiple of [half] or
      not a multiple of it.

    ** Bounds and fuel

    [prod_run], [isr_run], [pipe_run] and [readScreen_rows] recurse on the
    list of interrupts, events and rows, [setup_slots] on the frame's
    slots, [fill_slots] on the number of lines a callback fills.  Only the
    loops of [readScreen] as written use fuel: each loop may iterate at
    most [fuel] times, and [readScreen_fuel rect], one more than the
    larger of the row and column counts, is enough for both, since a
    loop over [Y1 .. Y2] tests its condition [Y2 - Y1 + 2] times (the
    termination theorem proves it for every rectangle of [int]s).
    Integers are [Z].  The [int] arithmetic that can overflow is
    computed with [c_add], [c_sub], [c_mul] and [c_incr], which fault with
    [SignedOverflow] (undefined behaviour in C) outside the 32-bit range:
    [s_scanLine + linesCount / 2] and [linesCount - 1] in [ISRHandler],
    [value * 2] in [setScanlinesPerCallBack], the counters of
    [readScreen].  The theorems about the handler assume the range where
    they need it ([H + linesCount / 2 <= INT_MAX + 1]), and
    [scanLine_overflow_without_reset] shows the handler faulting once
    [s_scanLine] has grown without the frame reset.

    ** Extensions not carried out

    [readScreen] as a further step of [reachable] (it changes only byte
    contents, so [vga_typed] would extend to it through
    [write_bytes_typed]); the hardware build's ownership invariant, which
    needs no reconfiguration case since a second [setResolution] faults
    ([reconfigure_hardware_bad_free]).

    ** Not modelled

    Register-level configuration of the I2S peripheral and GPIO stream
    ([startGPIOStream]), interrupt allocation internals
    ([esp_intr_alloc_pinnedToCore], modelled as a handle and a count),
    timing ([getCycleCount] performance counters), the layout data of the
    keyboard tables (defined outside this repository), any behaviour of
    [Stream] beyond its signatures (no implementation in the repository,
    and [Stream::readBytes] is declared but never defined), the singleton
    pointer [s_instance] and [instance()] (no modelled operation reads
    them: the handler receives the controller through its argument), and
    the constant getters [nativePixelFormat()] and
    [getBitmapSavePixelSize()]. *)

From Stdlib Require Import ZArith Lia.
From stdpp Require Export base list gmap.

Declare Scope vdp_scope.
Delimit Scope vdp_scope with vdp.
Open Scope Z_scope.

(** ** Faults: what undefined or fatal behaviour of the C++ code becomes *)

Inductive Fault : Type :=
  | NullDeref       (** dereference of a null pointer *)
  | OutOfBounds     (** access outside an allocated block *)
  | BadFree         (** free of a block that is not live, or by the wrong function *)
  | DivByZero       (** [/] or [%] by zero *)
  | Indeterminate   (** use of an uninitialised pointer *)
  | SignedOverflow  (** an [int] operation whose result does not fit *)
  | Aborted.        (** a call to [abort()] *)

#[export] Instance Fault_eq_dec : EqDecision Fault.
Proof. solve_decision. Defined.

(** The error monad of the development: a computation either returns or
    stops with a fault. *)
Inductive res (A : Type) : Type :=
  | Ok (a : A)
  | Err (f : Fault).
Arguments Ok {A} a.
Arguments Err {A} f.

#[export] Instance res_ret : MRet res := fun _ a => Ok a.
#[export] Instance res_bind : MBind res :=
  fun _ _ k m => match m with Ok a => k a | Err f => Err f end.
#[export] Instance res_fmap : FMap res :=
  fun _ _ g m => match m with Ok a => Ok (g a) | Err f => Err f end.

Notation "'fail' f" := (Err f) (at level 10) : vdp_scope.
Open Scope vdp_scope.

Definition is_ok {A} (m : res A) : bool :=
  match m with Ok _ => true | Err _ => false end.

Lemma bind_Ok {A B} (m : res A) (k : A -> res B) (b : B) :
  (m ≫= k) = Ok b <-> exists a, m = Ok a /\ k a = Ok b.
Proof. destruct m as [a|f]; simpl; split; [eauto|intros (?&?&?); congruence|discriminate|intros (?&?&?); discriminate]. Qed.

Lemma bind_ret {A B} (a : A) (k : A -> res B) : (mret a ≫= k) = k a.
Proof. reflexivity. Qed.

(** ** C integer arithmetic

    [int] division and remainder truncate toward zero: [Z.quot]/[Z.rem].
    Division by zero is a fault. *)

Definition c_div (a b : Z) : res Z := if decide (b = 0) then Err DivByZero else Ok (Z.quot a b).
Definition c_mod (a b : Z) : res Z := if decide (b = 0) then Err DivByZero else Ok (Z.rem a b).

Definition INT_MIN : Z := - 2 ^ 31.
Definition INT_MAX : Z := 2 ^ 31 - 1.
Definition in_int32 (z : Z) : Prop := INT_MIN <= z <= INT_MAX.

#[export] Instance in_int32_dec z : Decision (in_int32 z).
Proof. unfold in_int32. apply _. Defined.

(** [+], [-] and [*] on [int]s: undefined behaviour when the result is not
    an [int]. *)
Definition c_arith_op (r : Z) : res Z := if decide (in_int32 r) then Ok r else Err SignedOverflow.
Definition c_add (a b : Z) : res Z := c_arith_op (a + b).
Definition c_sub (a b : Z) : res Z := c_arith_op (a - b).
Definition c_mul (a b : Z) : res Z := c_arith_op (a * b).

(** [++i] on an [int]: undefined behaviour past [INT_MAX]. *)
Definition c_incr (i : Z) : res Z := if decide (i < INT_MAX) then Ok (i + 1) else Err SignedOverflow.

(** The outcome of a loop run with a bound on its iterations: it finishes
    (returning or faulting), or the bound runs out first. *)
Inductive outcome (A : Type) : Type :=
  | Finished (r : res A)
  | OutOfFuel.
Arguments Finished {A} r.
Arguments OutOfFuel {A}.

#[export] Instance outcome_ret : MRet outcome := fun _ a => Finished (Ok a).
#[export] Instance outcome_bind : MBind outcome :=
  fun _ _ k m => match m with
                 | Finished (Ok a) => k a
                 | Finished (Err f) => Finished (Err f)
                 | OutOfFuel => OutOfFuel
                 end.

(** A step of a loop body that cannot run out of fuel. *)
Definition lift {A} (m : res A) : outcome A := Finished m.

Lemma bind_lift {A B} (m : res A) (k : A -> outcome B) :
  (lift m ≫= k) = match m with Ok a => k a | Err f => Finished (Err f) end.
Proof. by destruct m. Qed.

(** A byte: [uint8_t]. *)
Definition is_u8 (z : Z) : bool := (0 <=? z) && (z <? 256).

(** The configuration property the spec asks for and the code relies on in
    [scanLine & (linesCount - 1)]: a positive power of two. *)
Definition is_pow2 (n : Z) : bool := (0 <? n) && (n =? 2 ^ Z.log2 n).

(** The indices [a, a+1, ..., b-1] of a C loop [for (i = a; i < b; ++i)]. *)
Definition zrange (a b : Z) : list Z := seqZ a (b - a).

(** [tbl[i]] on a C array whose contents are [l]: out of range is a fault. *)
Definition c_index {A} (l : list A) (i : Z) : res A :=
  if decide (0 <= i) then
    match l !! Z.to_nat i with Some x => Ok x | None => Err OutOfBounds end
  else Err OutOfBounds.

(** [tbl[i] = x]: out of range is a fault (stdpp's [<[i:=x]>] would ignore it). *)
Definition c_store {A} (l : list A) (i : Z) (x : A) : res (list A) :=
  if decide (0 <= i < Z.of_nat (length l)) then Ok (<[Z.to_nat i := x]> l) else Err OutOfBounds.

(** ** Shared arithmetic lemmas *)

Lemma zrange_length a b : length (zrange a b) = Z.to_nat (b - a).
Proof. apply length_seqZ. Qed.

Lemma zrange_lookup a b k :
  (k < Z.to_nat (b - a))%nat -> zrange a b !! k = Some (a + Z.of_nat k).
Proof. intros Hk. apply lookup_seqZ_lt. lia. Qed.

Lemma zrange_cons a b : a < b -> zrange a b = a :: zrange (a + 1) b.
Proof. intros. unfold zrange. rewrite (seqZ_cons a (b - a)) by lia. do 2 f_equal; lia. Qed.

Lemma zrange_nil a b : b <= a -> zrange a b = [].
Proof. intros. unfold zrange. apply seqZ_nil. lia. Qed.

Lemma elem_of_zrange a b i : i ∈ zrange a b <-> a <= i < b.
Proof. unfold zrange. rewrite elem_of_seqZ. lia. Qed.

Lemma c_index_0 {A} (x : A) l : c_index (x :: l) 0 = Ok x.
Proof. reflexivity. Qed.

Lemma c_index_ok {A} (l : list A) i :
  0 <= i < Z.of_nat (length l) -> exists x, c_index l i = Ok x /\ l !! Z.to_nat i = Some x.
Proof.
  intros Hi. unfold c_index. rewrite decide_True by lia.
  destruct (l !! Z.to_nat i) as [x|] eqn:E; [eauto|].
  apply lookup_ge_None in E. lia.
Qed.

Lemma c_index_lookup {A} (l : list A) i x :
  c_index l i = Ok x <-> 0 <= i /\ l !! Z.to_nat i = Some x.
Proof.
  unfold c_index. case_decide; [|split; [discriminate|lia]].
  destruct (l !! Z.to_nat i); split; intros; naive_solver.
Qed.

Lemma c_mod_ok a b : b <> 0 -> c_mod a b = Ok (Z.rem a b).
Proof. intros Hb. unfold c_mod. by rewrite decide_False. Qed.

Lemma c_arith_op_ok r : in_int32 r -> c_arith_op r = Ok r.
Proof. intros. unfold c_arith_op. by rewrite decide_True. Qed.

Lemma c_arith_op_ovf r : ~ in_int32 r -> c_arith_op r = Err SignedOverflow.
Proof. intros. unfold c_arith_op. by rewrite decide_False. Qed.

Lemma c_arith_op_Ok r x : c_arith_op r = Ok x -> x = r /\ in_int32 r.
Proof. unfold c_arith_op. case_decide; [by intros [= <-] | discriminate]. Qed.

Lemma c_add_ok a b : in_int32 (a + b) -> c_add a b = Ok (a + b).
Proof. apply c_arith_op_ok. Qed.
Lemma c_sub_ok a b : in_int32 (a - b) -> c_sub a b = Ok (a - b).
Proof. apply c_arith_op_ok. Qed.
Lemma c_mul_ok a b : in_int32 (a * b) -> c_mul a b = Ok (a * b).
Proof. apply c_arith_op_ok. Qed.

Lemma c_div_ok a b : b <> 0 -> c_div a b = Ok (Z.quot a b).
Proof. intros Hb. unfold c_div. by rewrite decide_False. Qed.

Lemma rem_nonneg_mod a b : 0 <= a -> 0 < b -> Z.rem a b = a mod b.
Proof. intros. apply Z.rem_mod_nonneg; lia. Qed.

Lemma quot_nonneg_div a b : 0 <= a -> 0 < b -> Z.quot a b = a / b.
Proof. intros. apply Z.quot_div_nonneg; lia. Qed.

Lemma half_pos n : 2 <= n -> 1 <= n / 2.
Proof. intros. apply (Z.div_le_mono 2 n 2); lia. Qed.

Lemma is_pow2_spec n : is_pow2 n = true -> 0 < n /\ n = 2 ^ Z.log2 n.
Proof. unfold is_pow2. rewrite andb_true_iff, Z.ltb_lt, Z.eqb_eq. tauto. Qed.

(** The mask of the interrupt handler is a remainder when the pool size is a
    power of two. *)
Lemma land_pred_pow2 x n :
  0 <= x -> is_pow2 n = true -> Z.land x (n - 1) = x mod n.
Proof.
  intros Hx Hp. apply is_pow2_spec in Hp as [Hn Hn'].
  set (k := Z.log2 n) in *. rewrite Hn'.
  replace (2 ^ k - 1) with (Z.ones k) by (rewrite Z.ones_equiv; lia).
  apply Z.land_ones. apply Z.log2_nonneg.
Qed.

Lemma pow2_even n : is_pow2 n = true -> 2 <= n -> n mod 2 = 0.
Proof.
  intros Hp H2. apply is_pow2_spec in Hp as [Hn Hn'].
  rewrite Hn'. assert (1 <= Z.log2 n) by (apply Z.log2_le_pow2; lia).
  replace (Z.log2 n) with (1 + (Z.log2 n - 1)) by lia.
  rewrite Z.pow_add_r by lia. rewrite Z.mul_comm. apply Z.mod_mul. lia.
Qed.

Create HintDb vdp discriminated.
Create Rewrite HintDb vdp_c.
#[export] Hint Rewrite c_mod_ok c_div_ok using lia : vdp_c.
(** Close a goal on the 32-bit range from the hypotheses, with constant
    powers computed. *)
Ltac int_range :=
  unfold in_int32, INT_MIN, INT_MAX in *; simpl in *; first [lia | vm_compute; intuition discriminate].

#[export] Hint Rewrite c_add_ok c_sub_ok c_mul_ok using int_range : vdp_c.
#[export] Hint Rewrite rem_nonneg_mod quot_nonneg_div using lia : vdp_c.

(** Unfold the C arithmetic of a goal when the divisors are known nonzero. *)
Ltac c_arith := autorewrite with vdp_c in *; simpl in *.

(** Invert a successful computation of the error monad: split binds, case
    on the guards, discard the failing branches. *)
Ltac res_inv :=
  repeat match goal with
  | H : (_ ≫= _) = Ok _ |- _ => apply bind_Ok in H as [? [? H]]
  | H : Ok _ = Ok _ |- _ => injection H as H
  | H : Err _ = Ok _ |- _ => discriminate H
  | H : (if decide ?P then _ else _) = Ok _ |- _ => destruct (decide P)
  | H : (if ?b then _ else _) = Ok _ |- _ => destruct b eqn:?
  | H : (_, _) = (_, _) |- _ => injection H as H
  end.

(** Resolve a guard [decide P] of the goal whose truth the hypotheses give
    (by [done] or [lia]); [match] backtracks over the guards of the goal. *)
Ltac decide_guard :=
  match goal with
  | |- context [decide ?P] =>
      first [ rewrite (decide_True (P:=P)) by (first [done | lia])
            | rewrite (decide_False (P:=P)) by (first [done | lia]) ]
  end.
