(* ===== verification/Stream.v ===== *)
(** * Stream: the byte-stream interface of the userspace platform

    [class Stream] (userspace-platform/Stream.h, lines 5-11) is the
    interface the userspace build offers for serial-like devices: three
    pure virtual operations and a virtual [readBytes].  The repository has
    no implementation of it and no caller, and [Stream::readBytes] is
    declared but defined nowhere.  The class is modelled as a type class
    over the state [S] of an implementation: each operation takes the
    state and returns its result with the new state. *)

From S2P Require Import Prelude.

(** [virtual ~Stream() {}] has no effect on the state and is not a field. *)
Class Stream (S : Type) := {
  available : S -> Z;                   (** [virtual int available() = 0] *)
  read : S -> Z * S;                    (** [virtual int read() = 0] *)
  write : Z -> S -> Z * S;              (** [virtual std::size_t write(uint8_t) = 0] *)
  readBytes : Z -> S -> list Z * Z * S  (** [virtual int readBytes(uint8_t *buffer, int len)]:
                                            the bytes stored at [buffer] and the result *)
}.
