(* ===== verification/Pixel.v ===== *)
(** * Pixel: the SBGR2222 to RGB888 decoding of [readScreen]

    [VGADirectController::nativePixelFormat] is [SBGR2222]: one byte per
    pixel, bits 0-1 red, 2-3 green, 4-5 blue, 6-7 the sync signals.
    [readScreen] (vgadirectcontroller.cpp, line 285) expands each 2-bit
    channel by [* 85].  This file holds the [RGB888] record, that decoding,
    the 2-bit packing a callback emits, and their round trip. *)

From S2P Require Import Prelude.
From coqutil Require Import Z.bitblast.

(** [RGB888] of displaycontroller.h: three [uint8_t] channels. *)
Record RGB888 : Type := mkRGB888 { R : Z; G : Z; B : Z }.

#[export] Instance RGB888_eq_dec : EqDecision RGB888.
Proof. solve_decision. Defined.

(** [RGB888((rawpix & 3) * 85, ((rawpix >> 2) & 3) * 85, ((rawpix >> 4) & 3) * 85)] *)
Definition decode_sbgr2222 (rawpix : Z) : RGB888 :=
  mkRGB888 (Z.land rawpix 3 * 85)
           (Z.land (Z.shiftr rawpix 2) 3 * 85)
           (Z.land (Z.shiftr rawpix 4) 3 * 85).

(** The byte a rendering callback writes for a 2-bit colour and the two
    sync bits [hv] (bits 6 and 7). *)
Definition pack_sbgr2222 (r g b hv : Z) : Z :=
  Z.lor (Z.land r 3)
    (Z.lor (Z.shiftl (Z.land g 3) 2)
      (Z.lor (Z.shiftl (Z.land b 3) 4) (Z.shiftl (Z.land hv 3) 6))).

(** The four output levels of a decoded channel. *)
Definition is_level (c : Z) : bool := (c =? 0) || (c =? 85) || (c =? 170) || (c =? 255).

Definition rgb_is_levels (c : RGB888) : bool :=
  is_level (R c) && is_level (G c) && is_level (B c).

(** ** Lemmas *)

Lemma land3_range x : 0 <= Z.land x 3 < 4.
Proof.
  change 3 with (Z.ones 2). rewrite Z.land_ones by lia.
  apply Z.mod_pos_bound. lia.
Qed.

Lemma land3_level x : is_level (Z.land x 3 * 85) = true.
Proof.
  pose proof (land3_range x) as Hr.
  destruct (decide (Z.land x 3 = 0)) as [->|]; [reflexivity|].
  destruct (decide (Z.land x 3 = 1)) as [->|]; [reflexivity|].
  destruct (decide (Z.land x 3 = 2)) as [->|]; [reflexivity|].
  replace (Z.land x 3) with 3 by lia. reflexivity.
Qed.

Lemma is_level_u8 c : is_level c = true -> is_u8 c = true.
Proof.
  unfold is_level, is_u8. intros H.
  repeat rewrite orb_true_iff in H. rewrite !Z.eqb_eq in H.
  destruct H as [[[-> | ->] | ->] | ->]; reflexivity.
Qed.

(** Channel extraction from a packed byte, one lemma per field. *)
Lemma pack_field_r r g b hv : Z.land (pack_sbgr2222 r g b hv) 3 = Z.land r 3.
Proof. unfold pack_sbgr2222. change 3 with (Z.ones 2). Z.bitblast. Qed.

Lemma pack_field_g r g b hv : Z.land (Z.shiftr (pack_sbgr2222 r g b hv) 2) 3 = Z.land g 3.
Proof. unfold pack_sbgr2222. change 3 with (Z.ones 2). Z.bitblast. Qed.

Lemma pack_field_b r g b hv : Z.land (Z.shiftr (pack_sbgr2222 r g b hv) 4) 3 = Z.land b 3.
Proof. unfold pack_sbgr2222. change 3 with (Z.ones 2). Z.bitblast. Qed.

Lemma land3_small x : 0 <= x < 4 -> Z.land x 3 = x.
Proof. intros. change 3 with (Z.ones 2). rewrite Z.land_ones by lia. apply Z.mod_small. lia. Qed.

Lemma pack_u8 r g b hv : is_u8 (pack_sbgr2222 r g b hv) = true.
Proof.
  unfold is_u8. apply andb_true_iff. rewrite Z.leb_le, Z.ltb_lt.
  assert (Hm : Z.land (pack_sbgr2222 r g b hv) (Z.ones 8) = pack_sbgr2222 r g b hv).
  { unfold pack_sbgr2222. change 3 with (Z.ones 2). Z.bitblast. }
  rewrite <- Hm, Z.land_ones by lia. apply Z.mod_pos_bound. lia.
Qed.

#[export] Hint Rewrite pack_field_r pack_field_g pack_field_b : vdp_c.

(** ** Properties of the decoding *)

(** C29: every channel of a decoded pixel is one of the four levels
    0, 85, 170, 255, whatever byte the callback wrote. *)
Theorem decode_sbgr2222_levels (rawpix : Z) : rgb_is_levels (decode_sbgr2222 rawpix) = true.
Proof. unfold rgb_is_levels, decode_sbgr2222; simpl. now rewrite !land3_level. Qed.

(** Decoding ignores the two sync bits (6 and 7) of the byte. *)
Lemma decode_sbgr2222_ignores_sync (rawpix : Z) :
  decode_sbgr2222 (Z.land rawpix 63) = decode_sbgr2222 rawpix.
Proof.
  unfold decode_sbgr2222. f_equal; f_equal;
    change 63 with (Z.ones 6); change 3 with (Z.ones 2); Z.bitblast.
Qed.

(** Decoding a packed pixel gives each 2-bit channel times 85. *)
Lemma decode_pack_sbgr2222 (r g b hv : Z) :
  0 <= r < 4 -> 0 <= g < 4 -> 0 <= b < 4 ->
  decode_sbgr2222 (pack_sbgr2222 r g b hv) = mkRGB888 (r * 85) (g * 85) (b * 85).
Proof.
  intros Hr Hg Hb. unfold decode_sbgr2222.
  rewrite pack_field_r, pack_field_g, pack_field_b, !land3_small by lia. reflexivity.
Qed.

(** The byte a callback emits for a colour whose channels are levels. *)
Definition encode_rgb888 (c : RGB888) (hv : Z) : Z :=
  pack_sbgr2222 (R c / 85) (G c / 85) (B c / 85) hv.

Lemma level_div85 c : is_level c = true -> 0 <= c / 85 < 4 /\ c / 85 * 85 = c.
Proof.
  unfold is_level. intros H. repeat rewrite orb_true_iff in H. rewrite !Z.eqb_eq in H.
  destruct H as [[[-> | ->] | ->] | ->]; rewrite ?Z.div_0_l by lia;
    [lia | change (85 / 85) with 1 | change (170 / 85) with 2 | change (255 / 85) with 3]; lia.
Qed.

(** C28: Round trip: a colour made of levels survives encoding to a byte and the
    decoding of [readScreen], whatever the sync bits. *)
Theorem decode_encode_rgb888 (c : RGB888) (hv : Z) :
  rgb_is_levels c = true -> decode_sbgr2222 (encode_rgb888 c hv) = c.
Proof.
  destruct c as [r g b]. unfold rgb_is_levels; simpl.
  intros H. apply andb_true_iff in H as [H Hb]. apply andb_true_iff in H as [Hr Hg].
  apply level_div85 in Hr as [Hr Hr'], Hg as [Hg Hg'], Hb as [Hb Hb'].
  unfold encode_rgb888, decode_sbgr2222; simpl.
  rewrite pack_field_r, pack_field_g, pack_field_b, !land3_small by lia.
  now rewrite Hr', Hg', Hb'.
Qed.

(** ** Witnesses *)

Lemma decode_encode_rgb888_witness :
  rgb_is_levels (mkRGB888 255 0 170) = true /\
  decode_sbgr2222 (encode_rgb888 (mkRGB888 255 0 170) 2) = mkRGB888 255 0 170.
Proof. split; [reflexivity|]. apply decode_encode_rgb888. reflexivity. Defined.
