(* ===== verification/Heap.v ===== *)
(** * Heap: the memory the line buffers and tables live in

    The controller allocates with [heap_caps_malloc] / frees with
    [heap_caps_free] (ESP-IDF) and, for [s_DMALines], with C++ [new[]] /
    [delete].  Neither allocator is code of this repository: this file models
    their documented contract.  A block has an id ([0] is [nullptr]), a size
    and the allocator that produced it; bytes are addressed by (block,
    offset).  [heap_caps_malloc] returns [nullptr] when the request cannot be
    served; [heap_caps_free(nullptr)] does nothing; freeing a block that is
    not live, or releasing a [new[]] block with scalar [delete], is undefined
    behaviour and becomes a [Fault].

    The heap's typing invariant [heap_typed] (well-formed block ids,
    nonnegative sizes and budget, [uint8_t] cells, conservation of the
    budget) is preserved by each operation the controller performs. *)

From S2P Require Import Prelude.

(** A byte pointer [uint8_t *]: a block and an offset into it. *)
Record Ptr : Type := mkPtr { pblk : Z; pofs : Z }.

#[export] Instance Ptr_eq_dec : EqDecision Ptr.
Proof. solve_decision. Defined.

Definition nullptr : Ptr := mkPtr 0 0.

#[export] Instance Ptr_inhabited : Inhabited Ptr := populate nullptr.

Lemma mkPtr_not_null b o : b <> 0 -> mkPtr b o <> nullptr.
Proof. unfold nullptr. intros Hb [=]. lia. Qed.

#[export] Hint Resolve mkPtr_not_null : vdp.

(** A pointer into a block other than block 0 is not [nullptr]; closed
    pointers are compared by computation. *)
Ltac ptr_ne := first [ apply mkPtr_not_null; lia | vm_compute; discriminate ].

(** [p + k] on a [uint8_t *]. *)
Definition ptr_add (p : Ptr) (k : Z) : Ptr := mkPtr (pblk p) (pofs p + k).

(** Which allocation function produced a block, hence which release
    function is allowed on it. *)
Inductive AllocKind : Type := KMalloc | KNewArray | KNew.

#[export] Instance AllocKind_eq_dec : EqDecision AllocKind.
Proof. solve_decision. Defined.

Record Heap : Type := mkHeap {
  hp_live  : gmap Z (Z * AllocKind);   (** live block -> size, allocator *)
  hp_mem   : gmap (Z * Z) Z;           (** byte contents *)
  hp_next  : Z;                        (** next fresh block id *)
  hp_avail : Z                         (** bytes the allocator can still serve *)
}.

Definition heap_init (avail : Z) : Heap := mkHeap ∅ ∅ 1 avail.

(** The allocation step shared by [heap_caps_malloc] and [new[]]. *)
Definition alloc_block (k : AllocKind) (size : Z) (h : Heap) : Ptr * Heap :=
  if decide (0 <= size <= hp_avail h)
  then (mkPtr (hp_next h) 0,
        mkHeap (<[hp_next h := (size, k)]> (hp_live h)) (hp_mem h)
               (hp_next h + 1) (hp_avail h - size))
  else (nullptr, h).

(** [heap_caps_malloc(size, caps)]: [nullptr] on failure and for a zero
    size (no fault). *)
Definition heap_caps_malloc (size : Z) (h : Heap) : Ptr * Heap :=
  if decide (size <= 0) then (nullptr, h) else alloc_block KMalloc size h.

(** [new T[n]] with [size = n * sizeof(T)]: without exceptions, a failed
    [new] aborts. *)
Definition cpp_new_array (size : Z) (h : Heap) : res (Ptr * Heap) :=
  let '(p, h') := alloc_block KNewArray size h in
  if decide (p = nullptr) then Err Aborted else Ok (p, h').

(** Releasing a block produced by allocator [k]. *)
Definition release (k : AllocKind) (p : Ptr) (h : Heap) : res Heap :=
  match hp_live h !! pblk p with
  | Some (size, k') =>
      if decide (pofs p = 0 /\ k' = k)
      then Ok (mkHeap (delete (pblk p) (hp_live h)) (hp_mem h) (hp_next h) (hp_avail h + size))
      else Err BadFree
  | None => Err BadFree
  end.

(** [heap_caps_free(p)]: a null pointer is ignored. *)
Definition heap_caps_free (p : Ptr) (h : Heap) : res Heap :=
  if decide (p = nullptr) then Ok h else release KMalloc p h.

(** Scalar [delete p]: a null pointer is ignored; the block must come from
    scalar [new]. *)
Definition cpp_delete (p : Ptr) (h : Heap) : res Heap :=
  if decide (p = nullptr) then Ok h else release KNew p h.

(** Can [len] bytes be accessed at [p]? *)
Definition accessible (p : Ptr) (len : Z) (h : Heap) : res unit :=
  if decide (pblk p = 0) then Err NullDeref else
  match hp_live h !! pblk p with
  | Some (size, _) => if decide (0 <= pofs p /\ pofs p + len <= size) then Ok tt else Err OutOfBounds
  | None => Err OutOfBounds
  end.

Fixpoint store_bytes (b o : Z) (bytes : list Z) (m : gmap (Z * Z) Z) : gmap (Z * Z) Z :=
  match bytes with
  | [] => m
  | x :: rest => store_bytes b (o + 1) rest (<[(b, o) := x]> m)
  end.

Definition load_byte (m : gmap (Z * Z) Z) (b o : Z) : Z := default 0 (m !! (b, o)).

(** [memcpy(p, bytes, len)] as a callback performs it. *)
Definition write_bytes (p : Ptr) (bytes : list Z) (h : Heap) : res Heap :=
  _ ← accessible p (Z.of_nat (length bytes)) h;
  Ok (mkHeap (hp_live h) (store_bytes (pblk p) (pofs p) bytes (hp_mem h)) (hp_next h) (hp_avail h)).

(** [p[i]] on a [uint8_t *]. *)
Definition read_byte (p : Ptr) (i : Z) (h : Heap) : res Z :=
  _ ← accessible (ptr_add p i) 1 h;
  Ok (load_byte (hp_mem h) (pblk p) (pofs p + i)).

(** ** Lemmas *)

Lemma store_bytes_other b o bytes m b' o' :
  (b' <> b \/ o' < o \/ o + Z.of_nat (length bytes) <= o') ->
  store_bytes b o bytes m !! (b', o') = m !! (b', o').
Proof.
  revert o m. induction bytes as [|x rest IH]; intros o m Hne; simpl; [done|].
  rewrite IH by (simpl in Hne; lia). rewrite lookup_insert_ne; [done|].
  intros [=]; simpl in Hne; lia.
Qed.

Lemma store_bytes_lookup b o bytes m i :
  (0 <= i < Z.of_nat (length bytes)) ->
  store_bytes b o bytes m !! (b, o + i) = bytes !! Z.to_nat i.
Proof.
  revert o m i. induction bytes as [|x rest IH]; intros o m i Hi; simpl in *; [lia|].
  destruct (decide (i = 0)) as [->|Hi0].
  - rewrite store_bytes_other by lia. rewrite Z.add_0_r. apply lookup_insert_eq.
  - replace (o + i) with ((o + 1) + (i - 1)) by lia. rewrite IH by lia.
    replace (Z.to_nat i) with (S (Z.to_nat (i - 1))) by lia. reflexivity.
Qed.

Lemma accessible_ok p len h :
  accessible p len h = Ok tt <->
  pblk p <> 0 /\ exists size k, hp_live h !! pblk p = Some (size, k) /\
                                0 <= pofs p /\ pofs p + len <= size.
Proof.
  unfold accessible. destruct (decide (pblk p = 0)); [split; [discriminate|tauto]|].
  destruct (hp_live h !! pblk p) as [[size k]|]; [|split; [discriminate|naive_solver]].
  case_decide; split; intros; [naive_solver..| |]; [discriminate|naive_solver].
Qed.

(** Reading back what was written: the memory round trip. *)
Lemma write_read_bytes p bytes h h' i :
  write_bytes p bytes h = Ok h' -> 0 <= i < Z.of_nat (length bytes) ->
  read_byte p i h' = Ok (default 0 (bytes !! Z.to_nat i)).
Proof.
  unfold write_bytes, read_byte. intros Hw Hi.
  destruct (accessible p _ h) as [[]|] eqn:Ha; [|discriminate]. injection Hw as <-.
  apply accessible_ok in Ha as (Hb & size & k & Hl & Ho & Hlen).
  assert (accessible (ptr_add p i) 1 {| hp_live := hp_live h; hp_mem := store_bytes (pblk p) (pofs p) bytes (hp_mem h); hp_next := hp_next h; hp_avail := hp_avail h |} = Ok tt) as ->.
  { apply accessible_ok. simpl. split; [done|]. exists size, k. split; [done|]. lia. }
  simpl. unfold load_byte. rewrite store_bytes_lookup by lia. reflexivity.
Qed.

Lemma write_bytes_live p bytes h h' : write_bytes p bytes h = Ok h' -> hp_live h' = hp_live h.
Proof. unfold write_bytes. destruct (accessible _ _ _) as [[]|]; simpl; [|discriminate]. by intros [= <-]. Qed.

Lemma write_bytes_ok p bytes h size k :
  pblk p <> 0 -> hp_live h !! pblk p = Some (size, k) ->
  0 <= pofs p -> pofs p + Z.of_nat (length bytes) <= size ->
  exists h', write_bytes p bytes h = Ok h'.
Proof.
  intros Hb Hl Ho Hs. unfold write_bytes.
  assert (accessible p (Z.of_nat (length bytes)) h = Ok tt) as ->.
  { apply accessible_ok. split; [done|]. eauto. }
  simpl. eauto.
Qed.

Lemma map_const_in {A B} (f : A -> B) (v : B) (l : list A) :
  (forall x, x ∈ l -> f x = v) -> map f l = replicate (length l) v.
Proof. induction l as [|x l IH]; intros Hf; [done|]. simpl. rewrite Hf, IH by set_solver. done. Qed.

(** ** Heap well-formedness: live blocks have ids below [hp_next]. *)

Definition heap_wf (h : Heap) : Prop :=
  1 <= hp_next h /\ forall b x, hp_live h !! b = Some x -> 1 <= b < hp_next h.

Lemma alloc_block_wf k size h : heap_wf h -> heap_wf (alloc_block k size h).2.
Proof.
  intros [H1 Hb]. unfold alloc_block. case_decide; [|done]. split; simpl; [lia|].
  intros b x. rewrite lookup_insert. case_decide; [intros; lia|].
  intros Hl. apply Hb in Hl. lia.
Qed.

Lemma heap_caps_malloc_wf size h : heap_wf h -> heap_wf (heap_caps_malloc size h).2.
Proof. unfold heap_caps_malloc. case_decide; [done|]. apply alloc_block_wf. Qed.

Lemma heap_wf_fresh h k : heap_wf h -> hp_next h <= k -> hp_live h !! k = None.
Proof. intros [_ Hb] Hk. destruct (hp_live h !! k) eqn:E; [|done]. apply Hb in E. lia. Qed.

Lemma heap_init_wf avail : heap_wf (heap_init avail).
Proof. split; simpl; [lia|]. intros b x Hl. by rewrite lookup_empty in Hl. Qed.

#[export] Hint Resolve heap_init_wf : vdp.

(** ** The heap as its clients use it, and its typing invariant *)

(** The heap operations the controller performs. *)
Inductive HeapOp : Type :=
  | OpMalloc (size : Z)              (** [heap_caps_malloc(size, caps)] *)
  | OpNewArray (size : Z)            (** [new T[n]] *)
  | OpFree (p : Ptr)                 (** [heap_caps_free(p)] *)
  | OpDelete (p : Ptr)               (** [delete p] *)
  | OpWrite (p : Ptr) (bytes : list Z). (** a callback's [memcpy] into a line *)

Definition heap_step (o : HeapOp) (h : Heap) : res Heap :=
  match o with
  | OpMalloc size => Ok (heap_caps_malloc size h).2
  | OpNewArray size => snd <$> cpp_new_array size h
  | OpFree p => heap_caps_free p h
  | OpDelete p => cpp_delete p h
  | OpWrite p bytes => write_bytes p bytes h
  end.

(** The arguments have their C types: the bytes written are [uint8_t]. *)
Definition op_typed (o : HeapOp) : Prop :=
  match o with OpWrite _ bytes => Forall (fun v => is_u8 v = true) bytes | _ => True end.

Definition block_size (_ : Z) (x : Z * AllocKind) (acc : Z) : Z := x.1 + acc.

(** Bytes held by live blocks. *)
Definition heap_used (h : Heap) : Z := map_fold block_size 0 (hp_live h).

(** The heap's typing invariant: ids are well formed, sizes and the free
    budget are nonnegative, memory holds [uint8_t] values, and the budget
    plus the bytes in use is the fixed total [total]. *)
Definition heap_typed (total : Z) (h : Heap) : Prop :=
  heap_wf h /\ 0 <= hp_avail h /\ map_Forall (fun _ x => 0 <= x.1) (hp_live h) /\
  map_Forall (fun _ v => is_u8 v = true) (hp_mem h) /\ hp_avail h + heap_used h = total.

Lemma block_size_comm j1 j2 z1 z2 y : block_size j1 z1 (block_size j2 z2 y) = block_size j2 z2 (block_size j1 z1 y).
Proof. unfold block_size. lia. Qed.

Lemma used_insert (live : gmap Z (Z * AllocKind)) b x :
  live !! b = None -> map_fold block_size 0 (<[b := x]> live) = x.1 + map_fold block_size 0 live.
Proof. intros. rewrite map_fold_insert_L; [done | intros; apply block_size_comm | done]. Qed.

Lemma used_delete (live : gmap Z (Z * AllocKind)) b x :
  live !! b = Some x -> map_fold block_size 0 live = x.1 + map_fold block_size 0 (delete b live).
Proof. intros. rewrite (map_fold_delete_L _ _ b x live); [done | intros; apply block_size_comm | done]. Qed.

Lemma store_bytes_u8 b o bytes m :
  Forall (fun v => is_u8 v = true) bytes -> map_Forall (fun _ v => is_u8 v = true) m ->
  map_Forall (fun _ v => is_u8 v = true) (store_bytes b o bytes m).
Proof.
  revert o m. induction bytes as [|x rest IH]; intros o m Hb Hm; [done|].
  apply Forall_cons in Hb as [Hx Hr]. apply IH; [done|]. by apply map_Forall_insert_2.
Qed.

Lemma alloc_block_typed total k size h : heap_typed total h -> heap_typed total (alloc_block k size h).2.
Proof.
  intros Ht. pose proof (alloc_block_wf k size h (proj1 Ht)) as Hwf. revert Hwf.
  unfold alloc_block. destruct (decide (0 <= size <= hp_avail h)) as [Hg|]; [|done].
  destruct Ht as (Hw & Ha & Hs & Hm & Hu). intros Hwf. split; [done|]. simpl. split; [lia|].
  split; [apply map_Forall_insert_2; [simpl; lia | done]|]. split; [done|].
  unfold heap_used in *. simpl. rewrite used_insert by (apply heap_wf_fresh; [done | lia]). simpl. lia.
Qed.

Lemma release_typed total k p h h' : heap_typed total h -> release k p h = Ok h' -> heap_typed total h'.
Proof.
  intros (Hw & Ha & Hs & Hm & Hu). unfold release.
  destruct (hp_live h !! pblk p) as [[size k']|] eqn:Hl; [|discriminate].
  case_decide; [|discriminate]. intros [= <-]. pose proof (Hs _ _ Hl) as Hsz. simpl in Hsz.
  split; [|split; [simpl; lia|split; [by apply map_Forall_delete|split; [done|]]]].
  - destruct Hw as [H1 Hb]. split; [done|]. intros b x Hx. simpl in Hx. apply lookup_delete_Some in Hx as [_ Hx]. eauto.
  - unfold heap_used in *. simpl. rewrite (used_delete _ _ _ Hl) in Hu. simpl in Hu. lia.
Qed.

Lemma write_bytes_typed total p bytes h h' :
  Forall (fun v => is_u8 v = true) bytes -> heap_typed total h -> write_bytes p bytes h = Ok h' ->
  heap_typed total h'.
Proof.
  intros Hb (Hw & Ha & Hs & Hm & Hu). unfold write_bytes.
  destruct (accessible _ _ _) as [[]|]; simpl; [|discriminate]. intros [= <-].
  split; [exact Hw|]. simpl. repeat split; try done. by apply store_bytes_u8.
Qed.

Lemma heap_init_typed avail : 0 <= avail -> heap_typed avail (heap_init avail).
Proof.
  intros. split; [apply heap_init_wf|]. simpl. repeat split; [lia | apply map_Forall_empty..|].
  unfold heap_used. simpl. rewrite map_fold_empty. lia.
Qed.

Lemma heap_caps_malloc_typed total size h : heap_typed total h -> heap_typed total (heap_caps_malloc size h).2.
Proof. unfold heap_caps_malloc. case_decide; [done|]. apply alloc_block_typed. Qed.

Lemma cpp_new_array_typed total size h p h' :
  heap_typed total h -> cpp_new_array size h = Ok (p, h') -> heap_typed total h'.
Proof.
  unfold cpp_new_array. intros Ht. pose proof (alloc_block_typed total KNewArray size h Ht) as Ha.
  destruct (alloc_block KNewArray size h) as [q h1]. case_decide; [discriminate|]. by intros [= _ <-].
Qed.

Lemma heap_caps_free_typed total p h h' :
  heap_typed total h -> heap_caps_free p h = Ok h' -> heap_typed total h'.
Proof. unfold heap_caps_free. case_decide; [by intros ? [= <-]|]. apply release_typed. Qed.

Lemma cpp_delete_typed total p h h' :
  heap_typed total h -> cpp_delete p h = Ok h' -> heap_typed total h'.
Proof. unfold cpp_delete. case_decide; [by intros ? [= <-]|]. apply release_typed. Qed.

(** Every heap operation the controller performs ([heap_caps_malloc],
    [new[]], [heap_caps_free], [delete], a byte copy into a block), applied
    with arguments of their C types and returning without fault, keeps the
    heap typed. *)
Lemma heap_step_typed total o h h' :
  heap_typed total h -> op_typed o -> heap_step o h = Ok h' -> heap_typed total h'.
Proof.
  intros Ht Ho. destruct o as [size|size|p|p|p bytes]; simpl.
  - intros [= <-]. by apply heap_caps_malloc_typed.
  - destruct (cpp_new_array size h) as [[q h1]|] eqn:E; [|discriminate].
    intros [= <-]. by eapply cpp_new_array_typed.
  - by apply heap_caps_free_typed.
  - by apply cpp_delete_typed.
  - by apply write_bytes_typed.
Qed.
