(* ===== verification/LinePool.v ===== *)
(** * LinePool: the scanline buffers of [VGADirectController]

    [allocateViewPort] (vgadirectcontroller.cpp, lines 93-102) allocates a
    pointer table [m_lines] and ONE DMA-capable block of
    [m_viewPortWidth * m_linesCount] bytes, and points [m_lines[i]] at the
    [i]-th [m_viewPortWidth]-byte slice of it; outside the [USERSPACE]
    build it also allocates [s_DMALines] with [new lldesc_t*[H]].
    [freeViewPort] (lines 105-115) releases them, and
    [getDefaultScanlineBuffer] (lines 198-201) returns
    [m_lines[scanline % m_linesCount]].

    The [USERSPACE] preprocessor switch is the section variable [userspace]. *)

From S2P Require Import Prelude Heap.

(** [sizeof(uint8_t * )] and [sizeof(lldesc_t * )] on the 32-bit target. *)
Definition PTR_SIZE : Z := 4.

(** The pool-related members: [m_lines] (the table pointer and its
    contents) and the static [s_DMALines] (pointer and contents: the index
    of the descriptor of each visible row, [None] while unassigned). *)
Record ViewPort : Type := mkViewPort {
  m_lines       : Ptr;
  m_lines_tbl   : list Ptr;
  s_DMALines    : Ptr;
  s_DMALines_tbl : list (option Z)
}.

(** Static and member initialisers: both tables start as [nullptr]. *)
Definition vp_init : ViewPort := mkViewPort nullptr [] nullptr [].

(** [m_lines[0] = base; m_lines[i] = m_lines[0] + i * m_viewPortWidth]. *)
Definition pool_lines (base : Ptr) (linesCount width : Z) : list Ptr :=
  base :: map (fun i => ptr_add base (i * width)) (zrange 1 linesCount).

Section Pool.
Context (userspace : bool).

Definition allocateViewPort (linesCount width height : Z) (vp : ViewPort) (h : Heap)
  : res (ViewPort * Heap) :=
  let '(tbl, h1) := heap_caps_malloc (PTR_SIZE * linesCount) h in
  if decide (tbl = nullptr) then Err NullDeref else
  let '(base, h2) := heap_caps_malloc (width * linesCount) h1 in
  let lines := pool_lines base linesCount width in
  if userspace then Ok (mkViewPort tbl lines (s_DMALines vp) (s_DMALines_tbl vp), h2)
  else '(dl, h3) ← cpp_new_array (PTR_SIZE * height) h2;
       Ok (mkViewPort tbl lines dl (replicate (Z.to_nat height) None), h3).

(** [VGABaseController::freeViewPort()] releases the base class viewport,
    which this controller never allocates: it has no effect here. *)
Definition freeViewPort (vp : ViewPort) (h : Heap) : res (ViewPort * Heap) :=
  if decide (m_lines vp = nullptr) then Err NullDeref else
  p0 ← c_index (m_lines_tbl vp) 0;
  h1 ← heap_caps_free p0 h;
  h2 ← heap_caps_free (m_lines vp) h1;
  let vp' := mkViewPort nullptr [] (s_DMALines vp) (s_DMALines_tbl vp) in
  if userspace then Ok (vp', h2)
  else h3 ← cpp_delete (s_DMALines vp) h2; Ok (vp', h3).

End Pool.

Definition getDefaultScanlineBuffer (linesCount : Z) (vp : ViewPort) (scanline : Z) : res Ptr :=
  if decide (m_lines vp = nullptr) then Err NullDeref else
  i ← c_mod scanline linesCount;
  c_index (m_lines_tbl vp) i.

Lemma alloc_block_fresh k size h p h' :
  heap_wf h -> alloc_block k size h = (p, h') -> p <> nullptr ->
  hp_live h !! pblk p = None /\ pofs p = 0 /\
  hp_live h' = <[pblk p := (size, k)]> (hp_live h) /\ hp_mem h' = hp_mem h.
Proof.
  intros [H1 Hb] Ha Hp. unfold alloc_block in Ha. case_decide; [|by injection Ha as <- <-].
  injection Ha as <- <-. simpl. repeat split; try done.
  destruct (hp_live h !! hp_next h) eqn:E; [|done]. apply Hb in E. lia.
Qed.


Lemma release_live k p h h' :
  release k p h = Ok h' -> hp_live h' = delete (pblk p) (hp_live h) /\ hp_mem h' = hp_mem h.
Proof.
  unfold release. destruct (hp_live h !! pblk p) as [[size k']|]; [|discriminate].
  case_decide; [|discriminate]. intros [= <-]. done.
Qed.

Lemma pool_lines_length base linesCount width :
  1 <= linesCount -> length (pool_lines base linesCount width) = Z.to_nat linesCount.
Proof. intros. simpl. rewrite length_map, zrange_length. lia. Qed.

(** Slot [i] of the pool starts [i * width] bytes into the block. *)
Lemma pool_lines_lookup base linesCount width i :
  0 <= i < linesCount ->
  pool_lines base linesCount width !! Z.to_nat i = Some (mkPtr (pblk base) (pofs base + i * width)).
Proof.
  intros Hi. destruct (decide (i = 0)) as [->|Hi0].
  - destruct base; simpl. by rewrite Z.add_0_r.
  - replace (Z.to_nat i) with (S (Z.to_nat (i - 1))) by lia. simpl.
    rewrite list_lookup_fmap, zrange_lookup by lia. simpl.
    by replace (1 + Z.of_nat (Z.to_nat (i - 1))) with i by lia.
Qed.

(** Bytes [allocateViewPort] asks of the heap. *)
Definition alloc_need (userspace : bool) (linesCount width height : Z) : Z :=
  PTR_SIZE * linesCount + width * linesCount + (if userspace then 0 else PTR_SIZE * height).

Lemma heap_caps_malloc_ok size h :
  0 < size <= hp_avail h ->
  heap_caps_malloc size h =
    (mkPtr (hp_next h) 0,
     mkHeap (<[hp_next h := (size, KMalloc)]> (hp_live h)) (hp_mem h) (hp_next h + 1) (hp_avail h - size)).
Proof. intros Hs. unfold heap_caps_malloc, alloc_block. rewrite decide_False, decide_True by lia. done. Qed.

Lemma cpp_new_array_ok size h :
  heap_wf h -> 0 <= size <= hp_avail h ->
  cpp_new_array size h =
    Ok (mkPtr (hp_next h) 0,
        mkHeap (<[hp_next h := (size, KNewArray)]> (hp_live h)) (hp_mem h) (hp_next h + 1) (hp_avail h - size)).
Proof.
  intros [H1 _] Hs. unfold cpp_new_array, alloc_block. rewrite decide_True by lia.
  rewrite decide_False; [done|]. ptr_ne.
Qed.

(** With enough memory, [allocateViewPort] succeeds: the table is block
    [n], the pool is block [n+1] of [width * linesCount] bytes, and (outside
    [USERSPACE]) [s_DMALines] is block [n+2] with [height] unset entries. *)
Lemma allocateViewPort_enough us linesCount width height vp h :
  heap_wf h -> 1 <= linesCount -> 1 <= width -> 0 <= height ->
  alloc_need us linesCount width height <= hp_avail h ->
  let n := hp_next h in
  let h2 := mkHeap (<[n + 1 := (width * linesCount, KMalloc)]>
                      (<[n := (PTR_SIZE * linesCount, KMalloc)]> (hp_live h)))
                   (hp_mem h) (n + 2)
                   (hp_avail h - PTR_SIZE * linesCount - width * linesCount) in
  allocateViewPort us linesCount width height vp h =
    if us then Ok (mkViewPort (mkPtr n 0) (pool_lines (mkPtr (n + 1) 0) linesCount width)
                              (s_DMALines vp) (s_DMALines_tbl vp), h2)
    else Ok (mkViewPort (mkPtr n 0) (pool_lines (mkPtr (n + 1) 0) linesCount width)
                        (mkPtr (n + 2) 0) (replicate (Z.to_nat height) None),
             mkHeap (<[n + 2 := (PTR_SIZE * height, KNewArray)]> (hp_live h2)) (hp_mem h)
                    (n + 3) (hp_avail h2 - PTR_SIZE * height)).
Proof.
  intros Hwf HN HW HH Hneed. cbv zeta. unfold allocateViewPort, alloc_need, PTR_SIZE in *.
  rewrite heap_caps_malloc_ok by (destruct us; nia).
  rewrite decide_False by (destruct Hwf; ptr_ne).
  rewrite heap_caps_malloc_ok by (simpl; destruct us; nia).
  destruct us; simpl.
  - do 2 f_equal. f_equal. lia.
  - rewrite cpp_new_array_ok; simpl.
    + replace (hp_next h + 1 + 1) with (hp_next h + 2) by lia.
      replace (hp_next h + 2 + 1) with (hp_next h + 3) by lia. reflexivity.
    + split; simpl; [destruct Hwf; lia|]. intros b x. rewrite !lookup_insert.
      repeat case_decide; try (intros; destruct Hwf; lia). intros Hl. apply Hwf in Hl. lia.
    + nia.
Qed.


Lemma heap_caps_free_live p size h :
  pblk p <> 0 -> pofs p = 0 -> hp_live h !! pblk p = Some (size, KMalloc) ->
  heap_caps_free p h = Ok (mkHeap (delete (pblk p) (hp_live h)) (hp_mem h) (hp_next h) (hp_avail h + size)).
Proof.
  intros Hb Ho Hl. unfold heap_caps_free, release.
  rewrite decide_False by (destruct p; unfold nullptr; intros [=]; simpl in *; lia).
  rewrite Hl, decide_True by done. reflexivity.
Qed.

(** The pool's allocation and release keep the heap typed. *)
Lemma allocateViewPort_typed us total linesCount width height vp h vp' h' :
  heap_typed total h -> allocateViewPort us linesCount width height vp h = Ok (vp', h') ->
  heap_typed total h'.
Proof.
  unfold allocateViewPort. intros Ht.
  pose proof (heap_caps_malloc_typed total (PTR_SIZE * linesCount) h Ht) as H1.
  destruct (heap_caps_malloc _ h) as [tbl h1]. case_decide; [discriminate|].
  pose proof (heap_caps_malloc_typed total (width * linesCount) h1 H1) as H2.
  destruct (heap_caps_malloc _ h1) as [base h2]. destruct us; [by intros [= _ <-]|].
  destruct (cpp_new_array _ h2) as [[dl h3]|] eqn:E; [simpl|discriminate].
  intros [= _ <-]. by eapply cpp_new_array_typed.
Qed.

Lemma freeViewPort_typed us total vp h vp' h' :
  heap_typed total h -> freeViewPort us vp h = Ok (vp', h') -> heap_typed total h'.
Proof.
  unfold freeViewPort. intros Ht. case_decide; [discriminate|].
  destruct (c_index _ 0) as [p0|]; [simpl|discriminate].
  destruct (heap_caps_free p0 h) as [h1|] eqn:E1; [simpl|discriminate].
  destruct (heap_caps_free (m_lines vp) h1) as [h2|] eqn:E2; [simpl|discriminate].
  assert (Ht2 : heap_typed total h2) by (do 2 (eapply heap_caps_free_typed; [|eassumption]); done).
  destruct us; [by intros [= _ <-]|].
  destruct (cpp_delete _ h2) as [h3|] eqn:E3; [simpl|discriminate].
  intros [= _ <-]. by eapply cpp_delete_typed.
Qed.

(** ** Properties of the pool *)

(** C24: The default buffer of scanline [s] is slot [s mod m_linesCount] of the
    pool: [(s mod m_linesCount) * width] bytes into the pool block. *)
Theorem getDefaultScanlineBuffer_slot linesCount width base tbl dl dlt s :
  tbl <> nullptr -> 1 <= linesCount -> 0 <= s ->
  getDefaultScanlineBuffer linesCount (mkViewPort tbl (pool_lines base linesCount width) dl dlt) s
  = Ok (mkPtr (pblk base) (pofs base + (s mod linesCount) * width)).
Proof.
  intros Htbl HN Hs. unfold getDefaultScanlineBuffer; simpl. rewrite decide_False by done.
  c_arith. apply c_index_lookup. split; [apply Z.mod_pos_bound; lia|].
  apply pool_lines_lookup. apply Z.mod_pos_bound. lia.
Qed.

(** Freeing what [allocateViewPort] (userspace) allocated gives back the
    live blocks and the capacity of the heap it started from. *)
Lemma free_allocated_userspace linesCount width dl dlt h :
  heap_wf h -> 1 <= linesCount -> 1 <= width ->
  let n := hp_next h in
  freeViewPort true (mkViewPort (mkPtr n 0) (pool_lines (mkPtr (n + 1) 0) linesCount width) dl dlt)
    (mkHeap (<[n + 1 := (width * linesCount, KMalloc)]>
               (<[n := (PTR_SIZE * linesCount, KMalloc)]> (hp_live h)))
            (hp_mem h) (n + 2) (hp_avail h - PTR_SIZE * linesCount - width * linesCount))
  = Ok (mkViewPort nullptr [] dl dlt, mkHeap (hp_live h) (hp_mem h) (hp_next h + 2) (hp_avail h)).
Proof.
  intros Hwf HN HW n.
  pose proof (heap_wf_fresh h n Hwf ltac:(lia)) as F0.
  pose proof (heap_wf_fresh h (n + 1) Hwf ltac:(lia)) as F1.
  destruct Hwf as [Hn _].
  unfold freeViewPort; simpl. rewrite decide_False by ptr_ne.
  rewrite heap_caps_free_live with (size := width * linesCount) by (simpl; try lia; apply lookup_insert_eq).
  simpl. rewrite heap_caps_free_live with (size := PTR_SIZE * linesCount); simpl; try lia.
  - rewrite delete_insert_eq, delete_insert_ne, delete_insert_eq by lia.
    rewrite (delete_id (hp_live h) (n + 1)), delete_id by done.
    do 3 f_equal. lia.
  - rewrite lookup_delete_ne, lookup_insert_ne by lia. apply lookup_insert_eq.
Qed.

(** C23: In the [USERSPACE] build, allocating and then freeing the viewport
    succeeds and gives back exactly the blocks it took: no leak, no double
    free. *)
Theorem allocate_free_viewport_userspace linesCount width height vp h :
  heap_wf h -> 1 <= linesCount -> 1 <= width -> 0 <= height ->
  alloc_need true linesCount width height <= hp_avail h ->
  exists vp1 h1 vp2 h2,
    allocateViewPort true linesCount width height vp h = Ok (vp1, h1) /\
    freeViewPort true vp1 h1 = Ok (vp2, h2) /\
    m_lines vp2 = nullptr /\ hp_live h2 = hp_live h.
Proof.
  intros Hwf HN HW HH Hneed.
  rewrite (allocateViewPort_enough true) by done.
  do 4 eexists. split; [reflexivity|]. rewrite free_allocated_userspace by done. eauto.
Qed.


(** Outside [USERSPACE], freeing what [allocateViewPort] allocated frees
    the pool and the table, then faults on the scalar [delete] of the
    [new[]] array [s_DMALines]. *)
Lemma free_allocated_hardware linesCount width height dl h a :
  heap_wf h -> 1 <= linesCount -> 1 <= width ->
  let n := hp_next h in
  freeViewPort false (mkViewPort (mkPtr n 0) (pool_lines (mkPtr (n + 1) 0) linesCount width) (mkPtr (n + 2) 0) dl)
    (mkHeap (<[n + 2 := (PTR_SIZE * height, KNewArray)]>
               (<[n + 1 := (width * linesCount, KMalloc)]>
                  (<[n := (PTR_SIZE * linesCount, KMalloc)]> (hp_live h))))
            (hp_mem h) (n + 3) a)
  = Err BadFree.
Proof.
  intros [Hn _] HN HW n.
  unfold freeViewPort; simpl. rewrite decide_False by ptr_ne.
  rewrite heap_caps_free_live with (size := width * linesCount); simpl; try lia.
  - rewrite heap_caps_free_live with (size := PTR_SIZE * linesCount); simpl; try lia.
    + unfold cpp_delete, release. rewrite decide_False by ptr_ne.
      simpl. rewrite !lookup_delete_ne, lookup_insert_eq by lia. reflexivity.
    + rewrite lookup_delete_ne, !lookup_insert_ne by lia. apply lookup_insert_eq.
  - rewrite lookup_insert_ne by lia. apply lookup_insert_eq.
Qed.

(** C30: Outside [USERSPACE], [freeViewPort] releases [s_DMALines], allocated
    with [new lldesc_t*[H]], with scalar [delete] (line 113): undefined
    behaviour on the very first reconfiguration. *)
Theorem allocate_free_viewport_mismatched_delete linesCount width height vp h :
  heap_wf h -> 1 <= linesCount -> 1 <= width -> 0 <= height ->
  alloc_need false linesCount width height <= hp_avail h ->
  exists vp1 h1,
    allocateViewPort false linesCount width height vp h = Ok (vp1, h1) /\
    freeViewPort false vp1 h1 = Err BadFree.
Proof.
  intros Hwf HN HW HH Hneed.
  rewrite (allocateViewPort_enough false) by done.
  do 2 eexists. split; [reflexivity|]. by apply free_allocated_hardware.
Qed.

(** C37: [freeViewPort] is not idempotent: once [m_lines] is null, a second call
    dereferences it ([m_lines[0]], line 109). *)
Theorem freeViewPort_twice us vp h vp' h' h'' :
  freeViewPort us vp h = Ok (vp', h') -> freeViewPort us vp' h'' = Err NullDeref.
Proof.
  unfold freeViewPort at 1. intros Hf. res_inv; subst; simpl; unfold freeViewPort; by rewrite decide_True.
Qed.

(** C38: When the DMA-capable heap cannot serve the pool, [heap_caps_malloc]
    returns null and [allocateViewPort] carries on: every scanline buffer is
    a null pointer and no failure is reported (line 96). *)
Theorem allocateViewPort_pool_failure_silent linesCount width height vp h :
  heap_wf h -> 1 <= linesCount -> 1 <= width ->
  PTR_SIZE * linesCount <= hp_avail h < PTR_SIZE * linesCount + width * linesCount ->
  exists vp' h',
    allocateViewPort true linesCount width height vp h = Ok (vp', h') /\
    m_lines vp' <> nullptr /\ Forall (fun p => pblk p = 0) (m_lines_tbl vp').
Proof.
  intros [Hn _] HN HW Havail. unfold allocateViewPort, PTR_SIZE in *.
  rewrite heap_caps_malloc_ok by lia.
  rewrite decide_False by ptr_ne.
  unfold heap_caps_malloc at 1, alloc_block. simpl.
  rewrite decide_False by nia. rewrite decide_False by lia.
  do 2 eexists. split; [reflexivity|]. split; [ptr_ne|].
  simpl. constructor; [done|]. apply Forall_forall. intros p Hp.
  apply list_elem_of_In, in_map_iff in Hp as (i & <- & _). done.
Qed.

(** ** Witnesses at concrete configurations *)


Lemma allocate_free_viewport_userspace_witness :
  heap_wf (heap_init 100) /\ 1 <= 2 /\ 1 <= 16 /\ 0 <= 4 /\ alloc_need true 2 16 4 <= hp_avail (heap_init 100) /\
  exists vp1 h1 vp2 h2,
    allocateViewPort true 2 16 4 vp_init (heap_init 100) = Ok (vp1, h1) /\
    freeViewPort true vp1 h1 = Ok (vp2, h2) /\
    m_lines vp2 = nullptr /\ hp_live h2 = hp_live (heap_init 100).
Proof.
  split; [auto with vdp|]. do 3 (split; [lia|]). split; [vm_compute; discriminate|].
  apply allocate_free_viewport_userspace; [auto with vdp | lia | lia | lia | vm_compute; discriminate].
Defined.

Lemma getDefaultScanlineBuffer_slot_witness :
  mkPtr 1 0 <> nullptr /\ 1 <= 2 /\ 0 <= 5 /\
  getDefaultScanlineBuffer 2 (mkViewPort (mkPtr 1 0) (pool_lines (mkPtr 2 0) 2 16) nullptr []) 5
  = Ok (mkPtr (pblk (mkPtr 2 0)) (pofs (mkPtr 2 0) + (5 mod 2) * 16)).
Proof.
  split; [ptr_ne|]. split; [lia|]. split; [lia|].
  apply getDefaultScanlineBuffer_slot; [ptr_ne | lia | lia].
Defined.

Lemma allocate_free_viewport_mismatched_delete_witness :
  heap_wf (heap_init 100) /\ 1 <= 2 /\ 1 <= 16 /\ 0 <= 4 /\ alloc_need false 2 16 4 <= hp_avail (heap_init 100) /\
  exists vp1 h1,
    allocateViewPort false 2 16 4 vp_init (heap_init 100) = Ok (vp1, h1) /\
    freeViewPort false vp1 h1 = Err BadFree.
Proof.
  split; [auto with vdp|]. do 3 (split; [lia|]). split; [vm_compute; discriminate|].
  apply allocate_free_viewport_mismatched_delete; [auto with vdp | lia | lia | lia | vm_compute; discriminate].
Defined.

Lemma freeViewPort_twice_witness :
  freeViewPort true (mkViewPort (mkPtr 1 0) [mkPtr 2 0] nullptr [])
    (mkHeap (<[2 := (16, KMalloc)]> (<[1 := (4, KMalloc)]> ∅)) ∅ 3 0)
  = Ok (mkViewPort nullptr [] nullptr [], mkHeap ∅ ∅ 3 20) /\
  freeViewPort true (mkViewPort nullptr [] nullptr []) (mkHeap ∅ ∅ 3 20) = Err NullDeref.
Proof.
  assert (E : freeViewPort true (mkViewPort (mkPtr 1 0) [mkPtr 2 0] nullptr [])
    (mkHeap (<[2 := (16, KMalloc)]> (<[1 := (4, KMalloc)]> ∅)) ∅ 3 0)
    = Ok (mkViewPort nullptr [] nullptr [], mkHeap ∅ ∅ 3 20)) by reflexivity.
  split; [exact E|]. exact (freeViewPort_twice true _ _ _ _ (mkHeap ∅ ∅ 3 20) E).
Defined.

Lemma allocateViewPort_pool_failure_silent_witness :
  heap_wf (heap_init 10) /\ 1 <= 2 /\ 1 <= 16 /\
  PTR_SIZE * 2 <= hp_avail (heap_init 10) < PTR_SIZE * 2 + 16 * 2 /\
  exists vp' h',
    allocateViewPort true 2 16 4 vp_init (heap_init 10) = Ok (vp', h') /\
    m_lines vp' <> nullptr /\ Forall (fun p => pblk p = 0) (m_lines_tbl vp').
Proof.
  split; [auto with vdp|]. split; [lia|]. split; [lia|].
  split; [unfold PTR_SIZE; simpl; lia|].
  apply allocateViewPort_pool_failure_silent; [auto with vdp | lia | lia | unfold PTR_SIZE; simpl; lia].
Defined.
