(* ===== verification/Producer.v ===== *)
(** * Producer: the interrupt-driven scanline producer ([ISRHandler])

    [VGADirectController::ISRHandler] (vgadirectcontroller.cpp, lines
    311-351) runs on each I2S interrupt.  When the [out_eof] status bit is
    set, it reads the descriptor that just completed; if that is the
    frame-reset descriptor it sets [s_scanLine = 0] and [s_VSync = false];
    it renders the scanline [(s_scanLine + m_linesCount / 2) % H] into
    [m_lines[scanLine & (m_linesCount - 1)]] through the callback, advances
    [s_scanLine] by [m_linesCount / 2] and sets [s_VSync] once
    [s_scanLine >= H].  In every case it then clears the pending status
    bits.

    [prod_step] is the pure production step of the spec (section 4.4, steps
    1-5); [ISRHandler_refines] shows the handler performs it.  The file
    then shows what one frame of interrupts renders, where the rendered
    lines land in the pool (slot exclusion, memory safety of the write),
    and what happens outside the hypotheses those need.  [isr_run] runs the
    handler over a sequence of interrupts: over one frame it never faults
    and leaves [VSync()] true. *)

From S2P Require Import Prelude Heap LinePool.

(** [DrawScanlineCallback]: given the scanline index, the bytes it stores
    at the destination buffer (the opaque [arg] is part of the closure). *)
Definition DrawScanlineCallback : Type := Z -> list Z.

(** The C type of the callback: it stores [uint8_t]s.  [cb_typed] is that
    of the member [m_drawScanlineCallback], which may be null. *)
Definition callback_typed (f : DrawScanlineCallback) : Prop :=
  forall y, Forall (fun v => is_u8 v = true) (f y).
Definition cb_typed (cb : option DrawScanlineCallback) : Prop :=
  match cb with Some f => callback_typed f | None => True end.

(** The process-wide production state: [s_scanLine] and [s_VSync]. *)
Record ProdState : Type := mkProd { s_scanLine : Z; s_VSync : bool }.

(** [static bool VSync() { return s_VSync; }] *)
Definition VSync (ps : ProdState) : bool := s_VSync ps.

(** The I2S interrupt registers the handler reads: the [out_eof] bit of
    [int_st], the other pending bits, and [out_eof_des_addr] (the index of
    the descriptor that completed). *)
Record I2SIntr : Type := mkI2SIntr {
  int_st_out_eof : bool;
  int_st_other : Z;
  out_eof_des_addr : Z
}.

(** [I2S1.int_clr.val = I2S1.int_st.val]: every pending bit is cleared. *)
Definition clear_int (r : I2SIntr) : I2SIntr := mkI2SIntr false 0 (out_eof_des_addr r).

(** The descriptor comparison [desc == s_frameResetDesc]; [None] is the
    null [s_frameResetDesc] of a chain that has no row 0. *)
Definition is_frame_reset (frameReset : option Z) (desc : Z) : bool :=
  match frameReset with Some d => bool_decide (d = desc) | None => false end.

Section Handler.
Context (userspace : bool).

Definition ISRHandler (cb : option DrawScanlineCallback) (viewPortHeight linesCount : Z)
    (vp : ViewPort) (frameReset : option Z)
    (regs : I2SIntr) (ps : ProdState) (h : Heap) : res (ProdState * I2SIntr * Heap) :=
  if userspace then Ok (ps, regs, h) else
  if int_st_out_eof regs then
    let ps1 := if is_frame_reset frameReset (out_eof_des_addr regs)
               then mkProd 0 false else ps in
    half ← c_div linesCount 2;
    sum ← c_add (s_scanLine ps1) half;
    scanLine ← c_mod sum viewPortHeight;
    mask ← c_sub linesCount 1;
    let lineIndex := Z.land scanLine mask in
    (if decide (m_lines vp = nullptr) then Err NullDeref else Ok tt) ≫= fun _ =>
    dest ← c_index (m_lines_tbl vp) lineIndex;
    f ← (match cb with Some f => Ok f | None => Err NullDeref end);
    h' ← write_bytes dest (f scanLine) h;
    (* [s_scanLine += linesCount / 2]: the sum computed above *)
    Ok (mkProd sum (if decide (viewPortHeight <= sum) then true else s_VSync ps1), clear_int regs, h')
  else Ok (ps, clear_int regs, h).

End Handler.

(** ** The pure production step and its iteration *)

Definition prod_step (linesCount viewPortHeight : Z) (isReset : bool) (ps : ProdState)
  : Z * ProdState :=
  let s0 := if isReset then 0 else s_scanLine ps in
  let v0 := if isReset then false else s_VSync ps in
  let half := Z.quot linesCount 2 in
  let s1 := s0 + half in
  (Z.rem s1 viewPortHeight, mkProd s1 (if decide (viewPortHeight <= s1) then true else v0)).

(** A sequence of interrupts, each flagged by whether its descriptor is the
    frame-reset one; returns the rendered scanlines in order. *)
Fixpoint prod_run (linesCount viewPortHeight : Z) (evs : list bool) (ps : ProdState)
  : list Z * ProdState :=
  match evs with
  | [] => ([], ps)
  | e :: rest =>
      let '(sl, ps1) := prod_step linesCount viewPortHeight e ps in
      let '(sls, ps2) := prod_run linesCount viewPortHeight rest ps1 in
      (sl :: sls, ps2)
  end.

(** The handler run on a sequence of interrupts (hardware build), each
    seeing the production state and heap the previous one left. *)
Fixpoint isr_run (cb : option DrawScanlineCallback) (viewPortHeight linesCount : Z)
    (vp : ViewPort) (frameReset : option Z) (rs : list I2SIntr) (ps : ProdState) (h : Heap)
    : res (ProdState * Heap) :=
  match rs with
  | [] => Ok (ps, h)
  | r :: rest =>
      '(ps1, _, h1) ← ISRHandler false cb viewPortHeight linesCount vp frameReset r ps h;
      isr_run cb viewPortHeight linesCount vp frameReset rest ps1 h1
  end.

(** ** Lemmas on the production step *)

Lemma quot2_nonneg n : 0 <= n -> Z.quot n 2 = n / 2.
Proof. intros. apply quot_nonneg_div; lia. Qed.

Lemma map_seq_succ {A} (f : nat -> A) k :
  map f (seq 0 (S k)) = f 0%nat :: map (fun i => f (S i)) (seq 0 k).
Proof. simpl. f_equal. rewrite <- seq_shift, map_map. reflexivity. Qed.

(** [k] interrupts on descriptors other than the frame-reset one: the
    scanline advances by [half] each time and the rendered rows are the
    successive multiples of [half] after [s], modulo the height. *)
Lemma prod_run_noreset linesCount H k s v :
  0 <= linesCount -> 0 < H -> 0 <= s ->
  prod_run linesCount H (replicate k false) (mkProd s v) =
    (map (fun i : nat => (s + (Z.of_nat i + 1) * (linesCount / 2)) mod H) (seq 0 k),
     mkProd (s + Z.of_nat k * (linesCount / 2))
            (v || bool_decide (0 < Z.of_nat k /\ H <= s + Z.of_nat k * (linesCount / 2)))).
Proof.
  intros HN HH. revert s v. induction k as [|k IH]; intros s v Hs.
  - simpl. rewrite orb_false_r. by rewrite Z.add_0_r.
  - assert (0 <= linesCount / 2) by (apply Z.div_pos; lia).
    simpl replicate. cbn [prod_run prod_step s_scanLine s_VSync]. rewrite quot2_nonneg by done.
    rewrite IH by lia. rewrite (rem_nonneg_mod (s + linesCount / 2) H) by lia.
    rewrite map_seq_succ. f_equal.
    + f_equal; [f_equal; lia|]. apply map_ext. intros i. f_equal. lia.
    + f_equal; [lia|].
      destruct (decide (H <= s + linesCount / 2)), v; simpl;
        repeat case_bool_decide; try reflexivity; exfalso; nia.
Qed.


(** ** The production sequence of one frame *)

(** C2: a frame starts with the interrupt of the frame-reset
    descriptor; after it and [k] further interrupts, the rendered scanlines
    are [half, 2 half, ..., (k+1) half] modulo the height, [s_scanLine] is
    [(k+1) half] and [s_VSync] is set exactly when [(k+1) half >= H]. *)
Theorem frame_render_sequence (linesCount H : Z) (k : nat) (ps : ProdState) :
  2 <= linesCount -> 0 < H ->
  prod_run linesCount H (true :: replicate k false) ps =
    (map (fun i : nat => ((Z.of_nat i + 1) * (linesCount / 2)) mod H) (seq 0 (S k)),
     mkProd ((Z.of_nat k + 1) * (linesCount / 2))
            (bool_decide (H <= (Z.of_nat k + 1) * (linesCount / 2)))).
Proof.
  intros HN HH. pose proof (half_pos linesCount HN).
  cbn [prod_run prod_step]. rewrite quot2_nonneg by lia.
  rewrite prod_run_noreset by lia. rewrite (rem_nonneg_mod (0 + linesCount / 2) H) by lia.
  rewrite map_seq_succ. f_equal.
  - f_equal; [f_equal; lia|]. apply map_ext. intros i. f_equal. lia.
  - f_equal; [lia|].
    destruct (decide (H <= 0 + linesCount / 2)); simpl;
      repeat case_bool_decide; try reflexivity; exfalso; nia.
Qed.


(** C39: Without the frame-reset descriptor (for instance while
    [s_frameResetDesc] is still null), nothing bounds [s_scanLine]: the
    production steps take it, [half] at a time, to an [int] value from
    which the handler's next [s_scanLine + linesCount / 2] overflows, and
    that interrupt faults with a signed overflow. *)
Theorem scanLine_overflow_without_reset (linesCount H : Z) :
  2 <= linesCount <= INT_MAX -> 0 < H ->
  exists k : nat,
    let ps := (prod_run linesCount H (replicate k false) (mkProd 0 false)).2 in
    in_int32 (s_scanLine ps) /\
    forall f vp fr regs h,
      int_st_out_eof regs = true -> is_frame_reset fr (out_eof_des_addr regs) = false ->
      ISRHandler false (Some f) H linesCount vp fr regs ps h = Err SignedOverflow.
Proof.
  intros HN HH. pose proof (half_pos linesCount (proj1 HN)).
  assert (Hm : 0 <= INT_MAX) by (vm_compute; discriminate).
  pose proof (Z.div_mod INT_MAX (linesCount / 2) ltac:(lia)) as Hd.
  pose proof (Z.mod_pos_bound INT_MAX (linesCount / 2) ltac:(lia)).
  assert (0 <= INT_MAX / (linesCount / 2)) by (apply Z.div_pos; lia).
  exists (Z.to_nat (INT_MAX / (linesCount / 2))). rewrite prod_run_noreset by lia. cbn zeta.
  cbn [snd s_scanLine]. rewrite Z2Nat.id by lia. split; [unfold in_int32, INT_MIN in *; nia|].
  intros f vp fr regs h He Hr. unfold ISRHandler. rewrite He, Hr, c_div_ok by lia. simpl.
  rewrite quot2_nonneg by lia. unfold c_add. rewrite c_arith_op_ovf; [done|].
  unfold in_int32. nia.
Qed.

(** ** The handler implements the production step *)

(** The [out_eof] branch of the handler, computed. *)
Lemma ISRHandler_eof f H linesCount vp fr regs ps h :
  H <> 0 -> m_lines vp <> nullptr -> int_st_out_eof regs = true -> INT_MIN < linesCount <= INT_MAX ->
  in_int32 (s_scanLine (prod_step linesCount H (is_frame_reset fr (out_eof_des_addr regs)) ps).2) ->
  ISRHandler false (Some f) H linesCount vp fr regs ps h =
    let '(sl, ps') := prod_step linesCount H (is_frame_reset fr (out_eof_des_addr regs)) ps in
    dest ← c_index (m_lines_tbl vp) (Z.land sl (linesCount - 1));
    h' ← write_bytes dest (f sl) h;
    Ok (ps', clear_int regs, h').
Proof.
  intros HH Hl He Hlc Hs. unfold ISRHandler, prod_step in *. rewrite He, c_div_ok by lia. simpl.
  rewrite c_sub_ok by (unfold in_int32; lia).
  destruct (is_frame_reset fr (out_eof_des_addr regs)); simpl in *;
    rewrite c_add_ok by done; simpl; rewrite c_mod_ok by done; simpl;
    (destruct (decide (m_lines vp = nullptr)); [contradiction|]); simpl;
    destruct (c_index _ _); simpl; try reflexivity;
    destruct (write_bytes _ _ _); reflexivity.
Qed.

(** C1: on an [out_eof] interrupt, [ISRHandler] computes exactly
    [prod_step] (reset on the frame-reset descriptor, render
    [(s + half) % H], advance, VSync), writes the callback's bytes for that
    scanline at [m_lines[scanLine & (linesCount - 1)]] and clears the
    interrupt status. *)
Theorem ISRHandler_refines f H linesCount vp fr regs ps h :
  H <> 0 -> m_lines vp <> nullptr -> int_st_out_eof regs = true -> INT_MIN < linesCount <= INT_MAX ->
  in_int32 (s_scanLine (prod_step linesCount H (is_frame_reset fr (out_eof_des_addr regs)) ps).2) ->
  ISRHandler false (Some f) H linesCount vp fr regs ps h =
    let '(sl, ps') := prod_step linesCount H (is_frame_reset fr (out_eof_des_addr regs)) ps in
    dest ← c_index (m_lines_tbl vp) (Z.land sl (linesCount - 1));
    h' ← write_bytes dest (f sl) h;
    Ok (ps', clear_int regs, h').
Proof. apply ISRHandler_eof. Qed.

(** C26: An interrupt without the [out_eof] bit only clears the status. *)
Theorem ISRHandler_other_interrupt cb H linesCount vp fr regs ps h :
  int_st_out_eof regs = false ->
  ISRHandler false cb H linesCount vp fr regs ps h = Ok (ps, clear_int regs, h).
Proof. intros He. unfold ISRHandler. by rewrite He. Qed.

(** ** Producer and DMA never meet in a slot *)

Lemma pow2_half N : is_pow2 N = true -> 2 <= N -> N = 2 * (N / 2).
Proof. intros Hp H2. pose proof (pow2_even N Hp H2). pose proof (Z.div_mod N 2). lia. Qed.

(** Position [c * half + j] of block [q] of a pool of [2 * half] slots. *)
Lemma mod_block q c half j :
  0 <= c * half + j < 2 * half -> (q * (2 * half) + (c * half + j)) mod (2 * half) = c * half + j.
Proof.
  intros Hr. rewrite Z.add_comm, Z.mod_add by lia. apply Z.mod_small. lia.
Qed.

(** C4: The interrupt for the completed row [r] (a multiple of [half], the
    rows whose descriptors raise [eof]) renders the scanline
    [(r + half) mod H] starting at slot [lineIndex].  When the pool size is
    a power of two and [H] a multiple of it:
    - the [half] lines the callback fills land in the slots the chain binds
      those rows to ([m_lines[row % linesCount]]), inside the frame;
    - none of them is the slot of a row [r + j] ([1 <= j < half]) of the
      block whose transmission is still in progress. *)
Theorem render_slot_exclusive (linesCount H r : Z) (v : bool) :
  is_pow2 linesCount = true -> 2 <= linesCount -> 0 < H -> H mod linesCount = 0 ->
  0 <= r < H -> r mod (linesCount / 2) = 0 ->
  let half := linesCount / 2 in
  let scanLine := (prod_step linesCount H false (mkProd r v)).1 in
  let lineIndex := Z.land scanLine (linesCount - 1) in
  (forall j, 0 <= j < half ->
     lineIndex + j = (scanLine + j) mod linesCount /\ scanLine + j < H) /\
  (forall j j', 1 <= j < half -> 0 <= j' < half -> lineIndex + j' <> (r + j) mod linesCount).
Proof.
  intros Hp HN HH HHm Hr Hrm. cbv zeta. simpl.
  pose proof (pow2_half linesCount Hp HN) as Hh.
  pose proof (half_pos linesCount HN) as Hh1.
  rewrite quot2_nonneg, rem_nonneg_mod by lia.
  set (half := linesCount / 2) in *.
  set (scanLine := (r + half) mod H).
  set (lineIndex := Z.land scanLine (linesCount - 1)).
  (* r = (2q + c) half, H = m (2 half) *)
  pose proof (Z.div_mod r half ltac:(lia)) as Er. rewrite Hrm, Z.add_0_r in Er.
  set (i := r / half) in *. pose proof (Z.div_mod i 2 ltac:(lia)) as Ei.
  pose proof (Z.mod_pos_bound i 2 ltac:(lia)) as Ci.
  set (q := i / 2) in *. set (c := i mod 2) in *.
  pose proof (Z.div_mod H linesCount ltac:(lia)) as EH. rewrite HHm, Z.add_0_r in EH.
  set (m := H / linesCount) in *.
  assert (Hsl : lineIndex = scanLine mod linesCount).
  { apply land_pred_pow2; [apply Z.mod_pos_bound; lia | done]. }
  assert (Hpend : forall j, 0 <= j < half -> (r + j) mod linesCount = c * half + j).
  { intros j Hj. rewrite Hh. replace (r + j) with (q * (2 * half) + (c * half + j)) by nia.
    apply mod_block. nia. }
  (* either the next block is inside the frame, or it wraps to row 0 *)
  destruct (decide (r + half < H)) as [Hin|Hwrap].
  - assert (Hs : scanLine = q * (2 * half) + ((c + 1) * half + 0) \/ False) by (left; unfold scanLine; rewrite Z.mod_small by lia; nia).
    destruct Hs as [Hs|[]].
    assert (HcA : c = 0 \/ c = 1) by lia.
    assert (Hli : lineIndex = (1 - c) * half).
    { rewrite Hsl, Hs, Hh. destruct HcA as [-> | ->].
      - rewrite mod_block by lia. lia.
      - replace (q * (2 * half) + ((1 + 1) * half + 0)) with ((q + 1) * (2 * half) + (0 * half + 0)) by lia.
        rewrite mod_block by lia. lia. }
    assert (Hlt : i + 1 < 2 * m).
    { apply (Z.mul_lt_mono_pos_l half); [lia|]. rewrite Hh in EH. lia. }
    assert (Hblk : r + 2 * half <= H) by (rewrite Hh in EH; nia).
    assert (Hs' : scanLine = r + half) by (unfold scanLine; apply Z.mod_small; lia).
    split.
    + intros j Hj. split; [|rewrite Hs'; lia]. rewrite Hli, Hs, Hh.
      replace (q * (2 * half) + ((c + 1) * half + 0) + j)
        with ((q + c) * (2 * half) + ((1 - c) * half + j)) by (destruct HcA as [Hc|Hc]; rewrite Hc; nia).
      rewrite mod_block by (destruct HcA as [Hc|Hc]; rewrite Hc; nia). lia.
    + intros j j' Hj Hj'. rewrite Hpend, Hli by lia. destruct HcA as [Hc|Hc]; rewrite Hc; lia.
  - rewrite Hh in EH.
    assert (Hi1 : 2 * m <= i + 1).
    { apply (Z.mul_le_mono_pos_l _ _ half); [lia|]. lia. }
    assert (Hi2 : i < 2 * m).
    { apply (Z.mul_lt_mono_pos_l half); [lia|]. lia. }
    assert (Hr1 : r + half = H) by nia.
    assert (Hs : scanLine = 0) by (unfold scanLine; rewrite Hr1; apply Z.mod_same; lia).
    assert (Hc : c = 1) by lia.
    assert (Hli : lineIndex = 0) by (rewrite Hsl, Hs; apply Z.mod_0_l; lia).
    split.
    + intros j Hj. rewrite Hli, Hs. rewrite Z.mod_small by lia. lia.
    + intros j j' Hj Hj'. rewrite Hpend, Hli by lia. lia.
Qed.

(** ** What happens outside those hypotheses *)




(** ** The handler stays inside the pool *)

(** The interrupt of frame row [k * half] renders scanline
    [((k + 1) * half) mod H], whose slot leaves room for [half] lines
    before the end of a power-of-two pool: it is a multiple of [half]
    below [H], or the wrapped remainder below [half]. *)
Lemma render_slot_room linesCount H k :
  is_pow2 linesCount = true -> 2 <= linesCount -> 0 < H -> 0 <= k -> k * (linesCount / 2) < H ->
  ((k + 1) * (linesCount / 2)) mod H mod linesCount + linesCount / 2 <= linesCount.
Proof.
  intros Hp HN HH Hk HkH. pose proof (pow2_half linesCount Hp HN) as Hh.
  pose proof (half_pos linesCount HN).
  set (half := linesCount / 2) in *. rewrite Hh.
  destruct (Z_lt_ge_dec ((k + 1) * half) H) as [Hlt|Hge].
  - rewrite (Z.mod_small ((k + 1) * half) H) by nia. rewrite Z.mul_mod_distr_r by lia.
    pose proof (Z.mod_pos_bound (k + 1) 2 ltac:(lia)). nia.
  - pose proof (Z.div_mod ((k + 1) * half) H ltac:(lia)) as Hd.
    pose proof (Z.mod_pos_bound ((k + 1) * half) H HH).
    assert (1 <= (k + 1) * half / H) by (apply Z.div_le_lower_bound; lia).
    rewrite (Z.mod_small (((k + 1) * half) mod H)); nia.
Qed.

(** One interrupt at a frame position: the handler performs [prod_step],
    its write stays inside the pool block and allocates nothing. *)
Lemma ISRHandler_frame_step (f : DrawScanlineCallback) H linesCount w vp fr regs ps h pool k :
  is_pow2 linesCount = true -> 2 <= linesCount -> 0 < H -> 1 <= w ->
  m_lines vp <> nullptr -> m_lines_tbl vp = pool_lines (mkPtr pool 0) linesCount w -> pool <> 0 ->
  hp_live h !! pool = Some (w * linesCount, KMalloc) ->
  (forall sl, Z.of_nat (length (f sl)) <= linesCount / 2 * w) ->
  int_st_out_eof regs = true -> 0 <= k -> k * (linesCount / 2) < H ->
  in_int32 linesCount -> H + linesCount / 2 <= INT_MAX + 1 ->
  (is_frame_reset fr (out_eof_des_addr regs) = true \/ s_scanLine ps = k * (linesCount / 2)) ->
  exists h', ISRHandler false (Some f) H linesCount vp fr regs ps h =
               Ok ((prod_step linesCount H (is_frame_reset fr (out_eof_des_addr regs)) ps).2, clear_int regs, h') /\
             hp_live h' = hp_live h.
Proof.
  intros Hp HN HH Hw Hl Ht Hpool Hlive Hf He Hk HkH Hlc Hmax Hpos.
  pose proof (half_pos linesCount HN).
  assert (Hs0 : exists k', 0 <= k' /\ k' * (linesCount / 2) < H /\
            (if is_frame_reset fr (out_eof_des_addr regs) then 0 else s_scanLine ps) = k' * (linesCount / 2)).
  { destruct (is_frame_reset fr (out_eof_des_addr regs)); [exists 0; lia|].
    destruct Hpos as [Hr|Hr]; [discriminate | exists k; auto]. }
  destruct Hs0 as (k' & Hk' & Hk'H & Hs0).
  assert (Hsum : in_int32 (s_scanLine (prod_step linesCount H (is_frame_reset fr (out_eof_des_addr regs)) ps).2)).
  { unfold prod_step. simpl. rewrite Hs0, quot2_nonneg by lia. unfold in_int32, INT_MIN, INT_MAX in *. nia. }
  rewrite ISRHandler_eof by (done || lia || (unfold in_int32, INT_MIN, INT_MAX in *; lia)). unfold prod_step. rewrite Hs0, quot2_nonneg by lia.
  rewrite rem_nonneg_mod by nia.
  replace (k' * (linesCount / 2) + linesCount / 2) with ((k' + 1) * (linesCount / 2)) by ring.
  pose proof (render_slot_room linesCount H k' Hp HN HH Hk' Hk'H) as Hroom.
  set (sl := ((k' + 1) * (linesCount / 2)) mod H) in *.
  assert (0 <= sl) by (apply Z.mod_pos_bound; lia).
  assert (Hi : 0 <= sl mod linesCount < linesCount) by (apply Z.mod_pos_bound; lia).
  cbn beta iota. rewrite land_pred_pow2 by done.
  assert (Hc : c_index (m_lines_tbl vp) (sl mod linesCount) = Ok (mkPtr pool (0 + sl mod linesCount * w))).
  { apply c_index_lookup. split; [lia|]. rewrite Ht. by apply pool_lines_lookup. }
  rewrite Hc. simpl.
  destruct (write_bytes_ok (mkPtr pool (0 + sl mod linesCount * w)) (f sl) h (w * linesCount) KMalloc)
    as [h' Hw']; simpl; [done | done | nia | specialize (Hf sl); nia |].
  rewrite Hw'. simpl. exists h'. split; [done|]. by eapply write_bytes_live.
Qed.

(** C5: memory safety of the handler: with a power-of-two pool of
    [linesCount] lines of [w] bytes, a callback filling at most [half]
    lines, and the production state at a frame position (the interrupt of
    row [k * half] of the frame, or the frame-reset interrupt), the
    handler's write stays inside the pool block and the interrupt
    completes. *)
Theorem ISRHandler_in_bounds f H linesCount w vp fr regs ps h pool k :
  is_pow2 linesCount = true -> 2 <= linesCount -> 0 < H -> 1 <= w ->
  m_lines vp <> nullptr -> m_lines_tbl vp = pool_lines (mkPtr pool 0) linesCount w -> pool <> 0 ->
  hp_live h !! pool = Some (w * linesCount, KMalloc) ->
  (forall sl, Z.of_nat (length (f sl)) <= linesCount / 2 * w) ->
  int_st_out_eof regs = true -> 0 <= k -> k * (linesCount / 2) < H ->
  in_int32 linesCount -> H + linesCount / 2 <= INT_MAX + 1 ->
  (is_frame_reset fr (out_eof_des_addr regs) = true \/ s_scanLine ps = k * (linesCount / 2)) ->
  exists ps' h', ISRHandler false (Some f) H linesCount vp fr regs ps h = Ok (ps', clear_int regs, h').
Proof.
  intros. edestruct (ISRHandler_frame_step f H linesCount w vp fr regs ps h pool k) as (h' & E & _);
    try eassumption. eauto.
Qed.

(** ** The handler keeps the types *)

(** The heap stays typed (the callback stores bytes) and [s_scanLine]
    stays an [int]: the handler faults rather than overflow it. *)
Lemma ISRHandler_typed us total cb H linesCount vp fr regs ps h ps' regs' h' :
  heap_typed total h -> in_int32 (s_scanLine ps) -> cb_typed cb ->
  ISRHandler us cb H linesCount vp fr regs ps h = Ok (ps', regs', h') ->
  heap_typed total h' /\ in_int32 (s_scanLine ps').
Proof.
  intros Ht Hs Hc. unfold ISRHandler. destruct us; [by intros [= <- _ <-]|].
  destruct (int_st_out_eof regs); [|by intros [= <- _ <-]].
  destruct (c_div linesCount 2) as [half|]; simpl; [|discriminate].
  destruct (c_add _ half) as [sum|] eqn:Es; simpl; [|discriminate].
  destruct (c_mod sum H) as [sl|]; simpl; [|discriminate].
  destruct (c_sub linesCount 1) as [mask|]; simpl; [|discriminate].
  destruct (decide (m_lines vp = nullptr)); simpl; [discriminate|].
  destruct (c_index _ _) as [dest|]; simpl; [|discriminate].
  destruct cb as [f|]; simpl; [|discriminate].
  destruct (write_bytes dest (f sl) h) as [h1|] eqn:Ew; simpl; [|discriminate].
  intros [= <- _ <-]. split; [by eapply write_bytes_typed|].
  unfold c_add in Es. apply c_arith_op_Ok in Es as [-> ?]. done.
Qed.

(** ** A frame of interrupts raises VSync *)

Section FrameRun.
Context (f : DrawScanlineCallback) (H linesCount w : Z) (vp : ViewPort) (d0 pool : Z).
Hypotheses (Hp : is_pow2 linesCount = true) (HN : 2 <= linesCount) (HH : 0 < H) (Hw : 1 <= w)
  (Hl : m_lines vp <> nullptr) (Ht : m_lines_tbl vp = pool_lines (mkPtr pool 0) linesCount w)
  (Hpool : pool <> 0) (Hf : forall sl, Z.of_nat (length (f sl)) <= linesCount / 2 * w)
  (Hlc : in_int32 linesCount) (Hmax : H + linesCount / 2 <= INT_MAX + 1).

(** The interrupts of rows [k * half, (k + 1) * half, ...] after the
    frame-reset one: the scanline advances by [half] each time, and VSync
    is up once it reaches [H]. *)
Lemma isr_run_rows rs k ps h :
  Forall (fun r => int_st_out_eof r = true /\ out_eof_des_addr r <> d0) rs ->
  hp_live h !! pool = Some (w * linesCount, KMalloc) ->
  0 <= k -> s_scanLine ps = k * (linesCount / 2) ->
  (k + Z.of_nat (length rs) - 1) * (linesCount / 2) < H ->
  exists ps' h', isr_run (Some f) H linesCount vp (Some d0) rs ps h = Ok (ps', h') /\
    s_scanLine ps' = (k + Z.of_nat (length rs)) * (linesCount / 2) /\
    (rs <> [] -> H <= s_scanLine ps' -> s_VSync ps' = true) /\
    hp_live h' !! pool = Some (w * linesCount, KMalloc).
Proof.
  pose proof (half_pos linesCount HN).
  revert k ps h. induction rs as [|r rs IH]; intros k ps h Hrs Hlive Hk Hs Hb.
  - exists ps, h. simpl. split; [done|]. split; [lia|]. split; [done|done].
  - apply Forall_cons in Hrs as [[He Hd] Hrs]. cbn [length] in Hb.
    destruct (ISRHandler_frame_step f H linesCount w vp (Some d0) r ps h pool k)
      as (h1 & E & Hl1); try done; [lia | by right|].
    assert (Hr : is_frame_reset (Some d0) (out_eof_des_addr r) = false)
      by (simpl; apply bool_decide_eq_false; congruence).
    rewrite Hr in E. unfold prod_step in E. cbn [s_scanLine s_VSync] in E.
    rewrite Hs, quot2_nonneg in E by lia.
    destruct (IH (k + 1) (mkProd (k * (linesCount / 2) + linesCount / 2)
                  (if decide (H <= k * (linesCount / 2) + linesCount / 2) then true else s_VSync ps)) h1 Hrs ltac:(by rewrite Hl1) ltac:(lia) ltac:(simpl; lia) ltac:(nia))
      as (ps' & h' & Er & Hs' & Hv' & Hl').
    exists ps', h'. cbn [isr_run]. rewrite E. simpl. split; [done|]. split; [simpl; lia|]. split; [|done].
    intros _ HHs. destruct rs as [|r' rs'].
    + simpl in Er. injection Er as <- <-. simpl. case_decide; [done|]. simpl in *. lia.
    + by apply Hv'.
Qed.

End FrameRun.

(** One frame of interrupts, run: the statement of [frame_raises_vsync]. *)
Lemma isr_run_frame (f : DrawScanlineCallback) H linesCount w vp d0 pool r0 rs ps h :
  is_pow2 linesCount = true -> 2 <= linesCount -> 0 < H -> 1 <= w ->
  m_lines vp <> nullptr -> m_lines_tbl vp = pool_lines (mkPtr pool 0) linesCount w -> pool <> 0 ->
  hp_live h !! pool = Some (w * linesCount, KMalloc) ->
  (forall sl, Z.of_nat (length (f sl)) <= linesCount / 2 * w) ->
  in_int32 linesCount -> H + linesCount / 2 <= INT_MAX + 1 ->
  int_st_out_eof r0 = true -> out_eof_des_addr r0 = d0 ->
  Forall (fun r => int_st_out_eof r = true /\ out_eof_des_addr r <> d0) rs ->
  Z.of_nat (length rs) = (H - 1) / (linesCount / 2) ->
  exists ps' h', isr_run (Some f) H linesCount vp (Some d0) (r0 :: rs) ps h = Ok (ps', h') /\
                 VSync ps' = true.
Proof.
  intros Hp HN HH Hw Hl Ht Hpool Hlive Hf Hlc Hmax He0 Hd0 Hrs Hlen. pose proof (half_pos linesCount HN).
  pose proof (Z.div_mod (H - 1) (linesCount / 2) ltac:(lia)) as Hdm.
  pose proof (Z.mod_pos_bound (H - 1) (linesCount / 2) ltac:(lia)).
  assert (Hr0 : is_frame_reset (Some d0) (out_eof_des_addr r0) = true)
    by (simpl; apply bool_decide_eq_true; congruence).
  destruct (ISRHandler_frame_step f H linesCount w vp (Some d0) r0 ps h pool 0)
    as (h1 & E & Hl1); try done; [by left|].
  rewrite Hr0 in E. unfold prod_step in E. cbn [s_scanLine s_VSync] in E.
  rewrite quot2_nonneg in E by lia.
  destruct (isr_run_rows f H linesCount w vp d0 pool Hp HN HH Hw Hl Ht Hpool Hf Hlc Hmax rs 1
              (mkProd (0 + linesCount / 2) (if decide (H <= 0 + linesCount / 2) then true else false)) h1
              Hrs ltac:(by rewrite Hl1) ltac:(lia) ltac:(simpl; lia) ltac:(nia))
    as (ps' & h' & Er & Hs' & Hv' & _).
  exists ps', h'. cbn [isr_run]. rewrite E. simpl. split; [done|]. destruct rs as [|r rs].
  - simpl in Er. injection Er as <- <-. simpl in Hlen. case_decide; [done|]. nia.
  - apply Hv'; [done | nia].
Qed.

(** C6: Liveness of VSync: over one frame of interrupts (the frame-reset
    descriptor's, then those of rows [half, 2 half, ...] below [H], that is
    [(H - 1) / half] more), the handler never faults and [VSync()] is true
    when the frame's last interrupt returns, from any production state and
    with a power-of-two pool whose lines hold what the callback writes. *)
Theorem frame_raises_vsync (f : DrawScanlineCallback) H linesCount w vp d0 pool r0 rs ps h :
  is_pow2 linesCount = true -> 2 <= linesCount -> 0 < H -> 1 <= w ->
  m_lines vp <> nullptr -> m_lines_tbl vp = pool_lines (mkPtr pool 0) linesCount w -> pool <> 0 ->
  hp_live h !! pool = Some (w * linesCount, KMalloc) ->
  (forall sl, Z.of_nat (length (f sl)) <= linesCount / 2 * w) ->
  in_int32 linesCount -> H + linesCount / 2 <= INT_MAX + 1 ->
  int_st_out_eof r0 = true -> out_eof_des_addr r0 = d0 ->
  Forall (fun r => int_st_out_eof r = true /\ out_eof_des_addr r <> d0) rs ->
  Z.of_nat (length rs) = (H - 1) / (linesCount / 2) ->
  exists ps' h', isr_run (Some f) H linesCount vp (Some d0) (r0 :: rs) ps h = Ok (ps', h') /\
                 VSync ps' = true.
Proof. apply isr_run_frame. Qed.


(** ** Witnesses at concrete configurations *)

(** A two-line pool of 8-byte rows (table block 1, pool block 2). *)
Definition demo_pool_vp : ViewPort := mkViewPort (mkPtr 1 0) [mkPtr 2 0; mkPtr 2 8] nullptr [].

Lemma ISRHandler_refines_witness :
  4 <> 0 /\ m_lines demo_pool_vp <> nullptr /\ int_st_out_eof (mkI2SIntr true 0 0) = true /\
  INT_MIN < 2 <= INT_MAX /\
  in_int32 (s_scanLine (prod_step 2 4 (is_frame_reset (Some 0) (out_eof_des_addr (mkI2SIntr true 0 0)))
                          (mkProd 0 false)).2) /\
  ISRHandler false (Some (fun y => [y])) 4 2 demo_pool_vp (Some 0) (mkI2SIntr true 0 0)
    (mkProd 0 false) (heap_init 64) =
    let '(sl, ps') := prod_step 2 4 (is_frame_reset (Some 0) (out_eof_des_addr (mkI2SIntr true 0 0)))
                        (mkProd 0 false) in
    dest ← c_index (m_lines_tbl demo_pool_vp) (Z.land sl (2 - 1));
    h' ← write_bytes dest ((fun y => [y]) sl) (heap_init 64);
    Ok (ps', clear_int (mkI2SIntr true 0 0), h').
Proof.
  split; [lia|]. split; [ptr_ne|].
  split; [reflexivity|]. split; [int_range|]. split; [int_range|].
  apply ISRHandler_refines; [lia | ptr_ne | reflexivity | int_range | int_range].
Defined.

Lemma frame_render_sequence_witness :
  2 <= 2 /\ 0 < 4 /\
  prod_run 2 4 (true :: replicate 1 false) (mkProd 7 true) =
    (map (fun i : nat => ((Z.of_nat i + 1) * (2 / 2)) mod 4) (seq 0 2),
     mkProd ((Z.of_nat 1 + 1) * (2 / 2)) (bool_decide (4 <= (Z.of_nat 1 + 1) * (2 / 2)))).
Proof. split; [lia|]. split; [lia|]. apply (frame_render_sequence 2 4 1 (mkProd 7 true)); lia. Defined.

Lemma render_slot_exclusive_witness :
  is_pow2 4 = true /\ 2 <= 4 /\ 0 < 8 /\ 8 mod 4 = 0 /\ 0 <= 2 < 8 /\ 2 mod (4 / 2) = 0 /\
  (let half := 4 / 2 in
   let scanLine := (prod_step 4 8 false (mkProd 2 false)).1 in
   let lineIndex := Z.land scanLine (4 - 1) in
   (forall j, 0 <= j < half -> lineIndex + j = (scanLine + j) mod 4 /\ scanLine + j < 8) /\
   (forall j j', 1 <= j < half -> 0 <= j' < half -> lineIndex + j' <> (2 + j) mod 4)).
Proof.
  split; [reflexivity|]. split; [lia|]. split; [lia|]. split; [reflexivity|].
  split; [lia|]. split; [reflexivity|].
  apply (render_slot_exclusive 4 8 2 false); [reflexivity | lia | lia | reflexivity | lia | reflexivity].
Defined.


Lemma ISRHandler_other_interrupt_witness :
  int_st_out_eof (mkI2SIntr false 3 5) = false /\
  ISRHandler false None 4 2 vp_init None (mkI2SIntr false 3 5) (mkProd 1 true) (heap_init 0) =
    Ok (mkProd 1 true, clear_int (mkI2SIntr false 3 5), heap_init 0).
Proof. split; [reflexivity|]. apply ISRHandler_other_interrupt. reflexivity. Defined.

Lemma scanLine_overflow_without_reset_witness :
  2 <= 2 <= INT_MAX /\ 0 < 480 /\
  exists k : nat,
    let ps := (prod_run 2 480 (replicate k false) (mkProd 0 false)).2 in
    in_int32 (s_scanLine ps) /\
    forall f vp fr regs h,
      int_st_out_eof regs = true -> is_frame_reset fr (out_eof_des_addr regs) = false ->
      ISRHandler false (Some f) 480 2 vp fr regs ps h = Err SignedOverflow.
Proof.
  split; [int_range|]. split; [lia|].
  apply scanLine_overflow_without_reset; [int_range | lia].
Defined.

Lemma ISRHandler_in_bounds_witness :
  is_pow2 2 = true /\ 2 <= 2 /\ 0 < 4 /\ 1 <= 8 /\ m_lines demo_pool_vp <> nullptr /\
  m_lines_tbl demo_pool_vp = pool_lines (mkPtr 2 0) 2 8 /\ 2 <> 0 /\
  hp_live (mkHeap (<[2 := (8 * 2, KMalloc)]> ∅) ∅ 3 0) !! 2 = Some (8 * 2, KMalloc) /\
  (forall sl, Z.of_nat (length ((fun y : Z => [y]) sl)) <= 2 / 2 * 8) /\
  int_st_out_eof (mkI2SIntr true 0 0) = true /\ 0 <= 0 /\ 0 * (2 / 2) < 4 /\
  in_int32 2 /\ 4 + 2 / 2 <= INT_MAX + 1 /\
  (is_frame_reset (Some 0) (out_eof_des_addr (mkI2SIntr true 0 0)) = true \/
   s_scanLine (mkProd 0 false) = 0 * (2 / 2)) /\
  exists ps' h', ISRHandler false (Some (fun y => [y])) 4 2 demo_pool_vp (Some 0) (mkI2SIntr true 0 0)
                   (mkProd 0 false) (mkHeap (<[2 := (8 * 2, KMalloc)]> ∅) ∅ 3 0)
                 = Ok (ps', clear_int (mkI2SIntr true 0 0), h').
Proof.
  assert (Hf : forall sl, Z.of_nat (length ((fun y : Z => [y]) sl)) <= 2 / 2 * 8) by (intros; change (2 / 2 * 8) with 8; simpl; lia).
  assert (Hr : is_frame_reset (Some 0) (out_eof_des_addr (mkI2SIntr true 0 0)) = true \/
               s_scanLine (mkProd 0 false) = 0 * (2 / 2)) by (left; reflexivity).
  do 4 (split; [first [reflexivity | lia | vm_compute; reflexivity]|]). split; [ptr_ne|]. do 3 (split; [first [reflexivity | lia | vm_compute; reflexivity]|]).
  split; [exact Hf|]. do 3 (split; [first [reflexivity | lia | vm_compute; reflexivity]|]).
  do 2 (split; [int_range|]). split; [exact Hr|].
  apply (ISRHandler_in_bounds (fun y => [y]) 4 2 8 demo_pool_vp (Some 0) (mkI2SIntr true 0 0)
           (mkProd 0 false) (mkHeap (<[2 := (8 * 2, KMalloc)]> ∅) ∅ 3 0) 2 0);
    [reflexivity | lia | lia | lia | ptr_ne | reflexivity | lia | reflexivity | exact Hf | reflexivity | lia | vm_compute; reflexivity | int_range | int_range | exact Hr].
Defined.

(** A frame of [H = 4] rows with two lines per pool: the frame-reset
    interrupt and three more, from a stale production state. *)
Lemma frame_raises_vsync_witness :
  Forall (fun r => int_st_out_eof r = true /\ out_eof_des_addr r <> 0)
         [mkI2SIntr true 0 1; mkI2SIntr true 0 2; mkI2SIntr true 0 3] /\
  exists ps' h', isr_run (Some (fun y => [y])) 4 2 demo_pool_vp (Some 0)
                   [mkI2SIntr true 0 0; mkI2SIntr true 0 1; mkI2SIntr true 0 2; mkI2SIntr true 0 3]
                   (mkProd 7 true) (mkHeap (<[2 := (8 * 2, KMalloc)]> ∅) ∅ 3 0) = Ok (ps', h') /\
                 VSync ps' = true.
Proof.
  assert (Hf : forall sl, Z.of_nat (length ((fun y : Z => [y]) sl)) <= 2 / 2 * 8)
    by (intros; change (2 / 2 * 8) with 8; simpl; lia).
  assert (Hrs : Forall (fun r => int_st_out_eof r = true /\ out_eof_des_addr r <> 0)
                  [mkI2SIntr true 0 1; mkI2SIntr true 0 2; mkI2SIntr true 0 3])
    by (repeat constructor; simpl; lia).
  split; [exact Hrs|].
  apply (frame_raises_vsync (fun y => [y]) 4 2 8 demo_pool_vp 0 2 (mkI2SIntr true 0 0));
    [reflexivity | lia | lia | lia | ptr_ne | reflexivity | lia | reflexivity | exact Hf
    | int_range | int_range | reflexivity | reflexivity | exact Hrs | reflexivity].
Defined.
