(* ===== verification/DMAChain.v ===== *)
(** * DMAChain: the descriptor chain and its per-row bindings

    [onSetupDMABuffer] (vgadirectcontroller.cpp, lines 162-178) is called by
    the base class for every descriptor of the frame.  For a visible row it
    records the descriptor in [s_DMALines[visibleRow]], binds it to
    [m_lines[visibleRow % m_linesCount]], and, on the first scan of every
    [m_linesCount / 2]-th row, sets its [eof] flag (so that it raises the
    interrupt) and, for row 0, records it as [s_frameResetDesc].
    [setScanlineBuffer] / [getScanlineBuffer] (lines 181-195) rebind or read
    the descriptor of a row.  Outside [USERSPACE] only; in the [USERSPACE]
    build the bodies are compiled out and [getScanlineBuffer] calls
    [abort()].

    Descriptors live in an arena indexed by [Z]: a descriptor pointer is its
    index.  The walk of the base class [VGABaseController] over the frame
    (one call per transmitted scanline, visible rows first, then the
    blanking rows) is not code of this repository: [frame_layout] and
    [setup_slots] model it from the specification. *)

From S2P Require Import Prelude Heap LinePool.

(** [lldesc_t], reduced to what this controller touches: [buf] and [eof]. *)
Record lldesc : Type := mkDesc { desc_buf : Ptr; desc_eof : bool }.

(** The descriptors of the frame and the static [s_frameResetDesc]
    ([None] is its initial [nullptr]). *)
Record Chain : Type := mkChain { descs : list lldesc; s_frameResetDesc : option Z }.

Section Setup.
Context (userspace : bool).

Definition onSetupDMABuffer (linesCount : Z) (vp : ViewPort) (ch : Chain) (buffer : Z)
    (isStartOfVertFrontPorch : bool) (scan : Z) (isVisible : bool) (visibleRow : Z)
    : res (ViewPort * Chain) :=
  if userspace then Ok (vp, ch) else
  if isVisible then
    (if decide (s_DMALines vp = nullptr) then Err NullDeref else Ok tt) ≫= fun _ =>
    dl ← c_store (s_DMALines_tbl vp) visibleRow (Some buffer);
    let vp' := mkViewPort (m_lines vp) (m_lines_tbl vp) (s_DMALines vp) dl in
    (if decide (m_lines vp = nullptr) then Err NullDeref else Ok tt) ≫= fun _ =>
    r ← c_mod visibleRow linesCount;
    p ← c_index (m_lines_tbl vp) r;
    d ← c_index (descs ch) buffer;
    ds ← c_store (descs ch) buffer (mkDesc p (desc_eof d));
    (* generate interrupt every half m_linesCount *)
    if decide (scan = 0) then
      half ← c_div linesCount 2;
      k ← c_mod visibleRow half;
      if decide (k = 0) then
        let fr := if decide (visibleRow = 0) then Some buffer else s_frameResetDesc ch in
        ds' ← c_store ds buffer (mkDesc p true);
        Ok (vp', mkChain ds' fr)
      else Ok (vp', mkChain ds (s_frameResetDesc ch))
    else Ok (vp', mkChain ds (s_frameResetDesc ch))
  else Ok (vp, ch).



End Setup.

(** ** The frame walk of the base class (from the specification) *)

(** What the base class passes for one descriptor. *)
Record SlotInfo : Type := mkSlot {
  si_startOfVertFrontPorch : bool; si_scan : Z; si_visible : bool; si_row : Z
}.

(** Visible rows [0 .. H-1], each sent [scanCount] times, then the blanking
    rows; the first blanking row starts the vertical front porch. *)
Definition frame_layout (H scanCount blankRows : Z) : list SlotInfo :=
  flat_map (fun r => map (fun s => mkSlot false s true r) (zrange 0 scanCount)) (zrange 0 H)
  ++ map (fun k => mkSlot (bool_decide (k = 0)) 0 false 0) (zrange 0 blankRows).

Fixpoint setup_slots (userspace : bool) (linesCount : Z) (vp : ViewPort) (ch : Chain)
    (i : Z) (slots : list SlotInfo) : res (ViewPort * Chain) :=
  match slots with
  | [] => Ok (vp, ch)
  | sl :: rest =>
      '(vp1, ch1) ← onSetupDMABuffer userspace linesCount vp ch i
                      (si_startOfVertFrontPorch sl) (si_scan sl) (si_visible sl) (si_row sl);
      setup_slots userspace linesCount vp1 ch1 (i + 1) rest
  end.

(** The chain of one frame: fresh descriptors (no buffer, no [eof]) set up
    in frame order; [s_frameResetDesc] keeps its previous value [fr0] until
    row 0 is seen. *)
Definition build_chain (userspace : bool) (linesCount : Z) (vp : ViewPort) (fr0 : option Z)
    (H scanCount blankRows : Z) : res (ViewPort * Chain) :=
  let slots := frame_layout H scanCount blankRows in
  setup_slots userspace linesCount vp
    (mkChain (replicate (length slots) (mkDesc nullptr false)) fr0) 0 slots.

(** ** Lemmas *)

Lemma c_store_ok {A} (l : list A) i x :
  0 <= i < Z.of_nat (length l) -> c_store l i x = Ok (<[Z.to_nat i := x]> l).
Proof. intros Hi. unfold c_store. by rewrite decide_True. Qed.

Lemma c_index_some {A} (l : list A) i x :
  0 <= i -> l !! Z.to_nat i = Some x -> c_index l i = Ok x.
Proof. intros. by apply c_index_lookup. Qed.

(** The eof condition of line 171 for a nonnegative row. *)
Definition eof_row (linesCount scan visibleRow : Z) : bool :=
  bool_decide (scan = 0 /\ visibleRow mod (linesCount / 2) = 0).

(** ** Behaviour of [onSetupDMABuffer] *)

(** One visible slot, computed. *)
Lemma onSetupDMABuffer_visible_step linesCount vp ch buffer st scan row p d :
  2 <= linesCount -> s_DMALines vp <> nullptr -> m_lines vp <> nullptr ->
  0 <= row < Z.of_nat (length (s_DMALines_tbl vp)) ->
  m_lines_tbl vp !! Z.to_nat (row mod linesCount) = Some p ->
  0 <= buffer -> descs ch !! Z.to_nat buffer = Some d ->
  onSetupDMABuffer false linesCount vp ch buffer st scan true row =
    Ok (mkViewPort (m_lines vp) (m_lines_tbl vp) (s_DMALines vp)
                   (<[Z.to_nat row := Some buffer]> (s_DMALines_tbl vp)),
        mkChain (<[Z.to_nat buffer := mkDesc p (desc_eof d || eof_row linesCount scan row)]> (descs ch))
                (if bool_decide (scan = 0 /\ row = 0) then Some buffer else s_frameResetDesc ch)).
Proof.
  intros HN Hdl Hl Hrow Hp Hb Hd.
  assert (Hd' : (Z.to_nat buffer < length (descs ch))%nat) by (apply lookup_lt_Some in Hd; lia).
  pose proof (half_pos linesCount HN) as Hh.
  unfold onSetupDMABuffer, eof_row. decide_guard. simpl.
  rewrite c_store_ok by done. simpl. decide_guard. simpl.
  rewrite (c_mod_ok row linesCount) by lia. simpl. rewrite (rem_nonneg_mod row linesCount) by lia.
  rewrite (c_index_some _ _ p) by (first [done | pose proof (Z.mod_pos_bound row linesCount); lia]).
  rewrite (c_index_some _ _ d) by done. simpl.
  rewrite c_store_ok by lia. simpl.
  destruct (decide (scan = 0)) as [->|Hs].
  - rewrite quot_nonneg_div by lia. rewrite c_mod_ok by lia. simpl.
    rewrite rem_nonneg_mod by lia.
    destruct (decide (row mod (linesCount / 2) = 0)) as [Hm|Hm].
    + simpl. rewrite c_store_ok by (rewrite length_insert; lia). simpl.
      rewrite list_insert_insert_eq, (bool_decide_true (0 = 0 /\ _)), orb_true_r by done.
      destruct (decide (row = 0)) as [->|Hr0];
        [rewrite bool_decide_true | rewrite bool_decide_false]; naive_solver.
    + simpl. rewrite bool_decide_false by naive_solver. rewrite orb_false_r.
      do 3 f_equal. rewrite bool_decide_false; [done|]. intros [_ ->]. by rewrite Z.mod_0_l in Hm by lia.
  - simpl. rewrite !bool_decide_false by naive_solver. rewrite orb_false_r. reflexivity.
Qed.

(** C15: on a visible row the descriptor is recorded in
    [s_DMALines[row]], bound to [m_lines[row % linesCount]], gets [eof] on
    the first scan of every [half]-th row, and the descriptor of the first
    scan of row 0 becomes the frame-reset marker. *)
Theorem onSetupDMABuffer_visible linesCount vp ch buffer st scan row p d :
  2 <= linesCount -> s_DMALines vp <> nullptr -> m_lines vp <> nullptr ->
  0 <= row < Z.of_nat (length (s_DMALines_tbl vp)) ->
  m_lines_tbl vp !! Z.to_nat (row mod linesCount) = Some p ->
  0 <= buffer -> descs ch !! Z.to_nat buffer = Some d ->
  onSetupDMABuffer false linesCount vp ch buffer st scan true row =
    Ok (mkViewPort (m_lines vp) (m_lines_tbl vp) (s_DMALines vp)
                   (<[Z.to_nat row := Some buffer]> (s_DMALines_tbl vp)),
        mkChain (<[Z.to_nat buffer := mkDesc p (desc_eof d || eof_row linesCount scan row)]> (descs ch))
                (if bool_decide (scan = 0 /\ row = 0) then Some buffer else s_frameResetDesc ch)).
Proof. apply onSetupDMABuffer_visible_step. Qed.

(** ** The buffer access API *)


(** A small double-scan frame: two visible rows sent twice each
    ([scanCount = 2]) and one blanking row, a two-line pool. *)
Definition demo_vp : ViewPort :=
  mkViewPort (mkPtr 1 0) (pool_lines (mkPtr 2 0) 2 8) (mkPtr 3 0) (replicate 2 None).


(** ** The whole frame *)

(** What the descriptor of a slot holds once the frame is set up: a
    visible slot is bound to its row's pool line and carries the eof
    condition; a blanking slot keeps its initial value. *)
Definition slot_desc (linesCount : Z) (lines : list Ptr) (sl : SlotInfo) : lldesc :=
  if si_visible sl
  then mkDesc (lines !!! Z.to_nat (si_row sl mod linesCount)) (eof_row linesCount (si_scan sl) (si_row sl))
  else mkDesc nullptr false.

(** [s_DMALines] after the slots [i, i + 1, ...]: each visible slot
    overwrites its row's entry. *)
Fixpoint dl_after (dl : list (option Z)) (i : Z) (slots : list SlotInfo) : list (option Z) :=
  match slots with
  | [] => dl
  | sl :: rest => dl_after (if si_visible sl then <[Z.to_nat (si_row sl) := Some i]> dl else dl) (i + 1) rest
  end.

(** [s_frameResetDesc] after the slots [i, i + 1, ...]. *)
Fixpoint fr_after (fr : option Z) (i : Z) (slots : list SlotInfo) : option Z :=
  match slots with
  | [] => fr
  | sl :: rest =>
      fr_after (if si_visible sl && bool_decide (si_scan sl = 0 /\ si_row sl = 0) then Some i else fr)
               (i + 1) rest
  end.

Lemma length_dl_after dl i slots : length (dl_after dl i slots) = length dl.
Proof.
  revert dl i. induction slots as [|sl rest IH]; intros dl i; [done|]. simpl.
  rewrite IH. destruct (si_visible sl); [apply length_insert | done].
Qed.

Section Walk.
Context (linesCount : Z) (vp : ViewPort).
Hypothesis HN : 2 <= linesCount.
Hypothesis Hl : m_lines vp <> nullptr.
Hypothesis Hdl : s_DMALines vp <> nullptr.
Hypothesis Hlen : length (m_lines_tbl vp) = Z.to_nat linesCount.

(** The walk over the slots [i, i + 1, ...] of a chain whose descriptors
    from [i] on are still fresh: exactly the descriptors [slot_desc], the
    table [dl_after], the marker [fr_after]. *)
Lemma setup_slots_exec slots : forall dl ch D i,
  (forall sl, sl ∈ slots -> si_visible sl = true -> 0 <= si_row sl < Z.of_nat (length dl)) ->
  descs ch = D ++ replicate (length slots) (mkDesc nullptr false) -> length D = Z.to_nat i -> 0 <= i ->
  setup_slots false linesCount (mkViewPort (m_lines vp) (m_lines_tbl vp) (s_DMALines vp) dl) ch i slots
  = Ok (mkViewPort (m_lines vp) (m_lines_tbl vp) (s_DMALines vp) (dl_after dl i slots),
        mkChain (D ++ map (slot_desc linesCount (m_lines_tbl vp)) slots) (fr_after (s_frameResetDesc ch) i slots)).
Proof.
  induction slots as [|sl rest IH]; intros dl ch D i Hrows Hch HD Hi.
  { simpl in *. rewrite !app_nil_r in *. rewrite <- Hch. by destruct ch. }
  cbn [setup_slots length replicate] in *.
  assert (Hi' : descs ch !! Z.to_nat i = Some (mkDesc nullptr false)).
  { rewrite Hch, lookup_app_r by lia. by rewrite HD, Nat.sub_diag. }
  assert (Hins : forall x, <[Z.to_nat i := x]> (descs ch)
                  = (D ++ [x]) ++ replicate (length rest) (mkDesc nullptr false)).
  { intros x. rewrite Hch, insert_app_r_alt by lia. rewrite HD, Nat.sub_diag. by rewrite <- app_assoc. }
  destruct (si_visible sl) eqn:Hv.
  - pose proof (Z.mod_pos_bound (si_row sl) linesCount ltac:(lia)).
    assert (Hrow : 0 <= si_row sl < Z.of_nat (length dl)) by (apply Hrows; set_solver).
    destruct sl as [st sc vis row]; cbn [si_visible si_row si_scan si_startOfVertFrontPorch] in *.
    subst vis.
    rewrite (onSetupDMABuffer_visible_step linesCount _ ch i st sc row
               (m_lines_tbl vp !!! Z.to_nat (row mod linesCount)) (mkDesc nullptr false)); try done.
    2:{ apply list_lookup_lookup_total_lt. lia. }
    simpl. rewrite Hins.
    rewrite (IH _ _ (D ++ [mkDesc (m_lines_tbl vp !!! Z.to_nat (row mod linesCount)) (eof_row linesCount sc row)])
               (i + 1)); [| | done | rewrite length_app; simpl; lia | lia].
    + rewrite <- app_assoc. done.
    + intros sl' Hsl' Hv'. rewrite length_insert. apply Hrows; set_solver.
  - assert (E : onSetupDMABuffer false linesCount
                  (mkViewPort (m_lines vp) (m_lines_tbl vp) (s_DMALines vp) dl) ch i
                  (si_startOfVertFrontPorch sl) (si_scan sl) false (si_row sl)
                = Ok (mkViewPort (m_lines vp) (m_lines_tbl vp) (s_DMALines vp) dl, ch)) by done.
    rewrite E. simpl.
    rewrite (IH dl ch (D ++ [mkDesc nullptr false]) (i + 1)).
    + rewrite <- app_assoc. simpl. unfold slot_desc. rewrite Hv. done.
    + intros sl' Hsl' Hv'. apply Hrows; set_solver.
    + rewrite Hch, <- app_assoc. done.
    + rewrite length_app. simpl. lia.
    + lia.
Qed.

End Walk.

Lemma dl_after_app dl i l1 l2 :
  dl_after dl i (l1 ++ l2) = dl_after (dl_after dl i l1) (i + Z.of_nat (length l1)) l2.
Proof.
  revert dl i. induction l1 as [|sl rest IH]; intros dl i; simpl; [by rewrite Z.add_0_r|].
  rewrite IH. f_equal. lia.
Qed.

Lemma fr_after_app fr i l1 l2 :
  fr_after fr i (l1 ++ l2) = fr_after (fr_after fr i l1) (i + Z.of_nat (length l1)) l2.
Proof.
  revert fr i. induction l1 as [|sl rest IH]; intros fr i; simpl; [by rewrite Z.add_0_r|].
  rewrite IH. f_equal. lia.
Qed.

Lemma dl_after_invisible dl i slots :
  Forall (fun sl => si_visible sl = false) slots -> dl_after dl i slots = dl.
Proof.
  revert dl i. induction slots as [|sl rest IH]; intros dl i Hf; [done|].
  apply Forall_cons in Hf as [Hv Hf]. simpl. rewrite Hv. by apply IH.
Qed.

Lemma fr_after_keep fr i slots :
  Forall (fun sl => si_visible sl && bool_decide (si_scan sl = 0 /\ si_row sl = 0) = false) slots ->
  fr_after fr i slots = fr.
Proof.
  revert fr i. induction slots as [|sl rest IH]; intros fr i Hf; [done|].
  apply Forall_cons in Hf as [Hv Hf]. simpl. rewrite Hv. by apply IH.
Qed.

(** The slots of one visible row, scans [b, b + 1, ...]. *)
Definition row_slots (r b : Z) (m : nat) : list SlotInfo :=
  map (fun s => mkSlot false s true r) (seqZ b (Z.of_nat m)).

(** A row sent [m + 1] times: its [s_DMALines] entry is the last scan's. *)
Lemma dl_after_row dl i r b m :
  dl_after dl i (row_slots r b (S m)) = <[Z.to_nat r := Some (i + Z.of_nat m)]> dl.
Proof.
  revert dl i b. induction m as [|m IH]; intros dl i b.
  - unfold row_slots. rewrite seqZ_cons by lia. simpl. by rewrite Z.add_0_r.
  - unfold row_slots in *. rewrite Nat2Z.inj_succ, seqZ_cons by lia. rewrite Z.pred_succ.
    simpl. rewrite IH, list_insert_insert_eq. do 2 f_equal. lia.
Qed.

Lemma length_row_slots r b m : length (row_slots r b m) = m.
Proof. unfold row_slots. by rewrite length_map, length_seqZ, Nat2Z.id. Qed.

Lemma lookup_row_slots r b m s :
  0 <= s < Z.of_nat m -> row_slots r b m !! Z.to_nat s = Some (mkSlot false (b + s) true r).
Proof.
  intros Hs. unfold row_slots. rewrite list_lookup_fmap.
  rewrite lookup_seqZ_lt by lia. simpl. by rewrite Z2Nat.id by lia.
Qed.

Lemma Forall_row_slots (P : SlotInfo -> Prop) r b m :
  (forall s, b <= s < b + Z.of_nat m -> P (mkSlot false s true r)) -> Forall P (row_slots r b m).
Proof.
  intros HP. apply Forall_forall. intros x Hx. unfold row_slots in Hx.
  apply list_elem_of_In, in_map_iff in Hx as (s & <- & Hs).
  apply list_elem_of_In, elem_of_seqZ in Hs. apply HP. lia.
Qed.

Section Rows.
Context (m : nat).

(** The visible part of a frame: rows [a .. a + n - 1], each sent [m] times. *)
Definition vis_slots (a : Z) (n : nat) : list SlotInfo :=
  flat_map (fun r => row_slots r 0 m) (seqZ a (Z.of_nat n)).

Lemma vis_slots_succ a n : vis_slots a (S n) = row_slots a 0 m ++ vis_slots (a + 1) n.
Proof. unfold vis_slots. rewrite Nat2Z.inj_succ, seqZ_cons, Z.pred_succ by lia. by rewrite <- Z.add_1_r. Qed.

Lemma length_vis_slots a n : length (vis_slots a n) = (n * m)%nat.
Proof.
  revert a. induction n as [|n IH]; intros a; [done|].
  rewrite vis_slots_succ, length_app, length_row_slots, IH. lia.
Qed.

Lemma lookup_vis_slots n : forall a r s,
  a <= r < a + Z.of_nat n -> 0 <= s < Z.of_nat m ->
  vis_slots a n !! Z.to_nat ((r - a) * Z.of_nat m + s) = Some (mkSlot false s true r).
Proof.
  induction n as [|n IH]; intros a r s Hr Hs; [lia|]. rewrite vis_slots_succ.
  destruct (decide (r = a)) as [->|Hne].
  - rewrite lookup_app_l by (rewrite length_row_slots; lia).
    rewrite Z.sub_diag, Z.mul_0_l, Z.add_0_l, lookup_row_slots by done. done.
  - rewrite lookup_app_r by (rewrite length_row_slots; nia). rewrite length_row_slots.
    replace (Z.to_nat ((r - a) * Z.of_nat m + s) - m)%nat with (Z.to_nat ((r - (a + 1)) * Z.of_nat m + s)) by nia.
    apply IH; lia.
Qed.

Lemma Forall_vis_slots (P : SlotInfo -> Prop) n : forall a,
  (forall r s, a <= r < a + Z.of_nat n -> 0 <= s < Z.of_nat m -> P (mkSlot false s true r)) ->
  Forall P (vis_slots a n).
Proof.
  induction n as [|n IH]; intros a HP; [constructor|]. rewrite vis_slots_succ.
  apply Forall_app. split.
  - apply Forall_row_slots. intros s Hs. apply HP; lia.
  - apply IH. intros r s Hr Hs. apply HP; lia.
Qed.

(** Each row's [s_DMALines] entry is the descriptor of its last scan. *)
Lemma dl_after_vis n : forall a dl r,
  (0 < m)%nat -> 0 <= a -> a + Z.of_nat n <= Z.of_nat (length dl) -> 0 <= r ->
  dl_after dl (a * Z.of_nat m) (vis_slots a n) !! Z.to_nat r =
    if decide (a <= r < a + Z.of_nat n) then Some (Some (r * Z.of_nat m + Z.of_nat m - 1))
    else dl !! Z.to_nat r.
Proof.
  induction n as [|n IH]; intros a dl r Hm Ha Hlen Hr.
  { simpl. rewrite decide_False by lia. done. }
  rewrite vis_slots_succ, dl_after_app, length_row_slots.
  assert (Hrow : dl_after dl (a * Z.of_nat m) (row_slots a 0 m)
                 = <[Z.to_nat a := Some (a * Z.of_nat m + Z.of_nat m - 1)]> dl).
  { destruct m as [|m']; [lia|]. rewrite dl_after_row. do 2 f_equal. lia. }
  rewrite Hrow. replace (a * Z.of_nat m + Z.of_nat m) with ((a + 1) * Z.of_nat m) by lia.
  rewrite IH by (rewrite ?length_insert; lia).
  destruct (decide (r = a)) as [->|Hne].
  - rewrite decide_False, decide_True by lia.
    rewrite list_lookup_insert_eq by lia. do 2 f_equal. lia.
  - rewrite list_lookup_insert_ne by lia.
    repeat case_decide; try done; lia.
Qed.

End Rows.

Lemma frame_layout_eq H sc blank :
  0 <= H -> 0 <= sc ->
  frame_layout H sc blank =
    vis_slots (Z.to_nat sc) 0 (Z.to_nat H) ++ map (fun k => mkSlot (bool_decide (k = 0)) 0 false 0) (zrange 0 blank).
Proof.
  intros. unfold frame_layout, vis_slots, row_slots, zrange. rewrite !Z.sub_0_r, !Z2Nat.id by lia. reflexivity.
Qed.

(** Only the first scan of row 0 sets the frame-reset marker. *)
Lemma fr_after_vis m n fr :
  (0 < m)%nat -> (0 < n)%nat -> fr_after fr 0 (vis_slots m 0 n) = Some 0.
Proof.
  intros Hm Hn. destruct n as [|n]; [lia|]. destruct m as [|m]; [lia|].
  rewrite vis_slots_succ, fr_after_app.
  unfold row_slots at 1. rewrite Nat2Z.inj_succ, seqZ_cons, Z.pred_succ by lia. simpl.
  rewrite fr_after_keep; [apply fr_after_keep|].
  - apply (Forall_row_slots _ 0 (Z.succ 0) m). intros sc Hsc. simpl. rewrite bool_decide_false by lia. done.
  - apply Forall_vis_slots. intros r sc Hr _. simpl. rewrite bool_decide_false by lia. done.
Qed.

(** Visible slots of a frame name rows of the viewport. *)
Lemma frame_rows_in_range H sc blank sl :
  sl ∈ frame_layout H sc blank -> si_visible sl = true -> 0 <= si_row sl < H.
Proof.
  unfold frame_layout. intros Hsl Hv. apply elem_of_app in Hsl as [Hsl|Hsl];
    apply list_elem_of_In in Hsl.
  - apply in_flat_map in Hsl as (r & Hr & Hsl). apply in_map_iff in Hsl as (s & <- & _).
    apply list_elem_of_In, elem_of_zrange in Hr. done.
  - apply in_map_iff in Hsl as (k & <- & _). discriminate.
Qed.

(** With both tables allocated, the walk of a frame succeeds and keeps the
    pool and the table pointers. *)
Lemma build_chain_ok linesCount vp fr0 H sc blank :
  2 <= linesCount -> m_lines vp <> nullptr -> s_DMALines vp <> nullptr ->
  length (m_lines_tbl vp) = Z.to_nat linesCount -> length (s_DMALines_tbl vp) = Z.to_nat H ->
  exists dl ch, build_chain false linesCount vp fr0 H sc blank
                = Ok (mkViewPort (m_lines vp) (m_lines_tbl vp) (s_DMALines vp) dl, ch).
Proof.
  intros HN Hl Hdl Hlen Hdlen. unfold build_chain. destruct vp as [l lt dlp dlt]; simpl in *.
  rewrite (setup_slots_exec linesCount (mkViewPort l lt dlp dlt) HN Hl Hdl Hlen _ dlt _ [] 0);
    [by eauto | | by rewrite app_nil_l | done | lia].
  intros sl Hsl Hv. pose proof (frame_rows_in_range H sc blank sl Hsl Hv). lia.
Qed.

(** The walk of a frame with a visible row 0 keeps the pool and table
    pointers and marks its first descriptor as the frame reset. *)
Lemma build_chain_reset linesCount vp fr0 H sc blank :
  2 <= linesCount -> m_lines vp <> nullptr -> s_DMALines vp <> nullptr ->
  length (m_lines_tbl vp) = Z.to_nat linesCount -> length (s_DMALines_tbl vp) = Z.to_nat H ->
  1 <= H -> 1 <= sc -> 0 <= blank ->
  exists dl ch, build_chain false linesCount vp fr0 H sc blank
                = Ok (mkViewPort (m_lines vp) (m_lines_tbl vp) (s_DMALines vp) dl, ch) /\
                s_frameResetDesc ch = Some 0.
Proof.
  intros HN Hl Hdl Hlen Hdlen HH Hsc Hb. unfold build_chain. destruct vp as [l lt dlp dlt]; simpl in *.
  rewrite (setup_slots_exec linesCount (mkViewPort l lt dlp dlt) HN Hl Hdl Hlen _ dlt _ [] 0);
    [| | by rewrite app_nil_l | done | lia].
  2:{ intros sl Hsl Hv. pose proof (frame_rows_in_range H sc blank sl Hsl Hv). lia. }
  do 2 eexists. split; [reflexivity|]. cbn [s_frameResetDesc].
  rewrite frame_layout_eq by lia. rewrite fr_after_app, fr_after_keep; [apply fr_after_vis; lia|].
  apply Forall_forall. intros x Hx. apply list_elem_of_In, in_map_iff in Hx as (k & <- & _). done.
Qed.

(** C16: the chain of a frame ([USERSPACE] off, one descriptor per scan of
    each visible row, then the blanking rows): the descriptor of scan [s]
    of row [r] is bound to [m_lines[r % linesCount]] and raises the
    interrupt exactly on the first scan of every [linesCount/2]-th row;
    the blanking descriptors carry no buffer; [s_DMALines[r]] is the
    descriptor of the last scan of row [r]; the frame-reset marker is the
    first descriptor. *)
Theorem build_chain_frame linesCount vp fr0 H sc blank :
  2 <= linesCount -> m_lines vp <> nullptr -> s_DMALines vp <> nullptr ->
  length (m_lines_tbl vp) = Z.to_nat linesCount -> length (s_DMALines_tbl vp) = Z.to_nat H ->
  1 <= H -> 1 <= sc -> 0 <= blank ->
  exists vp' ch, build_chain false linesCount vp fr0 H sc blank = Ok (vp', ch) /\
    m_lines_tbl vp' = m_lines_tbl vp /\
    length (descs ch) = Z.to_nat (H * sc + blank) /\
    (forall r s, 0 <= r < H -> 0 <= s < sc ->
       descs ch !! Z.to_nat (r * sc + s) =
         Some (mkDesc (m_lines_tbl vp !!! Z.to_nat (r mod linesCount))
                      (bool_decide (s = 0 /\ r mod (linesCount / 2) = 0)))) /\
    (forall k, 0 <= k < blank -> descs ch !! Z.to_nat (H * sc + k) = Some (mkDesc nullptr false)) /\
    (forall r, 0 <= r < H -> s_DMALines_tbl vp' !! Z.to_nat r = Some (Some (r * sc + sc - 1))) /\
    s_frameResetDesc ch = Some 0.
Proof.
  intros HN Hl Hdl Hlen Hdlen HH Hsc Hb.
  set (blanks := map (fun k => mkSlot (bool_decide (k = 0)) 0 false 0) (zrange 0 blank)).
  assert (Hinv : Forall (fun sl => si_visible sl = false) blanks).
  { apply Forall_forall. intros x Hx. apply list_elem_of_In, in_map_iff in Hx as (k & <- & _). done. }
  assert (Hvl : length (vis_slots (Z.to_nat sc) 0 (Z.to_nat H)) = Z.to_nat (H * sc)) by
    (rewrite length_vis_slots; lia).
  unfold build_chain. rewrite frame_layout_eq by lia. fold blanks.
  destruct vp as [l lt dlp dlt]; simpl in *.
  rewrite (setup_slots_exec linesCount (mkViewPort l lt dlp dlt) HN Hl Hdl Hlen _ dlt _ [] 0);
    [| | by rewrite app_nil_l | done | lia].
  2:{ intros sl Hsl Hv. unfold blanks in Hsl. rewrite <- frame_layout_eq in Hsl by lia.
      pose proof (frame_rows_in_range H sc blank sl Hsl Hv). lia. }
  do 2 eexists. split; [reflexivity|]. cbn [descs s_frameResetDesc m_lines_tbl s_DMALines_tbl].
  rewrite app_nil_l. split; [done|]. split; [|split; [|split; [|split]]].
  - rewrite length_map, length_app, Hvl. unfold blanks. rewrite length_map, zrange_length. lia.
  - intros r s Hr Hs. rewrite list_lookup_fmap, lookup_app_l by (rewrite Hvl; nia).
    pose proof (lookup_vis_slots (Z.to_nat sc) (Z.to_nat H) 0 r s) as E.
    rewrite Z.sub_0_r, !Z2Nat.id in E by lia. rewrite E by lia. done.
  - intros k Hk. rewrite list_lookup_fmap, lookup_app_r by (rewrite Hvl; nia). rewrite Hvl.
    replace (Z.to_nat (H * sc + k) - Z.to_nat (H * sc))%nat with (Z.to_nat k) by lia.
    unfold blanks. rewrite list_lookup_fmap, zrange_lookup by lia. done.
  - intros r Hr. rewrite dl_after_app, dl_after_invisible by done.
    pose proof (dl_after_vis (Z.to_nat sc) (Z.to_nat H) 0 dlt r) as E.
    rewrite Z.mul_0_l, Z2Nat.id in E by lia. rewrite E by lia.
    rewrite decide_True, Z2Nat.id by lia. done.
  - rewrite fr_after_app, fr_after_keep; [apply fr_after_vis; lia|].
    eapply Forall_impl; [exact Hinv|]. intros sl ->. done.
Qed.

(** ** Witnesses *)

Lemma onSetupDMABuffer_visible_witness :
  2 <= 2 /\ s_DMALines demo_vp <> nullptr /\ m_lines demo_vp <> nullptr /\
  0 <= 1 < Z.of_nat (length (s_DMALines_tbl demo_vp)) /\
  m_lines_tbl demo_vp !! Z.to_nat (1 mod 2) = Some (mkPtr 2 8) /\
  0 <= 1 /\ descs (mkChain (replicate 3 (mkDesc nullptr false)) None) !! Z.to_nat 1 = Some (mkDesc nullptr false) /\
  onSetupDMABuffer false 2 demo_vp (mkChain (replicate 3 (mkDesc nullptr false)) None) 1 false 0 true 1 =
    Ok (mkViewPort (m_lines demo_vp) (m_lines_tbl demo_vp) (s_DMALines demo_vp)
                   (<[Z.to_nat 1 := Some 1]> (s_DMALines_tbl demo_vp)),
        mkChain (<[Z.to_nat 1 := mkDesc (mkPtr 2 8) (desc_eof (mkDesc nullptr false) || eof_row 2 0 1)]>
                   (descs (mkChain (replicate 3 (mkDesc nullptr false)) None)))
                (if bool_decide (0 = 0 /\ 1 = 0) then Some 1
                 else s_frameResetDesc (mkChain (replicate 3 (mkDesc nullptr false)) None))).
Proof.
  split; [lia|]. split; [ptr_ne|].
  split; [ptr_ne|].
  split; [simpl; lia|]. split; [reflexivity|]. split; [lia|]. split; [reflexivity|].
  apply onSetupDMABuffer_visible;
    [lia | ptr_ne | ptr_ne
    | simpl; lia | reflexivity | lia | reflexivity].
Defined.


Lemma build_chain_frame_witness :
  2 <= 2 /\ m_lines demo_vp <> nullptr /\ s_DMALines demo_vp <> nullptr /\
  length (m_lines_tbl demo_vp) = Z.to_nat 2 /\ length (s_DMALines_tbl demo_vp) = Z.to_nat 2 /\
  1 <= 2 /\ 1 <= 2 /\ 0 <= 1 /\
  exists vp' ch, build_chain false 2 demo_vp None 2 2 1 = Ok (vp', ch) /\
    m_lines_tbl vp' = m_lines_tbl demo_vp /\
    length (descs ch) = Z.to_nat (2 * 2 + 1) /\
    (forall r s, 0 <= r < 2 -> 0 <= s < 2 ->
       descs ch !! Z.to_nat (r * 2 + s) =
         Some (mkDesc (m_lines_tbl demo_vp !!! Z.to_nat (r mod 2))
                      (bool_decide (s = 0 /\ r mod (2 / 2) = 0)))) /\
    (forall k, 0 <= k < 1 -> descs ch !! Z.to_nat (2 * 2 + k) = Some (mkDesc nullptr false)) /\
    (forall r, 0 <= r < 2 -> s_DMALines_tbl vp' !! Z.to_nat r = Some (Some (r * 2 + 2 - 1))) /\
    s_frameResetDesc ch = Some 0.
Proof.
  assert (H1 : m_lines demo_vp <> nullptr) by ptr_ne.
  assert (H2 : s_DMALines demo_vp <> nullptr) by ptr_ne.
  do 3 (split; [done|]). split; [reflexivity|]. split; [reflexivity|]. do 3 (split; [lia|]).
  apply build_chain_frame; [lia | done | done | reflexivity | reflexivity | lia | lia | lia].
Defined.
