(* ===== verification/Controller.v ===== *)
(** * Controller: the [VGADirectController] object and its API

    The state of one controller (its members, the base-class members it
    relies on, the statics it shares with the interrupt handler, the heap)
    and the public operations: the constructor (lines 76-83), [init]
    (86-90), [setDrawScanlineCallback] and [setScanlinesPerCallBack]
    (vgadirectcontroller.h, lines 116 and 132), [setResolution] (118-128)
    and [run] (131-149).

    [VGABaseController::setResolution] and [end] are not code of this
    repository; [base_end] and [base_setResolution] model them from the
    specification: stop the stream and release the interrupt and the
    viewport of a previous configuration, derive the viewport size, allocate
    the viewport and build the chain.  The drawing primitives of the class
    have empty bodies and are no-ops on this state.  [isr_event] is an I2S
    interrupt delivered to the controller: [ISRHandler] with [arg = this]. *)

From S2P Require Import Prelude Heap LinePool Producer DMAChain.

(** [VGATimings], reduced to the fields that size the frame. *)
Record VGATimings : Type := mkTimings {
  HVisibleArea : Z; VVisibleArea : Z;
  VFrontPorch : Z; VSyncPulse : Z; VBackPorch : Z;
  scanCount : Z
}.

Record VGADirect : Type := mkVGA {
  m_linesCount : Z;
  m_vp : ViewPort;                                    (** [m_lines], [s_DMALines] *)
  m_drawScanlineCallback : option DrawScanlineCallback;
  m_autoRun : bool;
  m_doubleBufferOverDMA : bool;
  m_viewPortWidth : Z;
  m_viewPortHeight : Z;
  m_isr_handle : option Z;                            (** [nullptr] is [None] *)
  m_DMABuffers : bool;                                (** a configuration is installed *)
  m_streamRunning : bool;                             (** the GPIO stream is started *)
  s_prod : ProdState;                                 (** [s_scanLine], [s_VSync] *)
  s_chain : Chain;                                    (** descriptors, [s_frameResetDesc] *)
  s_heap : Heap;
  isr_allocs : nat                                    (** calls of [esp_intr_alloc] *)
}.

(** Field updates. *)
Definition set_vp (s : VGADirect) (vp : ViewPort) (h : Heap) : VGADirect :=
  mkVGA (m_linesCount s) vp (m_drawScanlineCallback s) (m_autoRun s) (m_doubleBufferOverDMA s)
        (m_viewPortWidth s) (m_viewPortHeight s) (m_isr_handle s) (m_DMABuffers s)
        (m_streamRunning s) (s_prod s) (s_chain s) h (isr_allocs s).

Section Api.
Context (userspace : bool).

(** [VGADirectController(bool autoRun)]: [m_linesCount(2)], [m_lines(nullptr)],
    no callback; the statics keep their (zero) initial values. *)
Definition VGADirectController (autoRun : bool) (h : Heap) : VGADirect :=
  mkVGA 2 vp_init None autoRun false 0 0 None false false (mkProd 0 false)
        (mkChain [] None) h 0.

(** [init()]: the base initialisation, then [m_doubleBufferOverDMA = false]. *)
Definition init (s : VGADirect) : VGADirect :=
  mkVGA (m_linesCount s) (m_vp s) (m_drawScanlineCallback s) (m_autoRun s) false
        (m_viewPortWidth s) (m_viewPortHeight s) (m_isr_handle s) (m_DMABuffers s)
        (m_streamRunning s) (s_prod s) (s_chain s) (s_heap s) (isr_allocs s).

Definition setDrawScanlineCallback (cb : option DrawScanlineCallback) (s : VGADirect) : VGADirect :=
  mkVGA (m_linesCount s) (m_vp s) cb (m_autoRun s) (m_doubleBufferOverDMA s)
        (m_viewPortWidth s) (m_viewPortHeight s) (m_isr_handle s) (m_DMABuffers s)
        (m_streamRunning s) (s_prod s) (s_chain s) (s_heap s) (isr_allocs s).

(** [setScanlinesPerCallBack(value)]: [m_linesCount = value * 2], an [int]
    product. *)
Definition setScanlinesPerCallBack (value : Z) (s : VGADirect) : res VGADirect :=
  linesCount ← c_mul value 2;
  Ok $ mkVGA linesCount (m_vp s) (m_drawScanlineCallback s) (m_autoRun s) (m_doubleBufferOverDMA s)
        (m_viewPortWidth s) (m_viewPortHeight s) (m_isr_handle s) (m_DMABuffers s)
        (m_streamRunning s) (s_prod s) (s_chain s) (s_heap s) (isr_allocs s).

(** [run()]: start the stream, [s_scanLine = 0], and (outside [USERSPACE])
    allocate the interrupt only while [m_isr_handle] is null. *)
Definition run (s : VGADirect) : VGADirect :=
  let ps := mkProd 0 (s_VSync (s_prod s)) in
  let '(handle, n) :=
    if userspace then (m_isr_handle s, isr_allocs s) else
    match m_isr_handle s with
    | Some hd => (Some hd, isr_allocs s)
    | None => (Some (Z.of_nat (isr_allocs s) + 1), S (isr_allocs s))
    end in
  mkVGA (m_linesCount s) (m_vp s) (m_drawScanlineCallback s) (m_autoRun s) (m_doubleBufferOverDMA s)
        (m_viewPortWidth s) (m_viewPortHeight s) handle (m_DMABuffers s)
        (if userspace then m_streamRunning s else true) ps (s_chain s) (s_heap s) n.

(** [VGABaseController::end()]: when a configuration is installed, stop the
    stream, release the interrupt and free the viewport. *)
Definition base_end (s : VGADirect) : res VGADirect :=
  if m_DMABuffers s then
    '(vp', h') ← freeViewPort userspace (m_vp s) (s_heap s);
    Ok (mkVGA (m_linesCount s) vp' (m_drawScanlineCallback s) (m_autoRun s)
              (m_doubleBufferOverDMA s) (m_viewPortWidth s) (m_viewPortHeight s)
              None false false (s_prod s) (s_chain s) h' (isr_allocs s))
  else Ok s.

(** A requested viewport dimension: the visible area when the request is
    not positive or exceeds it. *)
Definition viewport_dim (req visible : Z) : Z :=
  if decide (req <= 0 \/ visible <= req) then visible else req.

Definition base_setResolution (t : VGATimings) (viewPortWidth viewPortHeight : Z)
    (doubleBuffered : bool) (s : VGADirect) : res VGADirect :=
  s1 ← base_end s;
  let w := viewport_dim viewPortWidth (HVisibleArea t) in
  let hgt := viewport_dim viewPortHeight (VVisibleArea t) in
  '(vp1, h1) ← allocateViewPort userspace (m_linesCount s1) w hgt (m_vp s1) (s_heap s1);
  '(vp2, ch) ← build_chain userspace (m_linesCount s1) vp1 (s_frameResetDesc (s_chain s1))
                 hgt (scanCount t) (VFrontPorch t + VSyncPulse t + VBackPorch t);
  Ok (mkVGA (m_linesCount s1) vp2 (m_drawScanlineCallback s1) (m_autoRun s1)
            (m_doubleBufferOverDMA s1) w hgt (m_isr_handle s1) true (m_streamRunning s1)
            (s_prod s1) ch h1 (isr_allocs s1)).

(** [setResolution]: nothing at all without a callback; otherwise the base
    configuration, then [run()] when [m_autoRun]. *)
Definition setResolution (t : VGATimings) (viewPortWidth viewPortHeight : Z)
    (doubleBuffered : bool) (s : VGADirect) : res VGADirect :=
  match m_drawScanlineCallback s with
  | None => Ok s
  | Some _ =>
      s1 ← base_setResolution t viewPortWidth viewPortHeight doubleBuffered s;
      Ok (if m_autoRun s1 then run s1 else s1)
  end.

(** An I2S interrupt while the handler is installed: [ISRHandler] with
    [arg = this] reads the controller's [m_viewPortHeight], [m_linesCount],
    [m_lines] and callback, and updates the statics and the pool bytes; the
    registers it clears belong to the peripheral, which raises the next
    interrupt with fresh ones. *)
Definition isr_event (regs : I2SIntr) (s : VGADirect) : res VGADirect :=
  '(ps, _, h) ← ISRHandler userspace (m_drawScanlineCallback s) (m_viewPortHeight s) (m_linesCount s)
                  (m_vp s) (s_frameResetDesc (s_chain s)) regs (s_prod s) (s_heap s);
  Ok (mkVGA (m_linesCount s) (m_vp s) (m_drawScanlineCallback s) (m_autoRun s) (m_doubleBufferOverDMA s)
            (m_viewPortWidth s) (m_viewPortHeight s) (m_isr_handle s) (m_DMABuffers s)
            (m_streamRunning s) ps (s_chain s) h (isr_allocs s)).

(** The interrupts [rs], one after the other, with no API call between
    them. *)
Fixpoint isr_events (rs : list I2SIntr) (s : VGADirect) : res VGADirect :=
  match rs with
  | [] => Ok s
  | r :: rest => s1 ← isr_event r s; isr_events rest s1
  end.

End Api.

(** ** Lemmas *)

(** A run of interrupts is [isr_run] on the controller's fields. *)
Lemma isr_events_run rs s ps' h' :
  isr_run (m_drawScanlineCallback s) (m_viewPortHeight s) (m_linesCount s) (m_vp s)
          (s_frameResetDesc (s_chain s)) rs (s_prod s) (s_heap s) = Ok (ps', h') ->
  isr_events false rs s =
    Ok (mkVGA (m_linesCount s) (m_vp s) (m_drawScanlineCallback s) (m_autoRun s) (m_doubleBufferOverDMA s)
              (m_viewPortWidth s) (m_viewPortHeight s) (m_isr_handle s) (m_DMABuffers s)
              (m_streamRunning s) ps' (s_chain s) h' (isr_allocs s)).
Proof.
  revert s. induction rs as [|r rs IH]; intros s E.
  - injection E as <- <-. by destruct s.
  - cbn [isr_run] in E. cbn [isr_events]. unfold isr_event.
    destruct (ISRHandler _ _ _ _ _ _ _ _ _) as [[[ps1 r1] h1]|]; [simpl in *|discriminate].
    erewrite IH; [reflexivity | exact E].
Qed.

Lemma isr_events_handle us rs s s' : isr_events us rs s = Ok s' -> m_isr_handle s' = m_isr_handle s.
Proof.
  revert s. induction rs as [|r rs IH]; intros s; [by intros [= <-]|]. cbn [isr_events]. unfold isr_event.
  destruct (ISRHandler _ _ _ _ _ _ _ _ _) as [[[ps1 r1] h1]|]; [simpl|discriminate].
  intros E. by rewrite (IH _ E).
Qed.

Lemma setScanlinesPerCallBack_fields v s s' :
  setScanlinesPerCallBack v s = Ok s' ->
  m_vp s' = m_vp s /\ s_heap s' = s_heap s /\ m_DMABuffers s' = m_DMABuffers s /\
  m_drawScanlineCallback s' = m_drawScanlineCallback s /\
  m_viewPortWidth s' = m_viewPortWidth s /\ m_viewPortHeight s' = m_viewPortHeight s /\
  m_linesCount s' = v * 2 /\ in_int32 (v * 2).
Proof.
  unfold setScanlinesPerCallBack, c_mul, c_arith_op. case_decide; [|discriminate]. by intros [= <-].
Qed.

(** An interrupt changes only the production state and the bytes of the heap. *)
Lemma isr_event_fields us regs s s' :
  isr_event us regs s = Ok s' ->
  m_vp s' = m_vp s /\ hp_live (s_heap s') = hp_live (s_heap s) /\ hp_next (s_heap s') = hp_next (s_heap s) /\
  m_DMABuffers s' = m_DMABuffers s /\ m_drawScanlineCallback s' = m_drawScanlineCallback s /\
  m_linesCount s' = m_linesCount s /\ m_viewPortWidth s' = m_viewPortWidth s /\
  m_viewPortHeight s' = m_viewPortHeight s.
Proof.
  unfold isr_event, ISRHandler. destruct us; [by intros [= <-]|].
  destruct (int_st_out_eof regs); [|by intros [= <-]].
  intros E. res_inv. subst. simpl.
  match goal with H : write_bytes _ _ _ = Ok _ |- _ =>
    pose proof (write_bytes_live _ _ _ _ H); unfold write_bytes in H end.
  res_inv. subst. simpl. naive_solver.
Qed.

Lemma setup_slots_userspace linesCount vp ch i slots :
  setup_slots true linesCount vp ch i slots = Ok (vp, ch).
Proof. revert i. induction slots as [|sl rest IH]; intros i; [done|]. simpl. apply IH. Qed.

Lemma build_chain_userspace linesCount vp fr0 H sc blank :
  build_chain true linesCount vp fr0 H sc blank =
    Ok (vp, mkChain (replicate (length (frame_layout H sc blank)) (mkDesc nullptr false)) fr0).
Proof. apply setup_slots_userspace. Qed.

(** ** Properties of the API *)

(** C8: Misconfiguration: without a registered callback [setResolution] changes
    nothing (no allocation, no chain, output not started). *)
Theorem setResolution_without_callback us t w hgt dbl s :
  m_drawScanlineCallback s = None -> setResolution us t w hgt dbl s = Ok s.
Proof. intros Hcb. unfold setResolution. by rewrite Hcb. Qed.

(** C9: [run()] is idempotent: a second call allocates no second interrupt and
    changes nothing else. *)
Theorem run_idempotent us s : run us (run us s) = run us s.
Proof. unfold run. destruct us; simpl; [reflexivity|]. by destruct (m_isr_handle s). Qed.

(** C27: [run()] allocates the interrupt at most once over any number of calls. *)
Theorem run_allocates_once s :
  isr_allocs (run false s) =
    (match m_isr_handle s with Some _ => isr_allocs s | None => S (isr_allocs s) end)%nat /\
  is_Some (m_isr_handle (run false s)).
Proof. unfold run. destruct (m_isr_handle s); simpl; eauto. Qed.

Lemma viewport_dim_range req visible : 1 <= visible -> 1 <= viewport_dim req visible <= visible.
Proof. intros. unfold viewport_dim. case_decide; lia. Qed.

(** C10: Reconfiguration frees the previous pool exactly once before allocating
    the new one ([USERSPACE] build): two successive [setResolution] calls
    succeed and leave live exactly the blocks of the second configuration
    (its table [n+2] and pool [n+3]) besides what was live before. *)
Theorem reconfigure_frees_previous_pool f autoRun t1 t2 w1 hg1 w2 hg2 d1 d2 hp :
  heap_wf hp ->
  1 <= HVisibleArea t1 -> 1 <= VVisibleArea t1 -> 1 <= HVisibleArea t2 -> 1 <= VVisibleArea t2 ->
  PTR_SIZE * 2 + HVisibleArea t1 * 2 <= hp_avail hp ->
  PTR_SIZE * 2 + HVisibleArea t2 * 2 <= hp_avail hp ->
  let s0 := setDrawScanlineCallback (Some f) (VGADirectController autoRun hp) in
  let n := hp_next hp in
  exists s1 s2,
    setResolution true t1 w1 hg1 d1 s0 = Ok s1 /\
    setResolution true t2 w2 hg2 d2 s1 = Ok s2 /\
    hp_live (s_heap s2) =
      <[n + 3 := (viewport_dim w2 (HVisibleArea t2) * 2, KMalloc)]>
        (<[n + 2 := (PTR_SIZE * 2, KMalloc)]> (hp_live hp)).
Proof.
  intros Hwf Hh1 Hv1 Hh2 Hv2 Hm1 Hm2 s0 n.
  pose proof (viewport_dim_range w1 _ Hh1). pose proof (viewport_dim_range hg1 _ Hv1).
  pose proof (viewport_dim_range w2 _ Hh2). pose proof (viewport_dim_range hg2 _ Hv2).
  unfold setResolution at 1, base_setResolution, base_end, s0; simpl.
  rewrite (allocateViewPort_enough true) by (first [done | unfold alloc_need, PTR_SIZE in *; simpl; lia]).
  simpl. rewrite build_chain_userspace. simpl.
  do 2 eexists. split; [reflexivity|].
  assert (Hwf2 : heap_wf (mkHeap (hp_live hp) (hp_mem hp) (hp_next hp + 2) (hp_avail hp))).
  { destruct Hwf as [Hw1 Hb]. split; simpl; [lia|]. intros b x Hl. apply Hb in Hl. lia. }
  destruct autoRun; unfold setResolution, base_setResolution, base_end, run; simpl;
    rewrite free_allocated_userspace by (done || lia); simpl;
    rewrite (allocateViewPort_enough true) by (first [done | unfold alloc_need, PTR_SIZE in *; simpl; lia]);
    simpl; rewrite build_chain_userspace; simpl; split; try reflexivity;
    simpl; f_equal; lia.
Qed.

(** C13: Outside [USERSPACE] the controller cannot be reconfigured: the
    first [setResolution] succeeds (viewport, [s_DMALines], chain), and
    the second one, through [VGABaseController::end] and [freeViewPort],
    deletes the [new[]] array [s_DMALines] with scalar [delete]. *)
Theorem reconfigure_hardware_bad_free f autoRun t1 t2 w1 hg1 w2 hg2 d1 d2 hp :
  heap_wf hp ->
  1 <= HVisibleArea t1 -> 1 <= VVisibleArea t1 ->
  alloc_need false 2 (HVisibleArea t1) (VVisibleArea t1) <= hp_avail hp ->
  let s0 := setDrawScanlineCallback (Some f) (VGADirectController autoRun hp) in
  exists s1,
    setResolution false t1 w1 hg1 d1 s0 = Ok s1 /\
    setResolution false t2 w2 hg2 d2 s1 = Err BadFree.
Proof.
  intros Hwf Hh1 Hv1 Hm1 s0.
  pose proof (viewport_dim_range w1 _ Hh1). pose proof (viewport_dim_range hg1 _ Hv1).
  pose proof Hwf as [Hn _].
  unfold setResolution at 1, base_setResolution, base_end, s0; simpl.
  rewrite (allocateViewPort_enough false) by (first [done | unfold alloc_need, PTR_SIZE in *; simpl; nia]).
  simpl. edestruct build_chain_ok as (dl & ch & ->);
    [| | | apply pool_lines_length | apply length_replicate |]; simpl;
    try ptr_ne; try lia.
  simpl. eexists. split; [reflexivity|].
  destruct autoRun; unfold setResolution, base_setResolution, base_end, run; simpl;
    rewrite free_allocated_hardware by (done || lia); reflexivity.
Qed.

(** ** The drawing primitives

    The [BitmappedDisplayController] primitives of this controller have
    empty bodies (lines 151-159 with its body commented out, 204-276,
    291-308, and [fillRow] in the header, line 134): drawing goes through
    the scanline callback only.  Each is a no-op on the controller. *)

Inductive DrawOp : Type :=
  | setPixelAt | absDrawLine | rawFillRow_RGB888 | rawFillRow_colorIndex | rawInvertRow
  | rawCopyRow | swapRows | drawEllipse | clear | VScroll | HScroll | drawGlyph
  | invertRect | swapFGBG | copyRect.

Definition execDrawOp (op : DrawOp) (s : VGADirect) : VGADirect := s.

Inductive BitmapOp : Type :=
  | rawDrawBitmap_Native | rawDrawBitmap_Mask | rawDrawBitmap_RGBA2222 | rawDrawBitmap_RGBA8888.

Definition execBitmapOp (op : BitmapOp) (s : VGADirect) : VGADirect := s.

Definition rawCopyToBitmap (s : VGADirect) : VGADirect := s.

Definition fillRow (s : VGADirect) : VGADirect := s.

(** ** Witnesses *)

Definition demo_timings : VGATimings := mkTimings 64 48 1 2 3 1.

Lemma setResolution_without_callback_witness :
  m_drawScanlineCallback (VGADirectController true (heap_init 0)) = None /\
  setResolution false demo_timings 64 48 false (VGADirectController true (heap_init 0)) =
    Ok (VGADirectController true (heap_init 0)).
Proof. split; [reflexivity|]. apply setResolution_without_callback. reflexivity. Defined.

Lemma reconfigure_frees_previous_pool_witness :
  heap_wf (heap_init 1000) /\
  1 <= HVisibleArea demo_timings /\ 1 <= VVisibleArea demo_timings /\
  1 <= HVisibleArea (mkTimings 32 24 1 1 1 1) /\ 1 <= VVisibleArea (mkTimings 32 24 1 1 1 1) /\
  PTR_SIZE * 2 + HVisibleArea demo_timings * 2 <= hp_avail (heap_init 1000) /\
  PTR_SIZE * 2 + HVisibleArea (mkTimings 32 24 1 1 1 1) * 2 <= hp_avail (heap_init 1000) /\
  (let s0 := setDrawScanlineCallback (Some (fun y => [y])) (VGADirectController true (heap_init 1000)) in
   let n := hp_next (heap_init 1000) in
   exists s1 s2,
     setResolution true demo_timings 0 0 false s0 = Ok s1 /\
     setResolution true (mkTimings 32 24 1 1 1 1) 16 0 false s1 = Ok s2 /\
     hp_live (s_heap s2) =
       <[n + 3 := (viewport_dim 16 (HVisibleArea (mkTimings 32 24 1 1 1 1)) * 2, KMalloc)]>
         (<[n + 2 := (PTR_SIZE * 2, KMalloc)]> (hp_live (heap_init 1000)))).
Proof.
  split; [auto with vdp|]. do 4 (split; [simpl; lia|]).
  split; [unfold PTR_SIZE; simpl; lia|]. split; [unfold PTR_SIZE; simpl; lia|].
  apply reconfigure_frees_previous_pool; [auto with vdp | simpl; lia .. | unfold PTR_SIZE; simpl; lia | unfold PTR_SIZE; simpl; lia].
Defined.

Lemma reconfigure_hardware_bad_free_witness :
  heap_wf (heap_init 1000) /\ 1 <= HVisibleArea demo_timings /\ 1 <= VVisibleArea demo_timings /\
  alloc_need false 2 (HVisibleArea demo_timings) (VVisibleArea demo_timings) <= hp_avail (heap_init 1000) /\
  (let s0 := setDrawScanlineCallback (Some (fun y => [y])) (VGADirectController true (heap_init 1000)) in
   exists s1,
     setResolution false demo_timings 0 0 false s0 = Ok s1 /\
     setResolution false demo_timings 32 24 false s1 = Err BadFree).
Proof.
  assert (Hm : alloc_need false 2 (HVisibleArea demo_timings) (VVisibleArea demo_timings)
               <= hp_avail (heap_init 1000)) by (unfold alloc_need, PTR_SIZE; simpl; lia).
  split; [auto with vdp|]. split; [simpl; lia|]. split; [simpl; lia|]. split; [exact Hm|].
  apply reconfigure_hardware_bad_free; [auto with vdp | simpl; lia | simpl; lia | exact Hm].
Defined.
