(* ===== verification/Api.v ===== *)
(** * Api: the controller driven by any sequence of API calls

    The application owns one [VGADirectController] and calls its public
    operations in any order, with arguments of their C types, while I2S
    interrupts run [ISRHandler] between calls once it is installed: [init], [setDrawScanlineCallback],
    [setScanlinesPerCallBack], [setResolution] and [run]
    (vgadirectcontroller.cpp and .h).  [api_exec] dispatches one call to
    the definitions of [Controller]; [reachable] is the set of states the
    calls reach from the constructor, a failing call (a fault) reaching
    nothing.

    In the [USERSPACE] build, an invariant on the reachable states shows
    that the controller's heap usage is exactly its current viewport: the
    blocks live besides those of the initial heap are the pointer table
    [m_lines] and the pool [m_lines[0]] of the installed configuration,
    and no block of the initial heap is ever freed.  In both builds the
    controller's typing invariant [vga_typed] holds in every reachable
    state; a display configured from the constructor runs its first
    frame of interrupts to [VSync()]; and a reconfiguration of the pool
    size while the display runs sends the next interrupt past the pointer
    table. *)

From S2P Require Import Prelude Heap LinePool Producer DMAChain Controller.

Inductive ApiCall : Type :=
  | ApiInit
  | ApiSetDrawScanlineCallback (cb : option DrawScanlineCallback)
  | ApiSetScanlinesPerCallBack (value : Z)
  | ApiSetResolution (t : VGATimings) (viewPortWidth viewPortHeight : Z) (doubleBuffered : bool)
  | ApiRun.

Definition api_exec (userspace : bool) (c : ApiCall) (s : VGADirect) : res VGADirect :=
  match c with
  | ApiInit => Ok (init s)
  | ApiSetDrawScanlineCallback cb => Ok (setDrawScanlineCallback cb s)
  | ApiSetScanlinesPerCallBack v => setScanlinesPerCallBack v s
  | ApiSetResolution t w hg d => setResolution userspace t w hg d s
  | ApiRun => Ok (run userspace s)
  end.

(** The C types of [VGATimings]' fields used here. *)
Definition timings_typed (t : VGATimings) : Prop :=
  in_int32 (HVisibleArea t) /\ in_int32 (VVisibleArea t) /\ in_int32 (VFrontPorch t) /\
  in_int32 (VSyncPulse t) /\ in_int32 (VBackPorch t) /\ in_int32 (scanCount t).

(** A call's arguments have their C types: [int]s are [int]s and a
    callback stores [uint8_t]s. *)
Definition call_typed (c : ApiCall) : Prop :=
  match c with
  | ApiSetDrawScanlineCallback cb => cb_typed cb
  | ApiSetScanlinesPerCallBack v => in_int32 v
  | ApiSetResolution t w hg _ => timings_typed t /\ in_int32 w /\ in_int32 hg
  | _ => True
  end.

(** The states of the program: API calls of the application, and I2S
    interrupts, which run [ISRHandler] between two calls whenever the
    handler is installed ([m_isr_handle] not null). *)
Inductive reachable (userspace autoRun : bool) (h0 : Heap) : VGADirect -> Prop :=
  | reach_new : reachable userspace autoRun h0 (VGADirectController autoRun h0)
  | reach_call s c s' :
      reachable userspace autoRun h0 s -> call_typed c -> api_exec userspace c s = Ok s' ->
      reachable userspace autoRun h0 s'
  | reach_isr s regs s' :
      reachable userspace autoRun h0 s -> m_isr_handle s <> None -> isr_event userspace regs s = Ok s' ->
      reachable userspace autoRun h0 s'.




(** ** Lemmas *)







Section Owned.
Context (h0 : Heap).
Hypothesis Hwf0 : heap_wf h0.







End Owned.

(** ** Every reachable state has its C types, in both builds *)








(** ** A configured display runs its frames *)

Lemma reachable_isr_events us autoRun h0 rs s s' :
  reachable us autoRun h0 s -> m_isr_handle s <> None -> isr_events us rs s = Ok s' ->
  reachable us autoRun h0 s'.
Proof.
  revert s. induction rs as [|r rs IH]; intros s Hr Hh; cbn [isr_events]; [by intros [= <-]|].
  destruct (isr_event us r s) as [s1|] eqn:E; [simpl|discriminate]. intros E'.
  assert (Hh1 : m_isr_handle s1 = m_isr_handle s)
    by (apply (isr_events_handle us [r]); simpl; by rewrite E).
  apply (IH s1); [by eapply reach_isr | congruence | done].
Qed.

(** C7: End to end, hardware build: from the constructor, registering a
    callback that fills at most a line and calling [setResolution] (which
    allocates the two-line pool and the descriptor table, builds the chain
    and, with [autoRun], installs the handler) yields a running display
    whose first frame of interrupts (the frame-reset descriptor's, then
    one per further row) never faults and raises [VSync()], every
    intermediate state being reachable. *)
Theorem configured_display_raises_vsync (f : DrawScanlineCallback) t vw vh d h0 r0 rs :
  heap_wf h0 -> callback_typed f -> timings_typed t -> in_int32 vw -> in_int32 vh ->
  1 <= HVisibleArea t -> 1 <= VVisibleArea t -> 1 <= scanCount t ->
  0 <= VFrontPorch t + VSyncPulse t + VBackPorch t ->
  alloc_need false 2 (viewport_dim vw (HVisibleArea t)) (viewport_dim vh (VVisibleArea t)) <= hp_avail h0 ->
  (forall y, Z.of_nat (length (f y)) <= viewport_dim vw (HVisibleArea t)) ->
  int_st_out_eof r0 = true -> out_eof_des_addr r0 = 0 ->
  Forall (fun r => int_st_out_eof r = true /\ out_eof_des_addr r <> 0) rs ->
  Z.of_nat (length rs) = viewport_dim vh (VVisibleArea t) - 1 ->
  exists s s',
    setResolution false t vw vh d (setDrawScanlineCallback (Some f) (VGADirectController true h0)) = Ok s /\
    reachable false true h0 s /\ m_isr_handle s <> None /\
    isr_events false (r0 :: rs) s = Ok s' /\ reachable false true h0 s' /\ VSync (s_prod s') = true.
Proof.
  intros Hwf Hft Htt Hvw Hvh Hhv Hvv Hsc Hbl Hneed Hf He0 Hd0 Hrs Hlen.
  pose proof (viewport_dim_range vw (HVisibleArea t) Hhv) as Hw.
  pose proof (viewport_dim_range vh (VVisibleArea t) Hvv) as HH.
  set (w := viewport_dim vw (HVisibleArea t)) in *. set (H := viewport_dim vh (VVisibleArea t)) in *.
  assert (HHmax : H <= INT_MAX) by (destruct Htt as (_ & Hv & _); unfold in_int32 in Hv; lia).
  pose proof (allocateViewPort_enough false 2 w H vp_init h0 Hwf ltac:(lia) ltac:(lia) ltac:(lia) Hneed) as Ea.
  cbv zeta in Ea. simpl in Ea. set (n := hp_next h0) in *.
  assert (Hn : 1 <= n) by (destruct Hwf; lia).
  destruct (build_chain_reset 2 (mkViewPort (mkPtr n 0) (pool_lines (mkPtr (n + 1) 0) 2 w) (mkPtr (n + 2) 0)
              (replicate (Z.to_nat H) None)) None H (scanCount t) (VFrontPorch t + VSyncPulse t + VBackPorch t))
    as (dl & ch & Eb & Hfr);
    [lia | simpl; ptr_ne | simpl; ptr_ne | reflexivity
    | simpl; by rewrite length_replicate | lia | lia | lia |].
  set (s0 := setDrawScanlineCallback (Some f) (VGADirectController true h0)).
  set (h1 := mkHeap (<[n + 2 := (PTR_SIZE * H, KNewArray)]>
                       (<[n + 1 := (w * 2, KMalloc)]> (<[n := (PTR_SIZE * 2, KMalloc)]> (hp_live h0))))
                    (hp_mem h0) (n + 3) (hp_avail h0 - PTR_SIZE * 2 - w * 2 - PTR_SIZE * H)).
  set (vp := mkViewPort (mkPtr n 0) (pool_lines (mkPtr (n + 1) 0) 2 w) (mkPtr (n + 2) 0) dl).
  set (s := run false (mkVGA 2 vp (Some f) true false w H None true false (mkProd 0 false) ch h1 0)).
  assert (Es : setResolution false t vw vh d s0 = Ok s).
  { unfold setResolution, base_setResolution, base_end. simpl.
    change (viewport_dim vw (HVisibleArea t)) with w. change (viewport_dim vh (VVisibleArea t)) with H.
    rewrite Ea. simpl. rewrite Eb. reflexivity. }
  assert (Hr : reachable false true h0 s).
  { apply (reach_call _ _ _ s0 (ApiSetResolution t vw vh d)); [| done | exact Es].
    apply (reach_call _ _ _ (VGADirectController true h0) (ApiSetDrawScanlineCallback (Some f)));
      [apply reach_new | exact Hft | done]. }
  assert (Hpool : hp_live h1 !! (n + 1) = Some (w * 2, KMalloc)).
  { simpl. rewrite lookup_insert_ne by lia. apply lookup_insert_eq. }
  assert (Hf' : forall sl, Z.of_nat (length (f sl)) <= 2 / 2 * w)
    by (intros y; change (2 / 2 * w) with (1 * w); specialize (Hf y); lia).
  assert (Hlen' : Z.of_nat (length rs) = (H - 1) / (2 / 2)) by (change (2 / 2) with 1; rewrite Z.div_1_r; lia).
  assert (Hmax' : H + 2 / 2 <= INT_MAX + 1) by (change (2 / 2) with 1; lia).
  clear Ea Eb.
  destruct (isr_run_frame f H 2 w vp 0 (n + 1) r0 rs (mkProd 0 false) h1
              eq_refl ltac:(lia) ltac:(lia) ltac:(lia) ltac:(simpl; ptr_ne) eq_refl ltac:(lia) Hpool Hf'
              ltac:(int_range) Hmax' He0 Hd0 Hrs Hlen')
    as (ps' & h' & Erun & Hv).
  rewrite <- Hfr in Erun. pose proof (isr_events_run (r0 :: rs) s ps' h' Erun) as Ee.
  eexists s, _. split; [exact Es|]. split; [exact Hr|]. split; [discriminate|].
  split; [exact Ee|]. split; [|exact Hv].
  eapply reachable_isr_events; [exact Hr | discriminate | exact Ee].
Qed.

(** ** Reconfiguring the pool while the display runs *)

(** A callback storing one byte per scanline. *)
Definition demo_cb : DrawScanlineCallback := fun y => [y mod 256].

Lemma demo_cb_typed : callback_typed demo_cb.
Proof.
  intros y. repeat constructor. unfold is_u8. apply andb_true_iff.
  pose proof (Z.mod_pos_bound y 256 ltac:(lia)). rewrite Z.leb_le, Z.ltb_lt. lia.
Qed.

Lemma demo_timings_typed : timings_typed demo_timings.
Proof. repeat split; int_range. Qed.




(** ** Witnesses *)





(** The interrupts of the 48 rows of [demo_timings] after the frame-reset one. *)
Definition demo_frame_irqs : list I2SIntr := map (fun k => mkI2SIntr true 0 k) (zrange 1 48).

Lemma configured_display_raises_vsync_witness :
  heap_wf (heap_init 1000) /\ callback_typed demo_cb /\ timings_typed demo_timings /\
  Forall (fun r => int_st_out_eof r = true /\ out_eof_des_addr r <> 0) demo_frame_irqs /\
  exists s s',
    setResolution false demo_timings 0 0 false
      (setDrawScanlineCallback (Some demo_cb) (VGADirectController true (heap_init 1000))) = Ok s /\
    reachable false true (heap_init 1000) s /\ m_isr_handle s <> None /\
    isr_events false (mkI2SIntr true 0 0 :: demo_frame_irqs) s = Ok s' /\
    reachable false true (heap_init 1000) s' /\ VSync (s_prod s') = true.
Proof.
  assert (Hrs : Forall (fun r => int_st_out_eof r = true /\ out_eof_des_addr r <> 0) demo_frame_irqs).
  { apply Forall_forall. intros r Hr. unfold demo_frame_irqs in Hr.
    apply list_elem_of_In, in_map_iff in Hr as (k & <- & Hk). apply list_elem_of_In, elem_of_zrange in Hk.
    simpl. split; [done | lia]. }
  split; [auto with vdp|]. split; [exact demo_cb_typed|]. split; [exact demo_timings_typed|].
  split; [exact Hrs|].
  apply (configured_display_raises_vsync demo_cb demo_timings 0 0 false (heap_init 1000)
           (mkI2SIntr true 0 0) demo_frame_irqs);
    [auto with vdp | exact demo_cb_typed | exact demo_timings_typed | int_range | int_range
    | simpl; lia | simpl; lia | simpl; lia | simpl; lia | vm_compute; discriminate
    | intros y; vm_compute; discriminate | reflexivity | reflexivity | exact Hrs | vm_compute; reflexivity].
Defined.
