(* ===== verification/ReadBack.v ===== *)
(** * ReadBack: [readScreen]

    [VGADirectController::readScreen] (vgadirectcontroller.cpp, lines
    279-288): for each row [y] of the rectangle it calls the rendering
    callback into [m_lines[0]], then decodes each column [x] of that buffer
    with [VGA_PIXELINROW] and the SBGR2222 expansion, writing the colours
    row by row to [destBuf].

    [readScreen] is the loop nest as a recursion over the ranges of rows
    and columns; [readScreen_loop] is the same code with its [int]
    counters, each [for] loop run with fuel and [++] faulting past
    [INT_MAX].  The theorems relate the two: the loops terminate, agree
    with the reference when no counter reaches [INT_MAX], and overflow
    when [rect.Y2] is [INT_MAX].

    [VGA_PIXELINROW] is a macro of the base class header, not code of this
    repository: the section variable [pixel_index] is the byte offset of a
    column in a row buffer, and the theorems assume only that it maps the
    columns of the row into the row. *)

From S2P Require Import Prelude Pixel Heap LinePool Producer.

(** [Rect]: inclusive corners. *)
Record Rect : Type := mkRect { X1 : Z; Y1 : Z; X2 : Z; Y2 : Z }.

(** [mapM] of the error monad. *)
Fixpoint res_mapM {A B} (f : A -> res B) (l : list A) : res (list B) :=
  match l with
  | [] => Ok []
  | x :: rest => y ← f x; ys ← res_mapM f rest; Ok (y :: ys)
  end.

Section ReadScreen.
Context (pixel_index : Z -> Z).

(** [rawpix = VGA_PIXELINROW(row, x)] *)
Definition VGA_PIXELINROW (row : Ptr) (x : Z) (h : Heap) : res Z :=
  read_byte row (pixel_index x) h.

(** One iteration of the outer loop: render row [y] into [m_lines[0]] and
    decode columns [X1 .. X2]. *)
Definition readScreen_row (cb : DrawScanlineCallback) (vp : ViewPort) (rect : Rect)
    (y : Z) (h : Heap) : res (list RGB888 * Heap) :=
  if decide (m_lines vp = nullptr) then Err NullDeref else
  line0 ← c_index (m_lines_tbl vp) 0;
  h1 ← write_bytes line0 (cb y) h;
  raw ← res_mapM (fun x => VGA_PIXELINROW line0 x h1) (zrange (X1 rect) (X2 rect + 1));
  Ok (fmap (M := list) decode_sbgr2222 raw, h1).

Fixpoint readScreen_rows (cb : DrawScanlineCallback) (vp : ViewPort) (rect : Rect)
    (ys : list Z) (h : Heap) : res (list RGB888 * Heap) :=
  match ys with
  | [] => Ok ([], h)
  | y :: rest =>
      '(px, h1) ← readScreen_row cb vp rect y h;
      '(pxs, h2) ← readScreen_rows cb vp rect rest h1;
      Ok (px ++ pxs, h2)
  end.

(** The colours written to [destBuf], in order, and the heap after. *)
Definition readScreen (cb : option DrawScanlineCallback) (vp : ViewPort) (rect : Rect) (h : Heap)
    : res (list RGB888 * Heap) :=
  match cb with
  | None => if decide (Y2 rect < Y1 rect) then Ok ([], h) else Err NullDeref
  | Some f => readScreen_rows f vp rect (zrange (Y1 rect) (Y2 rect + 1)) h
  end.

(** The loops as written: [for (int x = rect.X1; x <= rect.X2; ++x, ++destBuf)]
    with an [int] counter, each pass bounded by [fuel]. *)
Fixpoint readScreen_xloop (fuel : nat) (line0 : Ptr) (x X2' : Z) (h : Heap)
    : outcome (list RGB888) :=
  match fuel with
  | O => OutOfFuel
  | S n =>
      if decide (x <= X2') then
        rawpix ← lift (VGA_PIXELINROW line0 x h);
        x' ← lift (c_incr x);
        rest ← readScreen_xloop n line0 x' X2' h;
        mret (decode_sbgr2222 rawpix :: rest)
      else mret []
  end.

(** [for (int y = rect.Y1; y <= rect.Y2; ++y)]: call the callback into
    [m_lines[0]], run the column loop, then [++y].  [xfuel] bounds each
    run of the inner loop. *)
Fixpoint readScreen_yloop (xfuel fuel : nat) (cb : option DrawScanlineCallback)
    (vp : ViewPort) (rect : Rect) (y : Z) (h : Heap) : outcome (list RGB888 * Heap) :=
  match fuel with
  | O => OutOfFuel
  | S n =>
      if decide (y <= Y2 rect) then
        f ← lift (match cb with Some f => Ok f | None => Err NullDeref end);
        _ ← lift (if decide (m_lines vp = nullptr) then Err NullDeref else Ok tt);
        line0 ← lift (c_index (m_lines_tbl vp) 0);
        h1 ← lift (write_bytes line0 (f y) h);
        px ← readScreen_xloop xfuel line0 (X1 rect) (X2 rect) h1;
        y' ← lift (c_incr y);
        '(pxs, h2) ← readScreen_yloop xfuel n cb vp rect y' h1;
        mret (px ++ pxs, h2)
      else mret ([], h)
  end.

Definition readScreen_loop (fuel : nat) (cb : option DrawScanlineCallback) (vp : ViewPort)
    (rect : Rect) (h : Heap) : outcome (list RGB888 * Heap) :=
  readScreen_yloop fuel fuel cb vp rect (Y1 rect) h.

End ReadScreen.

(** ** Lemmas *)

Section Lemmas.
Context (pixel_index : Z -> Z).

(** The value [readScreen] reads at column [x] of a row the callback
    filled with [bytes]. *)
Definition row_pixel (bytes : list Z) (x : Z) : Z := default 0 (bytes !! Z.to_nat (pixel_index x)).

(** Reading back columns of a row the callback filled with [bytes]. *)
Lemma read_row line0 bytes h h1 xs :
  write_bytes line0 bytes h = Ok h1 ->
  (forall x, x ∈ xs -> 0 <= pixel_index x < Z.of_nat (length bytes)) ->
  res_mapM (fun x => VGA_PIXELINROW pixel_index line0 x h1) xs = Ok (map (row_pixel bytes) xs).
Proof.
  intros Hw Hx. induction xs as [|x rest IH]; [done|]. simpl.
  change (VGA_PIXELINROW pixel_index line0 x h1) with (read_byte line0 (pixel_index x) h1).
  rewrite (write_read_bytes _ _ _ _ _ Hw) by (apply Hx; set_solver).
  simpl. rewrite IH by set_solver. reflexivity.
Qed.

(** The rows [ys] of a rectangle decode, row after row, the bytes the
    callback wrote for them, and no block is allocated or freed. *)
Lemma readScreen_rows_spec (f : DrawScanlineCallback) vp rect ys h b size k rest :
  m_lines vp <> nullptr -> m_lines_tbl vp = mkPtr b 0 :: rest -> b <> 0 ->
  hp_live h !! b = Some (size, k) ->
  (forall y, y ∈ ys -> Z.of_nat (length (f y)) <= size) ->
  (forall y x, y ∈ ys -> X1 rect <= x <= X2 rect -> 0 <= pixel_index x < Z.of_nat (length (f y))) ->
  exists h', readScreen_rows pixel_index f vp rect ys h =
    Ok (concat (map (fun y => map (fun x => decode_sbgr2222 (row_pixel (f y) x)) (zrange (X1 rect) (X2 rect + 1))) ys), h') /\
    hp_live h' = hp_live h.
Proof.
  intros Hl Ht Hb Hlive Hsz Hx. revert h Hlive.
  induction ys as [|y ys IH]; intros h Hlive; simpl; [eauto|].
  destruct (write_bytes_ok (mkPtr b 0) (f y) h size k) as [h1 Hw]; simpl; try done;
    [specialize (Hsz y ltac:(set_solver)); lia |].
  unfold readScreen_row. rewrite decide_False by done. rewrite Ht. simpl. rewrite Hw. simpl.
  rewrite (read_row _ (f y) h h1) by (done || (intros x Hxs; apply Hx; [set_solver | apply elem_of_zrange in Hxs; lia])).
  simpl. pose proof (write_bytes_live _ _ _ _ Hw) as Hl1.
  destruct (IH ltac:(set_solver) ltac:(intros; apply Hx; [set_solver | done]) h1) as (h2 & -> & Hl2);
    [by rewrite Hl1|].
  simpl. exists h2. split; [|congruence].
  assert (E : forall l, decode_sbgr2222 <$> map (row_pixel (f y)) l
                        = map (fun x => decode_sbgr2222 (row_pixel (f y) x)) l)
    by (induction l as [|a l IHl]; [done|]; cbn [map]; rewrite fmap_cons, IHl; reflexivity).
  by rewrite E.
Qed.

End Lemmas.

(** ** The loops as written against [readScreen]

    The column loop reads the row's pixels in order and, when [X2] is
    [INT_MAX], overflows [x] after reading the last one. *)

Section Loops.
Context (pixel_index : Z -> Z).

(** All four corners are [int]s. *)
Definition rect_in_int32 (r : Rect) : Prop :=
  in_int32 (X1 r) /\ in_int32 (Y1 r) /\ in_int32 (X2 r) /\ in_int32 (Y2 r).

(** Enough fuel for both loops of a rectangle. *)
Definition readScreen_fuel (r : Rect) : nat :=
  S (Z.to_nat (Y2 r - Y1 r + 1) `max` Z.to_nat (X2 r - X1 r + 1)).

Lemma c_incr_ok i : i < INT_MAX -> c_incr i = Ok (i + 1).
Proof. intros. unfold c_incr. by rewrite decide_True. Qed.

Lemma c_incr_max : c_incr INT_MAX = Err SignedOverflow.
Proof. reflexivity. Qed.

Lemma readScreen_xloop_spec fuel line0 x X2' h :
  X2' <= INT_MAX -> (Z.to_nat (X2' - x + 1) < fuel)%nat ->
  readScreen_xloop pixel_index fuel line0 x X2' h =
    Finished (raw ← (res_mapM (fun x => VGA_PIXELINROW pixel_index line0 x h) (zrange x (X2' + 1)) : res (list Z));
              if decide (x <= X2' /\ X2' = INT_MAX) then Err SignedOverflow
              else Ok (fmap (M := list) decode_sbgr2222 raw)).
Proof.
  intros Hmax. revert x. induction fuel as [|n IH]; intros x Hf; [lia|]. simpl.
  destruct (decide (x <= X2')) as [Hx|Hx]; [|rewrite zrange_nil by lia; simpl; by rewrite decide_False by lia].
  rewrite zrange_cons by lia. simpl.
  destruct (VGA_PIXELINROW pixel_index line0 x h) as [raw|e]; [simpl|done].
  destruct (decide (x = INT_MAX)) as [->|Hlt].
  - rewrite c_incr_max, zrange_nil by lia. simpl. by rewrite decide_True by lia.
  - rewrite c_incr_ok by lia. simpl. rewrite IH by lia.
    destruct (res_mapM _ (zrange (x + 1) (X2' + 1))) as [raws|e]; simpl; [|done].
    destruct (decide (X2' = INT_MAX)).
    + by rewrite !decide_True by lia.
    + by rewrite !decide_False by lia.
Qed.

(** With columns that cannot overflow, the column loop is the reference
    row's [res_mapM]. *)
Lemma readScreen_xloop_noovf fuel line0 rect h :
  X2 rect < INT_MAX \/ X2 rect < X1 rect -> X2 rect <= INT_MAX ->
  (Z.to_nat (X2 rect - X1 rect + 1) < fuel)%nat ->
  readScreen_xloop pixel_index fuel line0 (X1 rect) (X2 rect) h =
    Finished (fmap (M := list) decode_sbgr2222 <$>
                res_mapM (fun x => VGA_PIXELINROW pixel_index line0 x h) (zrange (X1 rect) (X2 rect + 1))).
Proof.
  intros Hx Hmax Hf. rewrite readScreen_xloop_spec by done.
  destruct (res_mapM _ _); simpl; [|done]. by rewrite decide_False by lia.
Qed.

Lemma readScreen_yloop_spec xfuel fuel f vp rect y h :
  X2 rect < INT_MAX \/ X2 rect < X1 rect -> X2 rect <= INT_MAX -> Y2 rect <= INT_MAX ->
  (Z.to_nat (X2 rect - X1 rect + 1) < xfuel)%nat -> (Z.to_nat (Y2 rect - y + 1) < fuel)%nat ->
  readScreen_yloop pixel_index xfuel fuel (Some f) vp rect y h =
    Finished (r ← (readScreen_rows pixel_index f vp rect (zrange y (Y2 rect + 1)) h : res _);
              if decide (y <= Y2 rect /\ Y2 rect = INT_MAX) then Err SignedOverflow else Ok r).
Proof.
  intros Hx Hxm Hym Hxf. revert y h. induction fuel as [|n IH]; intros y h Hf; [lia|]. simpl.
  destruct (decide (y <= Y2 rect)) as [Hy|Hy]; [|rewrite zrange_nil by lia; simpl; by rewrite decide_False by lia].
  rewrite zrange_cons by lia. simpl. unfold readScreen_row.
  destruct (decide (m_lines vp = nullptr)); [done|]. simpl.
  destruct (c_index (m_lines_tbl vp) 0) as [line0|]; [simpl|done].
  destruct (write_bytes line0 (f y) h) as [h1|]; [simpl|done].
  rewrite readScreen_xloop_noovf by done.
  destruct (res_mapM _ _) as [raw|]; [simpl|done].
  destruct (decide (y = INT_MAX)) as [->|Hlt].
  - rewrite c_incr_max, zrange_nil by lia. simpl. by rewrite decide_True by lia.
  - rewrite c_incr_ok by lia. simpl. rewrite IH by lia.
    destruct (readScreen_rows _ _ _ _ _ h1) as [[pxs h2]|]; simpl; [|done].
    destruct (decide (Y2 rect = INT_MAX)).
    + by rewrite !decide_True by lia.
    + by rewrite !decide_False by lia.
Qed.

Lemma readScreen_yloop_finishes xfuel fuel cb vp rect y h :
  X2 rect <= INT_MAX -> Y2 rect <= INT_MAX ->
  (Z.to_nat (X2 rect - X1 rect + 1) < xfuel)%nat -> (Z.to_nat (Y2 rect - y + 1) < fuel)%nat ->
  readScreen_yloop pixel_index xfuel fuel cb vp rect y h <> OutOfFuel.
Proof.
  intros Hxm Hym Hxf. revert y h. induction fuel as [|n IH]; intros y h Hf; [lia|]. simpl.
  destruct (decide (y <= Y2 rect)); [|discriminate].
  destruct cb as [f|]; [simpl|discriminate].
  destruct (decide (m_lines vp = nullptr)); [discriminate|]. simpl.
  destruct (c_index (m_lines_tbl vp) 0) as [line0|]; [simpl|discriminate].
  destruct (write_bytes line0 (f y) h) as [h1|]; [simpl|discriminate].
  rewrite readScreen_xloop_spec by done.
  destruct (res_mapM _ _); simpl; [|discriminate]. case_decide; simpl; [discriminate|].
  destruct (c_incr y) as [y'|] eqn:Ey; simpl; [|discriminate].
  unfold c_incr in Ey. case_decide; [injection Ey as <-|discriminate].
  destruct (readScreen_yloop _ _ n _ _ _ _ h1) as [[[pxs h2]|]|] eqn:E; try discriminate.
  apply IH in E; [done|lia].
Qed.

End Loops.

(** ** Properties of [readScreen] *)

(** C18: [readScreen] returns, row by row and column by column, the
    SBGR2222 decoding of the byte the callback wrote at that column's
    offset [VGA_PIXELINROW] in the row, when each row's bytes fit in the
    buffer [m_lines[0]] and cover the columns asked for; it allocates and
    frees nothing. *)
Theorem readScreen_decodes_callback pixel_index (f : DrawScanlineCallback) vp rect h b size k rest :
  m_lines vp <> nullptr -> m_lines_tbl vp = mkPtr b 0 :: rest -> b <> 0 ->
  hp_live h !! b = Some (size, k) ->
  (forall y, Y1 rect <= y <= Y2 rect -> Z.of_nat (length (f y)) <= size) ->
  (forall y x, Y1 rect <= y <= Y2 rect -> X1 rect <= x <= X2 rect ->
     0 <= pixel_index x < Z.of_nat (length (f y))) ->
  exists h',
    readScreen pixel_index (Some f) vp rect h =
      Ok (concat (map (fun y => map (fun x => decode_sbgr2222 (row_pixel pixel_index (f y) x))
                                    (zrange (X1 rect) (X2 rect + 1)))
                      (zrange (Y1 rect) (Y2 rect + 1))), h') /\
    hp_live h' = hp_live h.
Proof.
  intros Hl Ht Hb Hlive Hsz Hx. apply (readScreen_rows_spec pixel_index f vp rect _ h b size k rest); try done.
  - intros y Hy%elem_of_zrange. apply Hsz. lia.
  - intros y x Hy%elem_of_zrange Hxr. apply Hx; lia.
Qed.


Lemma zrange_snoc a b : a <= b -> zrange a (b + 1) = zrange a b ++ [b].
Proof.
  intros Hab. unfold zrange. replace (b + 1 - a) with ((b - a) + 1) by lia.
  rewrite seqZ_app by lia. f_equal. replace (a + (b - a)) with b by lia. reflexivity.
Qed.

Lemma readScreen_rows_last pixel_index f vp rect ys y h out h' :
  readScreen_rows pixel_index f vp rect (ys ++ [y]) h = Ok (out, h') ->
  exists line0 h0, c_index (m_lines_tbl vp) 0 = Ok line0 /\ write_bytes line0 (f y) h0 = Ok h'.
Proof.
  revert h out. induction ys as [|y0 ys IH]; intros h out Hr; simpl in Hr.
  - unfold readScreen_row in Hr. case_decide; [discriminate|].
    destruct (c_index (m_lines_tbl vp) 0) as [line0|] eqn:E; [|discriminate]. simpl in Hr.
    destruct (write_bytes line0 (f y) h) as [h1|] eqn:Ew; [|discriminate]. simpl in Hr.
    destruct (res_mapM _ _); [|discriminate]. simpl in Hr. injection Hr as _ <-. eauto.
  - destruct (readScreen_row pixel_index f vp rect y0 h) as [[px h1]|]; [|discriminate]. simpl in Hr.
    destruct (readScreen_rows _ _ _ _ _ h1) as [[pxs h2]|] eqn:E; [|discriminate].
    simpl in Hr. injection Hr as _ <-. eauto.
Qed.

(** C36: [readScreen] renders every captured row into [m_lines[0]], the pool
    slot the DMA transmits for rows [0, linesCount, ...], not into a
    scratch buffer: when it returns, that slot holds the callback's bytes
    for the last captured row [Y2]. *)
Theorem readScreen_overwrites_slot0 pixel_index f vp rect h out h' :
  Y1 rect <= Y2 rect ->
  readScreen pixel_index (Some f) vp rect h = Ok (out, h') ->
  exists line0 h0, c_index (m_lines_tbl vp) 0 = Ok line0 /\ write_bytes line0 (f (Y2 rect)) h0 = Ok h'.
Proof.
  intros Hy Hr. simpl in Hr. rewrite zrange_snoc in Hr by done.
  by eapply readScreen_rows_last.
Qed.

(** C20: Termination of the loops as written: with [readScreen_fuel rect]
    iterations for each loop, [readScreen] on a rectangle of [int]
    corners always finishes, returning or faulting, whatever the callback,
    view port and heap. *)
Theorem readScreen_loop_terminates pixel_index fuel cb vp rect h :
  rect_in_int32 rect -> (readScreen_fuel rect <= fuel)%nat ->
  readScreen_loop pixel_index fuel cb vp rect h <> OutOfFuel.
Proof.
  intros (_ & _ & [_ Hx] & [_ Hy]) Hf. unfold readScreen_loop, readScreen_fuel in *.
  apply readScreen_yloop_finishes; lia.
Qed.


(** C21: [for (int y = rect.Y1; y <= rect.Y2; ++y)] increments [y] past
    [INT_MAX] when [rect.Y2] is [INT_MAX]: after the last row, which the
    reference reads without fault, the loop as written stops with a signed
    overflow, undefined behaviour in C. *)
Theorem readScreen_loop_overflow pixel_index fuel f vp rect h :
  rect_in_int32 rect -> Y1 rect <= Y2 rect -> Y2 rect = INT_MAX ->
  X2 rect < INT_MAX \/ X2 rect < X1 rect ->
  is_ok (readScreen pixel_index (Some f) vp rect h) = true ->
  (readScreen_fuel rect <= fuel)%nat ->
  readScreen_loop pixel_index fuel (Some f) vp rect h = Finished (Err SignedOverflow).
Proof.
  intros (_ & _ & [_ Hxm] & [_ Hym]) Hy Hmax Hx Hok Hf. unfold readScreen_loop, readScreen_fuel in *.
  rewrite readScreen_yloop_spec by (done || lia). simpl in Hok.
  destruct (readScreen_rows _ _ _ _ _ h); simpl; [|done]. by rewrite decide_True by lia.
Qed.

(** ** Witnesses *)

(** Two 4-byte rows (table block 1, pool block 2 of 8 bytes). *)
Definition demo_read_vp : ViewPort := mkViewPort (mkPtr 1 0) [mkPtr 2 0; mkPtr 2 4] nullptr [].
Definition demo_read_heap : Heap := mkHeap (<[2 := (8, KMalloc)]> (<[1 := (8, KMalloc)]> ∅)) ∅ 3 0.


Lemma readScreen_overwrites_slot0_witness :
  Y1 (mkRect 0 0 3 1) <= Y2 (mkRect 0 0 3 1) /\
  exists out h',
    readScreen (fun x => x) (Some (fun y => [y; y; y; y])) demo_read_vp (mkRect 0 0 3 1) demo_read_heap
      = Ok (out, h') /\
    exists line0 h0, c_index (m_lines_tbl demo_read_vp) 0 = Ok line0 /\
      write_bytes line0 ((fun y => [y; y; y; y]) (Y2 (mkRect 0 0 3 1))) h0 = Ok h'.
Proof.
  split; [simpl; lia|]. do 2 eexists. split; [reflexivity|].
  eapply (readScreen_overwrites_slot0 (fun x => x) (fun y => [y; y; y; y]) demo_read_vp
           (mkRect 0 0 3 1) demo_read_heap); [simpl; lia | reflexivity].
Defined.

Lemma readScreen_decodes_callback_witness :
  m_lines demo_read_vp <> nullptr /\ m_lines_tbl demo_read_vp = mkPtr 2 0 :: [mkPtr 2 4] /\ 2 <> 0 /\
  hp_live demo_read_heap !! 2 = Some (8, KMalloc) /\
  (forall y, Y1 (mkRect 1 0 2 1) <= y <= Y2 (mkRect 1 0 2 1) -> Z.of_nat (length [y; 5; 9; 63]) <= 8) /\
  (forall y x, Y1 (mkRect 1 0 2 1) <= y <= Y2 (mkRect 1 0 2 1) -> X1 (mkRect 1 0 2 1) <= x <= X2 (mkRect 1 0 2 1) ->
     0 <= (fun x => x) x < Z.of_nat (length [y; 5; 9; 63])) /\
  exists h',
    readScreen (fun x => x) (Some (fun y => [y; 5; 9; 63])) demo_read_vp (mkRect 1 0 2 1) demo_read_heap =
      Ok (concat (map (fun y => map (fun x => decode_sbgr2222 (row_pixel (fun x => x) [y; 5; 9; 63] x))
                                    (zrange (X1 (mkRect 1 0 2 1)) (X2 (mkRect 1 0 2 1) + 1)))
                      (zrange (Y1 (mkRect 1 0 2 1)) (Y2 (mkRect 1 0 2 1) + 1))), h') /\
    hp_live h' = hp_live demo_read_heap.
Proof.
  assert (Hsz : forall y, Y1 (mkRect 1 0 2 1) <= y <= Y2 (mkRect 1 0 2 1) ->
                Z.of_nat (length [y; 5; 9; 63]) <= 8) by (intros; simpl; lia).
  assert (Hx : forall y x, Y1 (mkRect 1 0 2 1) <= y <= Y2 (mkRect 1 0 2 1) ->
               X1 (mkRect 1 0 2 1) <= x <= X2 (mkRect 1 0 2 1) ->
               0 <= (fun x => x) x < Z.of_nat (length [y; 5; 9; 63])) by (intros; simpl in *; lia).
  split; [ptr_ne|]. split; [reflexivity|]. split; [lia|]. split; [reflexivity|].
  split; [exact Hsz|]. split; [exact Hx|].
  apply (readScreen_decodes_callback (fun x => x) (fun y => [y; 5; 9; 63]) demo_read_vp (mkRect 1 0 2 1)
           demo_read_heap 2 8 KMalloc [mkPtr 2 4]); [ptr_ne | reflexivity | lia | reflexivity | exact Hsz | exact Hx].
Defined.

Lemma readScreen_loop_terminates_witness :
  rect_in_int32 (mkRect 0 0 3 1) /\ (readScreen_fuel (mkRect 0 0 3 1) <= 5)%nat /\
  readScreen_loop (fun x => x) 5 None demo_read_vp (mkRect 0 0 3 1) demo_read_heap <> OutOfFuel.
Proof.
  assert (Hr : rect_in_int32 (mkRect 0 0 3 1))
    by (unfold rect_in_int32, in_int32, INT_MIN, INT_MAX; simpl; lia).
  split; [exact Hr|]. split; [vm_compute; lia|].
  apply (readScreen_loop_terminates (fun x => x) 5 None demo_read_vp (mkRect 0 0 3 1) demo_read_heap Hr).
  vm_compute; lia.
Defined.


(** The last row of the screen at [Y2 = INT_MAX]. *)
Lemma readScreen_loop_overflow_witness :
  is_ok (readScreen (fun x => x) (Some (fun _ => [5; 5; 5; 5])) demo_read_vp
           (mkRect 0 INT_MAX 3 INT_MAX) demo_read_heap) = true /\
  readScreen_loop (fun x => x) 5 (Some (fun _ => [5; 5; 5; 5])) demo_read_vp
    (mkRect 0 INT_MAX 3 INT_MAX) demo_read_heap = Finished (Err SignedOverflow).
Proof.
  split; [vm_compute; reflexivity|].
  apply readScreen_loop_overflow;
    [unfold rect_in_int32, in_int32, INT_MIN, INT_MAX; simpl; lia | simpl; lia | reflexivity
    | unfold INT_MAX; simpl; lia | vm_compute; reflexivity | vm_compute; lia].
Defined.
