(* ===== verification/Pipeline.v ===== *)
(** * Pipeline: the DMA consumer interleaved with the interrupt handler

    The producer and the DMA hardware share the pool: the chain transmits
    visible row [r] from slot [r % linesCount] (the binding
    [onSetupDMABuffer] installs, vgadirectcontroller.cpp line 168) and the
    interrupt of every [half]-th row renders [half] scanlines from
    [m_lines[scanLine & (linesCount - 1)]] on (lines 326-341, whose
    production state is [prod_step] by [ISRHandler_refines]).

    The model runs a frame as a list of events: [Tx r], the transmission of
    row [r], which reads a slot, and [Isr r], the handler run for the
    interrupt raised by the descriptor of row [r].  The handler runs
    asynchronously: it may complete at any point of the block of [half]
    rows that follows its descriptor, which the schedule expresses by a
    delay [d k < half] per block.  The pool holds, per slot, the scanline
    last rendered into it. *)

From S2P Require Import Prelude Producer.

Inductive Event : Type :=
  | Tx (row : Z)                       (** DMA transmits visible row [row] *)
  | Isr (row : Z).                     (** handler for the eof descriptor of [row] *)

(** The pool as seen by the picture: slot index to the scanline whose
    pixels it holds. *)
Record Pipe : Type := mkPipe { pp_prod : ProdState; pp_slots : gmap Z Z }.

(** The callback fills [n] consecutive lines from slot [li] on with the
    scanlines [sl, sl + 1, ...] (the [half] scanlines of one call). *)
Fixpoint fill_slots (slots : gmap Z Z) (li sl : Z) (n : nat) : gmap Z Z :=
  match n with
  | O => slots
  | S n' => <[li + Z.of_nat n' := sl + Z.of_nat n']> (fill_slots slots li sl n')
  end.

(** One event; a transmission yields whether the row read its own
    scanline.  The handler's reset test is [desc == s_frameResetDesc], the
    descriptor of row 0. *)
Definition pipe_step (linesCount H : Z) (p : Pipe) (e : Event) : Pipe * list bool :=
  match e with
  | Tx r => (p, [bool_decide (pp_slots p !! (r mod linesCount) = Some r)])
  | Isr r =>
      let '(sl, ps') := prod_step linesCount H (bool_decide (r = 0)) (pp_prod p) in
      let lineIndex := Z.land sl (linesCount - 1) in
      (mkPipe ps' (fill_slots (pp_slots p) lineIndex sl (Z.to_nat (linesCount / 2))), [])
  end.

Fixpoint pipe_run (linesCount H : Z) (p : Pipe) (evs : list Event) : Pipe * list bool :=
  match evs with
  | [] => (p, [])
  | e :: rest =>
      let '(p1, r1) := pipe_step linesCount H p e in
      let '(p2, r2) := pipe_run linesCount H p1 rest in
      (p2, r1 ++ r2)
  end.

(** Block [k]: rows [k * half + j], the handler for row [k * half]
    completing after the transmission of row [k * half + dk]. *)
Definition row_events (half k dk j : Z) : list Event :=
  Tx (k * half + j) :: (if bool_decide (j = dk) then [Isr (k * half)] else []).

Definition block_events (half k dk : Z) : list Event :=
  concat (map (row_events half k dk) (zrange 0 half)).

(** A frame of [H] visible rows: [H / half] blocks. *)
Definition frame_schedule (linesCount H : Z) (d : Z -> Z) : list Event :=
  let half := linesCount / 2 in
  concat (map (fun k => block_events half k (d k)) (zrange 0 (H / half))).

(** ** Lemmas *)

Lemma fill_slots_lookup slots li sl n i :
  fill_slots slots li sl n !! i =
    if decide (li <= i < li + Z.of_nat n) then Some (sl + (i - li)) else slots !! i.
Proof.
  induction n as [|n IH]; simpl.
  - case_decide; [lia | done].
  - destruct (decide (i = li + Z.of_nat n)) as [->|Hne].
    + rewrite lookup_insert_eq. rewrite decide_True by lia. f_equal. lia.
    + rewrite lookup_insert_ne by lia. rewrite IH.
      repeat case_decide; try done; lia.
Qed.

Lemma pipe_run_app linesCount H p evs1 evs2 :
  pipe_run linesCount H p (evs1 ++ evs2) =
    let '(p1, r1) := pipe_run linesCount H p evs1 in
    let '(p2, r2) := pipe_run linesCount H p1 evs2 in (p2, r1 ++ r2).
Proof.
  revert p. induction evs1 as [|e rest IH]; intros p; simpl.
  - by destruct (pipe_run linesCount H p evs2).
  - destruct (pipe_step linesCount H p e) as [p1 r1]. rewrite IH.
    destruct (pipe_run linesCount H p1 rest) as [p2 r2].
    destruct (pipe_run linesCount H p2 evs2) as [p3 r3]. by rewrite app_assoc.
Qed.

Lemma pipe_run_concat_app linesCount H p (f : Z -> list Event) x xs :
  pipe_run linesCount H p (concat (map f (x :: xs))) =
    let '(p1, r1) := pipe_run linesCount H p (f x) in
    let '(p2, r2) := pipe_run linesCount H p1 (concat (map f xs)) in (p2, r1 ++ r2).
Proof. simpl. apply pipe_run_app. Qed.

(** Row [k * half + j] of a pool of [2 * half] slots sits in half [k mod 2]. *)
Lemma blk_slot half k j :
  0 < half -> 0 <= j < half -> (k * half + j) mod (2 * half) = k mod 2 * half + j.
Proof.
  intros Hh Hj. pose proof (Z.div_mod k 2 ltac:(lia)) as Hk.
  assert (0 <= k mod 2 < 2) by (apply Z.mod_pos_bound; lia).
  assert (E : k * half = k mod 2 * half + k / 2 * (2 * half)) by (rewrite Hk at 1; ring).
  replace (k * half + j) with (k mod 2 * half + j + k / 2 * (2 * half)) by lia.
  rewrite Z.mod_add by lia. apply Z.mod_small. nia.
Qed.

Lemma zrange_split a m b : a <= m < b -> zrange a b = zrange a m ++ m :: zrange (m + 1) b.
Proof.
  intros Hm. unfold zrange.
  replace (b - a) with ((m - a) + (1 + (b - (m + 1)))) by lia.
  rewrite seqZ_app by lia. f_equal. rewrite seqZ_cons by lia.
  f_equal; [lia|]. f_equal; lia.
Qed.

Lemma mod2_succ k : (k + 1) mod 2 = 1 - k mod 2.
Proof.
  rewrite Zplus_mod. pose proof (Z.mod_pos_bound k 2 ltac:(lia)).
  assert (E : k mod 2 = 0 \/ k mod 2 = 1) by lia. by destruct E as [-> | ->].
Qed.

(** ** One frame, under the hypotheses of the render-ahead scheme *)

Section Frame.
Context (linesCount H : Z).
Hypothesis Hpow2 : is_pow2 linesCount = true.
Hypothesis HN : 2 <= linesCount.
Hypothesis HH : 0 < H.
Hypothesis Hdiv : H mod linesCount = 0.

Local Abbreviation half := (linesCount / 2).

(** Before block [k]: the slots of its rows hold them (modulo [H]: the
    rows of block 0 are rendered by the last interrupt of the previous
    frame), and past block 0 [s_scanLine] is the block's first row. *)
Definition pipe_inv (k : Z) (p : Pipe) : Prop :=
  (forall j, 0 <= j < half ->
     pp_slots p !! ((k * half + j) mod linesCount) = Some ((k * half) mod H + j)) /\
  (0 < k -> s_scanLine (pp_prod p) = k * half).

Lemma N_half : linesCount = 2 * half.
Proof. by apply pow2_half. Qed.

Lemma half_gt0 : 0 < half.
Proof. pose proof (half_pos linesCount HN). lia. Qed.

Lemma H_blocks : H / half * half = H.
Proof.
  pose proof N_half. pose proof half_gt0.
  assert (E : H = 2 * (H / linesCount) * half) by (pose proof (Z.div_mod H linesCount ltac:(lia)); nia).
  rewrite E, Z.div_mul by lia. reflexivity.
Qed.

Lemma tx_segment k dk js p :
  (forall j, j ∈ js -> j <> dk) ->
  (forall j, j ∈ js -> pp_slots p !! ((k * half + j) mod linesCount) = Some (k * half + j)) ->
  pipe_run linesCount H p (concat (map (row_events half k dk) js)) = (p, replicate (length js) true).
Proof.
  induction js as [|j js IH]; intros Hne Hsl; [done|].
  change (concat (map (row_events half k dk) (j :: js)))
    with (row_events half k dk j ++ concat (map (row_events half k dk) js)).
  unfold row_events at 1. rewrite bool_decide_false by (apply Hne; set_solver).
  cbn [app pipe_run pipe_step]. rewrite IH by set_solver.
  rewrite bool_decide_true by (apply Hsl; set_solver). done.
Qed.

Lemma slot_of k j : 0 <= j < half -> (k * half + j) mod linesCount = k mod 2 * half + j.
Proof.
  intros Hj. pose proof (blk_slot half k j half_gt0 Hj) as E. by rewrite <- N_half in E.
Qed.

Lemma mod_H_slot x : (x mod H) mod linesCount = x mod linesCount.
Proof. apply Z.mod_mod_divide. apply Z.mod_divide; lia. Qed.

(** The handler for the first row of block [k] renders block [k + 1]
    (block 0 after the last block) into the half of the pool that block
    [k] does not use. *)
Lemma isr_step k p :
  0 <= k -> k * half < H -> pipe_inv k p ->
  exists p', pipe_step linesCount H p (Isr (k * half)) = (p', []) /\
    s_scanLine (pp_prod p') = (k + 1) * half /\
    (forall j, 0 <= j < half ->
       pp_slots p' !! (((k + 1) * half + j) mod linesCount) = Some (((k + 1) * half) mod H + j)) /\
    (forall j, 0 <= j < half ->
       pp_slots p' !! ((k * half + j) mod linesCount) = pp_slots p !! ((k * half + j) mod linesCount)).
Proof.
  intros Hk HkH [_ Hsc]. pose proof half_gt0.
  assert (Hs0 : (if bool_decide (k * half = 0) then 0 else s_scanLine (pp_prod p)) = k * half).
  { case_bool_decide; [lia | apply Hsc; nia]. }
  unfold pipe_step, prod_step. rewrite Hs0, quot2_nonneg, rem_nonneg_mod by lia.
  assert (0 <= (k * half + half) mod H) by (apply Z.mod_pos_bound; lia).
  rewrite land_pred_pow2 by done.
  assert (Hli : ((k * half + half) mod H) mod linesCount = (k + 1) mod 2 * half).
  { rewrite mod_H_slot. replace (k * half + half) with ((k + 1) * half + 0) by ring.
    rewrite slot_of by lia. lia. }
  rewrite Hli. eexists; split; [reflexivity|]. cbn [pp_prod pp_slots s_scanLine].
  split; [lia|]. split; intros j Hj; rewrite slot_of, fill_slots_lookup, Z2Nat.id by lia.
  - rewrite decide_True by lia. f_equal.
    replace ((k + 1) * half) with (k * half + half) by ring. lia.
  - rewrite mod2_succ. pose proof (Z.mod_pos_bound k 2 ltac:(lia)).
    assert (E : k mod 2 = 0 \/ k mod 2 = 1) by lia.
    destruct E as [E | E]; rewrite E, decide_False by lia; done.
Qed.

(** A block: every row reads its own scanline, whenever the handler of
    its first row completes within the block. *)
Lemma block_ok k dk p :
  0 <= k -> (k + 1) * half <= H -> 0 <= dk < half -> pipe_inv k p ->
  exists p', pipe_run linesCount H p (block_events half k dk) = (p', replicate (Z.to_nat half) true) /\
    pipe_inv (k + 1) p'.
Proof.
  intros Hk HkH Hd Hinv. pose proof half_gt0.
  assert (Hcur : forall j, 0 <= j < half ->
            pp_slots p !! ((k * half + j) mod linesCount) = Some (k * half + j)).
  { intros j Hj. destruct Hinv as [Hs _]. rewrite Hs by done. by rewrite (Z.mod_small (k * half) H) by nia. }
  destruct (isr_step k p) as (p' & Hst & Hsc & Hnext & Hsame); [lia | nia | done |].
  exists p'. split; [| split; [done | intros; done]].
  unfold block_events. rewrite (zrange_split 0 dk half), map_app, concat_app, pipe_run_app by lia.
  rewrite tx_segment; [| intros j ?%elem_of_zrange; lia | intros j ?%elem_of_zrange; apply Hcur; lia].
  rewrite pipe_run_concat_app. unfold row_events at 1. rewrite bool_decide_true by done.
  cbn [pipe_run].
  change (pipe_step linesCount H p (Tx (k * half + dk)))
    with (p, [bool_decide (pp_slots p !! ((k * half + dk) mod linesCount) = Some (k * half + dk))]).
  rewrite bool_decide_true by (apply Hcur; lia). cbn beta iota. rewrite Hst. cbn beta iota.
  rewrite tx_segment; [| intros j ?%elem_of_zrange; lia
                       | intros j ?%elem_of_zrange; rewrite Hsame by lia; apply Hcur; lia].
  rewrite !zrange_length. f_equal.
  replace (Z.to_nat half) with (Z.to_nat (dk - 0) + S (Z.to_nat (half - (dk + 1))))%nat by lia.
  rewrite replicate_add. done.
Qed.

Lemma blocks_ok (d : Z -> Z) (Hd : forall k, 0 <= d k < half) m : forall k0 p,
  0 <= k0 -> k0 + Z.of_nat m <= H / half -> pipe_inv k0 p ->
  exists p', pipe_run linesCount H p
               (concat (map (fun k => block_events half k (d k)) (seqZ k0 (Z.of_nat m))))
             = (p', replicate (m * Z.to_nat half) true) /\ pipe_inv (k0 + Z.of_nat m) p'.
Proof.
  pose proof half_gt0. pose proof H_blocks.
  induction m as [|m IH]; intros k0 p Hk0 Hm Hinv.
  - exists p. rewrite seqZ_nil, Z.add_0_r by lia. done.
  - rewrite Nat2Z.inj_succ, seqZ_cons, Z.pred_succ, pipe_run_concat_app by lia.
    destruct (block_ok k0 (d k0) p) as (p1 & -> & Hinv1); [lia | nia | apply Hd | done |].
    destruct (IH (Z.succ k0) p1) as (p2 & -> & Hinv2); [lia | lia | by rewrite <- Z.add_1_r |].
    exists p2. split.
    + by rewrite <- replicate_add.
    + by replace (k0 + Z.succ (Z.of_nat m)) with (Z.succ k0 + Z.of_nat m) by lia.
Qed.

Lemma pipe_inv_0 p : pipe_inv 0 p <-> forall j, 0 <= j < half -> pp_slots p !! j = Some j.
Proof.
  pose proof half_gt0. pose proof N_half. unfold pipe_inv.
  rewrite Z.mul_0_l, Z.mod_0_l by lia. split.
  - intros [Hs _] j Hj. specialize (Hs j Hj). by rewrite Z.add_0_l, Z.mod_small in Hs by lia.
  - intros Hs. split; [|lia]. intros j Hj. rewrite Z.add_0_l, Z.mod_small by lia. by apply Hs.
Qed.

Lemma pipe_inv_wrap p : pipe_inv (H / half) p -> pipe_inv 0 p.
Proof.
  pose proof half_gt0. pose proof N_half. intros [Hs _]. apply pipe_inv_0. intros j Hj.
  specialize (Hs j Hj). rewrite H_blocks, Z.mod_same, Z.add_0_l in Hs by lia.
  by rewrite Zplus_mod, Hdiv, Z.add_0_l, Z.mod_mod, Z.mod_small in Hs by lia.
Qed.

(** One frame keeps the picture right and hands the next frame a pool
    whose first block holds rows [0 .. half - 1]. *)
Lemma pipeline_frame (d : Z -> Z) p :
  (forall k, 0 <= d k < half) -> pipe_inv 0 p ->
  exists p', pipe_run linesCount H p (frame_schedule linesCount H d) = (p', replicate (Z.to_nat H) true) /\
    pipe_inv 0 p'.
Proof.
  intros Hd Hinv. pose proof half_gt0. pose proof H_blocks.
  assert (0 <= H / half) by (apply Z.div_pos; lia).
  unfold frame_schedule, zrange. rewrite Z.sub_0_r.
  replace (seqZ 0 (H / half)) with (seqZ 0 (Z.of_nat (Z.to_nat (H / half)))) by (by rewrite Z2Nat.id).
  destruct (blocks_ok d Hd (Z.to_nat (H / half)) 0 p) as (p' & -> & Hinv'); [lia | lia | done |].
  exists p'. split.
  - do 2 f_equal. rewrite <- Z2Nat.inj_mul by lia. congruence.
  - apply pipe_inv_wrap. by rewrite Z2Nat.id, Z.add_0_l in Hinv' by lia.
Qed.

(** ** The pipeline property *)

(** C3: producer and consumer never disturb each other: with a
    power-of-two pool dividing the viewport height, and the handler of
    each interrupt completing anywhere within the [half] rows that follow
    its descriptor, every row of every frame is transmitted from a slot
    holding exactly that scanline, frame after frame, once the pool's
    first block holds rows [0 .. half - 1] (as the last interrupt of a
    frame leaves it). *)
Theorem pipeline_frames (d : Z -> Z) (p : Pipe) (f : nat) :
  (forall k, 0 <= d k < half) ->
  (forall j, 0 <= j < half -> pp_slots p !! j = Some j) ->
  (pipe_run linesCount H p (concat (replicate f (frame_schedule linesCount H d)))).2
    = replicate (f * Z.to_nat H) true.
Proof.
  intros Hd Hp. apply pipe_inv_0 in Hp. revert p Hp.
  induction f as [|f IH]; intros p Hp; [done|].
  cbn [replicate concat]. rewrite pipe_run_app.
  destruct (pipeline_frame d p Hd Hp) as (p' & -> & Hp').
  specialize (IH p' Hp'). destruct (pipe_run linesCount H p' _) as [p2 r2].
  simpl in *. subst r2. by rewrite <- replicate_add.
Qed.

End Frame.

(** ** Outside the hypotheses: a race *)


(** ** Witnesses *)

Lemma pipeline_frames_witness :
  (forall k, 0 <= (fun _ : Z => 1) k < 4 / 2) /\
  (forall j, 0 <= j < 4 / 2 -> pp_slots (mkPipe (mkProd 0 false) (<[0 := 0]> (<[1 := 1]> ∅))) !! j = Some j) /\
  (pipe_run 4 8 (mkPipe (mkProd 0 false) (<[0 := 0]> (<[1 := 1]> ∅)))
     (concat (replicate 2 (frame_schedule 4 8 (fun _ => 1))))).2 = replicate (2 * Z.to_nat 8) true.
Proof.
  assert (Hd : forall k, 0 <= (fun _ : Z => 1) k < 4 / 2) by (intros; change (4 / 2) with 2; lia).
  assert (Hp : forall j, 0 <= j < 4 / 2 ->
            pp_slots (mkPipe (mkProd 0 false) (<[0 := 0]> (<[1 := 1]> ∅))) !! j = Some j).
  { intros j Hj. change (4 / 2) with 2 in Hj. assert (E : j = 0 \/ j = 1) by lia.
    by destruct E as [-> | ->]; vm_compute. }
  split; [exact Hd|]. split; [exact Hp|].
  apply (pipeline_frames 4 8); [reflexivity | lia | lia | reflexivity | exact Hd | exact Hp].
Defined.
