(* ===== verification/KbdLayouts.v ===== *)
(** * KbdLayouts: the keyboard layout records and the supported-layouts tables

    [src/src/devdrivers/kbdlayouts.h] declares the records a keyboard layout
    is made of (lines 53-92), the eighteen predefined layouts (their data is
    in a source file that is not part of this repository: they are the
    section variable [layout_of]) and [SupportedLayouts] (lines 152-230),
    three parallel tables indexed by the same position: the descriptions,
    the short names and the layouts themselves.  [VirtualKey] (an enum of
    fabutils.h) is kept as its integer value. *)

From S2P Require Import Prelude.
From stdpp Require Import strings.

(** [VirtualKeyDef]: a raw scancode and its virtual key. *)
Record VirtualKeyDef : Type := mkVirtualKeyDef { scancode : Z; virtualKey : Z }.

(** [AltVirtualKeyDef]: a virtual key, four one-bit shift conditions, the
    generated key. *)
Record AltVirtualKeyDef : Type := mkAltVirtualKeyDef {
  reqVirtualKey : Z; ctrl : bool; lalt : bool; ralt : bool; shift : bool; altVirtualKey : Z
}.

(** [DeadKeyVirtualKeyDef]: dead key + virtual key = replaced virtual key. *)
Record DeadKeyVirtualKeyDef : Type := mkDeadKeyVirtualKeyDef {
  deadKey : Z; deadReqVirtualKey : Z; deadVirtualKey : Z
}.

(** The eighteen layouts declared [extern] (lines 96-148). *)
Inductive LayoutId : Type :=
  | USLayout | UKLayout | GermanLayout | ItalianLayout | SpanishLayout | FrenchLayout
  | BelgianLayout | NorwegianLayout | JapaneseLayout | USInternationalLayout
  | USInternationalAltLayout | SwissGLayout | SwissFLayout | DanishLayout | SwedishLayout
  | PortugueseLayout | BrazilianPortugueseLayout | DvorakLayout.

#[export] Instance LayoutId_eq_dec : EqDecision LayoutId.
Proof. solve_decision. Defined.

(** [KeyboardLayout]: the fixed-size arrays are lists whose lengths the
    well-formedness predicate fixes. *)
Record KeyboardLayout : Type := mkKeyboardLayout {
  name : string;
  desc : string;
  inherited : option LayoutId;
  scancodeToVK : list VirtualKeyDef;
  exScancodeToVK : list VirtualKeyDef;
  alternateVK : list AltVirtualKeyDef;
  deadKeysVK : list Z;
  deadkeysToVK : list DeadKeyVirtualKeyDef
}.

Definition KeyboardLayout_wf (l : KeyboardLayout) : Prop :=
  length (scancodeToVK l) = 86%nat /\ length (exScancodeToVK l) = 22%nat /\
  length (alternateVK l) = 73%nat /\ length (deadKeysVK l) = 8%nat /\
  length (deadkeysToVK l) = 60%nat.

Definition LAYOUTSCOUNT : Z := 18.

Section SupportedLayouts.
Context (layout_of : LayoutId -> KeyboardLayout).

Definition count : Z := LAYOUTSCOUNT.

(** [SupportedLayouts::names()]: the descriptions, in table order. *)
Definition names : list string :=
  [ desc (layout_of GermanLayout); desc (layout_of ItalianLayout); desc (layout_of UKLayout);
    desc (layout_of USLayout); desc (layout_of SpanishLayout); desc (layout_of FrenchLayout);
    desc (layout_of BelgianLayout); desc (layout_of NorwegianLayout);
    desc (layout_of JapaneseLayout); desc (layout_of USInternationalLayout);
    desc (layout_of USInternationalAltLayout); desc (layout_of SwissGLayout);
    desc (layout_of SwissFLayout); desc (layout_of DanishLayout); desc (layout_of SwedishLayout);
    desc (layout_of PortugueseLayout); desc (layout_of BrazilianPortugueseLayout);
    desc (layout_of DvorakLayout) ].

(** [SupportedLayouts::shortNames()]: the short names, in table order. *)
Definition shortNames : list string :=
  [ name (layout_of GermanLayout); name (layout_of ItalianLayout); name (layout_of UKLayout);
    name (layout_of USLayout); name (layout_of SpanishLayout); name (layout_of FrenchLayout);
    name (layout_of BelgianLayout); name (layout_of NorwegianLayout);
    name (layout_of JapaneseLayout); name (layout_of USInternationalLayout);
    name (layout_of USInternationalAltLayout); name (layout_of SwissGLayout);
    name (layout_of SwissFLayout); name (layout_of DanishLayout); name (layout_of SwedishLayout);
    name (layout_of PortugueseLayout); name (layout_of BrazilianPortugueseLayout);
    name (layout_of DvorakLayout) ].

End SupportedLayouts.

(** [SupportedLayouts::layouts()]: the layouts, in table order. *)
Definition layouts : list LayoutId :=
  [ GermanLayout; ItalianLayout; UKLayout; USLayout; SpanishLayout; FrenchLayout;
    BelgianLayout; NorwegianLayout; JapaneseLayout; USInternationalLayout;
    USInternationalAltLayout; SwissGLayout; SwissFLayout; DanishLayout; SwedishLayout;
    PortugueseLayout; BrazilianPortugueseLayout; DvorakLayout ].

(** ** Properties of the tables *)

(** The three tables of [SupportedLayouts] agree position by position: the
    [i]-th description and short name are those of the [i]-th layout, and
    each table has [count()] entries. *)
Theorem supported_layouts_aligned (layout_of : LayoutId -> KeyboardLayout) :
  names layout_of = map (fun l => desc (layout_of l)) layouts /\
  shortNames layout_of = map (fun l => name (layout_of l)) layouts /\
  Z.of_nat (length layouts) = count.
Proof. split; [reflexivity|]. split; reflexivity. Qed.

(** Every declared layout is offered exactly once. *)
Lemma supported_layouts_complete : NoDup layouts /\ forall l : LayoutId, l ∈ layouts.
Proof.
  split.
  - unfold layouts. repeat constructor; set_solver.
  - intros []; unfold layouts; set_solver.
Qed.
